(** * harvard-brainstem: the three ingestion scripts, embedded and verified

    The repository holds three scripts that read the Harvard DASH feed:
    - [ingest_harvard.py]: feed -> AI analysis -> Supabase upsert,
    - [pipeline.py]: feed -> local download -> blob upload,
    - [.github/workflows/scripts/dash_ingest.py]: feed -> blob upload,
      skipping blobs that are already stored.

    Each script is embedded as a function in a small monad that threads the
    state of the outside world, records every contact with an external
    service and every data-bearing console line, and propagates Python
    exceptions.  The external collaborators (feedparser, requests, the
    OpenAI, Supabase and Azure SDKs, the json module, the [open] of a
    local file for writing) are fields of a record of services, so every
    theorem holds whatever they answer.  A feedparser entry is a dict read
    by attribute: a key may be absent, and its read then raises. *)

From Stdlib Require Import String Ascii ZArith QArith Lia.
From stdpp Require Import base list strings gmap.

Set Warnings "-register-all,-abstract-large-number,-clear-no-such-hyp".

Local Open Scope string_scope.
Local Open Scope nat_scope.
Local Open Scope list_scope.

(** ** Python strings

    A [str] is modelled as a Rocq [string], one character per code point
    (code points below 256). *)
Module Py.

Definition nl : string := String (ascii_of_nat 10) EmptyString.

(** [s[:n]] *)
Definition slice_to (n : nat) (s : string) : string := substring 0 n s.

(** [s.endswith(suffix)] *)
Definition endswith (suffix s : string) : bool :=
  let n := String.length s in
  let k := String.length suffix in
  (k <=? n) && String.eqb (substring (n - k) k s) suffix.

(** [s.replace(a, b)] for one-character [a] and [b] *)
Fixpoint replace_char (a b : ascii) (s : string) : string :=
  match s with
  | EmptyString => EmptyString
  | String c r => String (if Ascii.eqb c a then b else c) (replace_char a b r)
  end.

(** [s.split(sep)[-1]] for a one-character [sep]: the text after the last
    separator, or all of [s] when there is none. *)
Fixpoint last_segment (sep : ascii) (s : string) : string :=
  match s with
  | EmptyString => EmptyString
  | String c r =>
      if Ascii.eqb c sep then last_segment sep r
      else if existsb (Ascii.eqb sep) (list_ascii_of_string r)
           then last_segment sep r
           else s
  end.

(** [c.isspace()] on the code points below 256 *)
Definition isspace (c : ascii) : bool :=
  let n := nat_of_ascii c in
  ((9 <=? n) && (n <=? 13)) || ((28 <=? n) && (n <=? 32))
  || (n =? 133) || (n =? 160).

Fixpoint lstrip (s : string) : string :=
  match s with
  | EmptyString => EmptyString
  | String c r => if isspace c then lstrip r else s
  end.

Fixpoint rstrip (s : string) : string :=
  match s with
  | EmptyString => EmptyString
  | String c r =>
      match rstrip r with
      | EmptyString => if isspace c then EmptyString else String c EmptyString
      | r' => String c r'
      end
  end.

(** [s.strip()] *)
Definition strip (s : string) : string := rstrip (lstrip s).

(** [sep.join(parts)] *)
Definition join (sep : string) (parts : list string) : string :=
  String.concat sep parts.

(** Truthiness of an [Optional[str]]: [None] and [""] are falsy. *)
Definition truthy_str (v : option string) : bool :=
  match v with
  | None => false
  | Some s => negb (String.eqb s "")
  end.

(** [c in s] for a character [c] *)
Definition contains (c : ascii) (s : string) : bool :=
  existsb (Ascii.eqb c) (list_ascii_of_string s).

End Py.

(** ** Exceptions and results *)

(** The subclasses of [Exception] the scripts can meet. *)
Inductive exn :=
| JSONDecodeError
| RecursionError
| AttributeError
| KeyError
| IndexError
| ZeroDivisionError
| OSError
| ServiceError (msg : string).

(** What a [raise] carries: an [Exception], which [except Exception]
    catches, or [SystemExit], which it does not. *)
Inductive raised :=
| Exc (e : exn)
| SystemExit (code : Z).

Inductive result (A : Type) :=
| Ok (a : A)
| Raise (r : raised).
Arguments Ok {A} a.
Arguments Raise {A} r.

(** Answer of a call into a library or service. *)
Inductive call (A : Type) :=
| Returned (a : A)
| Raised (e : exn).
Arguments Returned {A} a.
Arguments Raised {A} e.

Definition result_of_call {A} (c : call A) : result A :=
  match c with
  | Returned a => Ok a
  | Raised e => Raise (Exc e)
  end.

(** An attribute read on a feedparser object ([entry.title], [link.type]):
    the objects are dicts, and the read of an absent key raises
    [AttributeError]. *)
Definition getattr {A} (field : option A) : call A :=
  match field with
  | Some a => Returned a
  | None => Raised AttributeError
  end.

(** Exit code of the interpreter for the outcome of a script. *)
Definition exit_code {A} (r : result A) : Z :=
  match r with
  | Ok _ => 0
  | Raise (SystemExit c) => c
  | Raise (Exc _) => 1
  end.

Definition is_JSONDecodeError (e : exn) : bool :=
  match e with JSONDecodeError => true | _ => false end.

(** What [requests.get] returns. *)
Record Response := {
  status_code : Z;
  content : string
}.

(** Two answers used in the concrete runs. *)
Definition pdf_ok : Response :=
  {| status_code := 200; content := "%PDF-1.4" |}.

Definition not_found : Response :=
  {| status_code := 404; content := "Not Found" |}.

(** ** The script monad

    [M E W A]: a computation over world states [W] that returns an [A] or
    raises, and emits events of type [E] on the way. *)
Definition M (E W A : Type) : Type := W -> result A * W * list E.

Section Monad.
Context {E W : Type}.

Definition ret {A} (a : A) : M E W A := fun w => (Ok a, w, []).

Definition bind {A B} (m : M E W A) (k : A -> M E W B) : M E W B :=
  fun w =>
    match m w with
    | (Ok a, w1, t1) => let '(r, w2, t2) := k a w1 in (r, w2, t1 ++ t2)
    | (Raise x, w1, t1) => (Raise x, w1, t1)
    end.

Definition raise {A} (x : raised) : M E W A := fun w => (Raise x, w, []).

Definition emit (e : E) : M E W unit := fun w => (Ok tt, w, [e]).

(** [try: body / except <catches> as e: handler e] *)
Definition try_catch {A} (catches : exn -> bool)
    (body : M E W A) (handler : exn -> M E W A) : M E W A :=
  fun w =>
    match body w with
    | (Raise (Exc e), w1, t1) =>
        if catches e
        then let '(r, w2, t2) := handler e w1 in (r, w2, t1 ++ t2)
        else (Raise (Exc e), w1, t1)
    | other => other
    end.

(** [try: body / except Exception as e: handler e] *)
Definition try_except {A} (body : M E W A) (handler : exn -> M E W A)
  : M E W A := try_catch (fun _ => true) body handler.

(** A call that changes the world and is recorded as the event [ev]. *)
Definition contact {A} (ev : E) (f : W -> call A * W) : M E W A :=
  fun w => let '(c, w1) := f w in (result_of_call c, w1, [ev]).

(** A library call that neither reads nor changes the world. *)
Definition pure_call {A} (c : call A) : M E W A :=
  fun w => (result_of_call c, w, []).
End Monad.

Notation "'let*' x ':=' m 'in' k" := (bind m (fun x => k))
  (at level 10, x pattern, m at level 100, k at level 200, only parsing).
Notation "m >> k" := (bind m (fun _ => k))
  (at level 60, right associativity, only parsing).

Definition outcome {E W A} (x : result A * W * list E) : result A := x.1.1.
Definition world {E W A} (x : result A * W * list E) : W := x.1.2.
Definition trace {E W A} (x : result A * W * list E) : list E := x.2.

(** ** JSON values and the reference decoder

    [json.loads] is a library function: the scripts take it from the
    services record.  [Json.loads] is the decoder used for the concrete
    runs below: a lexer and a stack machine for the grammar of Python's
    [json] module, each one pass over its input.  [limit] is the nesting
    depth at which the interpreter raises [RecursionError]. *)
Module Json.

Inductive json :=
| JNull
| JBool (b : bool)
| JNumber (literal : string)
| JString (s : string)
| JArray (items : list json)
| JObject (members : list (string * json)).

(** [d[k] = v] on a dict kept in insertion order *)
Fixpoint dict_set (k : string) (v : json) (d : list (string * json))
  : list (string * json) :=
  match d with
  | [] => [(k, v)]
  | (k', v') :: r =>
      if String.eqb k' k then (k, v) :: r else (k', v') :: dict_set k v r
  end.

Fixpoint dict_lookup (k : string) (d : list (string * json)) : option json :=
  match d with
  | [] => None
  | (k', v) :: r => if String.eqb k' k then Some v else dict_lookup k r
  end.

(** [d.get(k, dflt)] *)
Definition dict_get (k : string) (dflt : json) (d : list (string * json))
  : json := default dflt (dict_lookup k d).

Inductive token :=
| TLBrace | TRBrace | TLBracket | TRBracket | TColon | TComma
| TValue (v : json)
| TBad.

Inductive num_state :=
| NMinus | NZero | NInt | NDot | NFrac | NExp | NExpSign | NExpDigits.

Inductive lex_state :=
| LStart
| LString (acc : string)
| LEscape (acc : string)
| LUnicode (acc : string) (hex : string)
| LNumber (st : num_state) (acc : string)
| LWord (rest : string) (v : json)
| LBad.

Definition snoc (s : string) (c : ascii) : string :=
  s +:+ String c EmptyString.

Definition is_digit (c : ascii) : bool :=
  let n := nat_of_ascii c in (48 <=? n) && (n <=? 57).

Definition hex_value (c : ascii) : option nat :=
  let n := nat_of_ascii c in
  if (48 <=? n) && (n <=? 57) then Some (n - 48)
  else if (65 <=? n) && (n <=? 70) then Some (n - 55)
  else if (97 <=? n) && (n <=? 102) then Some (n - 87)
  else None.

Fixpoint hex_number (acc : nat) (s : string) : option nat :=
  match s with
  | EmptyString => Some acc
  | String c r =>
      match hex_value c with
      | Some d => hex_number (16 * acc + d) r
      | None => None
      end
  end.

(** The text denoted by [\uXXXX]; a code point above 255 has no character
    in this model and keeps its escaped spelling. *)
Definition unicode_escape (hex : string) : option string :=
  match hex_number 0 hex with
  | Some n =>
      Some (if n <? 256 then String (ascii_of_nat n) EmptyString
            else "\u" +:+ hex)
  | None => None
  end.

(** The double quote. *)
Definition quote : ascii := ascii_of_nat 34.

(** [s] between double quotes. *)
Definition quoted (s : string) : string :=
  String quote (s +:+ String quote EmptyString).

Definition simple_escape (c : ascii) : option ascii :=
  if Ascii.eqb c quote then Some quote else
  match c with
  | "\"%char => Some "\"%char
  | "/"%char => Some "/"%char
  | "b"%char => Some (ascii_of_nat 8)
  | "f"%char => Some (ascii_of_nat 12)
  | "n"%char => Some (ascii_of_nat 10)
  | "r"%char => Some (ascii_of_nat 13)
  | "t"%char => Some (ascii_of_nat 9)
  | _ => None
  end.

(** A character met between tokens. *)
Definition lex_start (c : ascii) : lex_state * list token :=
  if Ascii.eqb c quote then (LString "", []) else
  match c with
  | " "%char => (LStart, [])
  | "{"%char => (LStart, [TLBrace])
  | "}"%char => (LStart, [TRBrace])
  | "["%char => (LStart, [TLBracket])
  | "]"%char => (LStart, [TRBracket])
  | ":"%char => (LStart, [TColon])
  | ","%char => (LStart, [TComma])
  | "n"%char => (LWord "ull" JNull, [])
  | "t"%char => (LWord "rue" (JBool true), [])
  | "f"%char => (LWord "alse" (JBool false), [])
  | "N"%char => (LWord "aN" (JNumber "NaN"), [])
  | "I"%char => (LWord "nfinity" (JNumber "Infinity"), [])
  | "-"%char => (LNumber NMinus "-", [])
  | "0"%char => (LNumber NZero "0", [])
  | _ =>
      let n := nat_of_ascii c in
      if (n =? 9) || (n =? 10) || (n =? 13) then (LStart, [])
      else if is_digit c then (LNumber NInt (String c EmptyString), [])
      else (LBad, [TBad])
  end.

Definition is_exp (c : ascii) : bool :=
  Ascii.eqb c "e" || Ascii.eqb c "E".

(** One character inside a number; [None] when the number ends before it. *)
Definition num_step (st : num_state) (c : ascii) : option (option num_state) :=
  match st with
  | NMinus =>
      if Ascii.eqb c "0" then Some (Some NZero)
      else if is_digit c then Some (Some NInt)
      else Some None
  | NZero =>
      if Ascii.eqb c "." then Some (Some NDot)
      else if is_exp c then Some (Some NExp)
      else None
  | NInt =>
      if is_digit c then Some (Some NInt)
      else if Ascii.eqb c "." then Some (Some NDot)
      else if is_exp c then Some (Some NExp)
      else None
  | NDot => if is_digit c then Some (Some NFrac) else Some None
  | NFrac =>
      if is_digit c then Some (Some NFrac)
      else if is_exp c then Some (Some NExp)
      else None
  | NExp =>
      if is_digit c then Some (Some NExpDigits)
      else if Ascii.eqb c "+" || Ascii.eqb c "-" then Some (Some NExpSign)
      else Some None
  | NExpSign => if is_digit c then Some (Some NExpDigits) else Some None
  | NExpDigits => if is_digit c then Some (Some NExpDigits) else None
  end.

Definition num_complete (st : num_state) : bool :=
  match st with
  | NZero | NInt | NFrac | NExpDigits => true
  | _ => false
  end.

Definition lex_step (st : lex_state) (c : ascii) : lex_state * list token :=
  match st with
  | LStart => lex_start c
  | LString acc =>
      if Ascii.eqb c quote then (LStart, [TValue (JString acc)])
      else if Ascii.eqb c "\" then (LEscape acc, [])
      else if nat_of_ascii c <? 32 then (LBad, [TBad])
      else (LString (snoc acc c), [])
  | LEscape acc =>
      if Ascii.eqb c "u" then (LUnicode acc "", [])
      else match simple_escape c with
           | Some d => (LString (snoc acc d), [])
           | None => (LBad, [TBad])
           end
  | LUnicode acc hex =>
      let hex' := snoc hex c in
      if String.length hex' <? 4 then
        match hex_value c with
        | Some _ => (LUnicode acc hex', [])
        | None => (LBad, [TBad])
        end
      else match unicode_escape hex' with
           | Some s => (LString (acc +:+ s), [])
           | None => (LBad, [TBad])
           end
  | LNumber ns acc =>
      match num_step ns c with
      | Some (Some ns') => (LNumber ns' (snoc acc c), [])
      | Some None =>
          match ns, c with
          | NMinus, "I"%char => (LWord "nfinity" (JNumber "-Infinity"), [])
          | _, _ => (LBad, [TBad])
          end
      | None =>
          let '(st', ts) := lex_start c in (st', TValue (JNumber acc) :: ts)
      end
  | LWord rest v =>
      match rest with
      | EmptyString => (LBad, [TBad])
      | String d EmptyString =>
          if Ascii.eqb c d then (LStart, [TValue v]) else (LBad, [TBad])
      | String d rest' =>
          if Ascii.eqb c d then (LWord rest' v, []) else (LBad, [TBad])
      end
  | LBad => (LBad, [])
  end.

Definition lex_end (st : lex_state) : list token :=
  match st with
  | LStart | LBad => []
  | LNumber ns acc => if num_complete ns then [TValue (JNumber acc)] else [TBad]
  | _ => [TBad]
  end.

Fixpoint lex (st : lex_state) (s : string) : list token :=
  match s with
  | EmptyString => lex_end st
  | String c r => let '(st', ts) := lex_step st c in ts ++ lex st' r
  end.

Inductive frame :=
| FArray (items : list json)
| FObject (members : list (string * json))
| FMember (members : list (string * json)) (key : string).

Inductive parse_state :=
| PValue | PFirstItem | PFirstKey | PKey
| PColon (key : string)
| PAfter
| PDone (v : json).

(** A value is complete: hand it to the enclosing container. *)
Definition complete (v : json) (stack : list frame)
  : call (parse_state * list frame) :=
  match stack with
  | [] => Returned (PDone v, [])
  | FArray items :: st => Returned (PAfter, FArray (items ++ [v]) :: st)
  | FMember ms k :: st => Returned (PAfter, FObject (dict_set k v ms) :: st)
  | FObject _ :: _ => Raised JSONDecodeError
  end.

Definition open_container (limit : nat) (f : frame) (next : parse_state)
    (stack : list frame) : call (parse_state * list frame) :=
  if limit <=? length stack then Raised RecursionError
  else Returned (next, f :: stack).

Definition parse_value (limit : nat) (t : token) (stack : list frame)
  : call (parse_state * list frame) :=
  match t with
  | TValue v => complete v stack
  | TLBracket => open_container limit (FArray []) PFirstItem stack
  | TLBrace => open_container limit (FObject []) PFirstKey stack
  | _ => Raised JSONDecodeError
  end.

Definition parse_step (limit : nat) (ps : parse_state) (stack : list frame)
    (t : token) : call (parse_state * list frame) :=
  match ps, t, stack with
  | PValue, _, _ => parse_value limit t stack
  | PFirstItem, TRBracket, FArray items :: st => complete (JArray items) st
  | PFirstItem, _, _ => parse_value limit t stack
  | PFirstKey, TRBrace, FObject ms :: st => complete (JObject ms) st
  | (PFirstKey | PKey), TValue (JString k), _ => Returned (PColon k, stack)
  | PColon k, TColon, FObject ms :: st => Returned (PValue, FMember ms k :: st)
  | PAfter, TComma, FArray _ :: _ => Returned (PValue, stack)
  | PAfter, TRBracket, FArray items :: st => complete (JArray items) st
  | PAfter, TComma, FObject _ :: _ => Returned (PKey, stack)
  | PAfter, TRBrace, FObject ms :: st => complete (JObject ms) st
  | _, _, _ => Raised JSONDecodeError
  end.

Fixpoint parse (limit : nat) (ps : parse_state) (stack : list frame)
    (ts : list token) : call json :=
  match ts with
  | [] => match ps with PDone v => Returned v | _ => Raised JSONDecodeError end
  | t :: r =>
      match parse_step limit ps stack t with
      | Returned (ps', stack') => parse limit ps' stack' r
      | Raised e => Raised e
      end
  end.

(** [json.loads(s)] *)
Definition loads (limit : nat) (s : string) : call json :=
  parse limit PValue [] (lex LStart s).

End Json.
Export Json(json(..)).

(** ** ingest_harvard.py: feed -> AI analysis -> Supabase *)
Module IngestHarvard.

Definition DASH_RSS_FEED : string := "https://dash.harvard.edu/feed/rss_1.0/site".
Definition MAX_PAPERS_PER_RUN : nat := 10.
Definition MAX_TEXT_LENGTH : nat := 8000.

(** The four module-level settings, each [os.environ.get(...)]. *)
Record Config := {
  AZURE_AI_ENDPOINT : option string;
  AZURE_AI_KEY : option string;
  SUPABASE_URL : option string;
  SUPABASE_KEY : option string
}.

Definition load_config (environ : gmap string string) : Config :=
  {| AZURE_AI_ENDPOINT := environ !! "AZURE_AI_ENDPOINT";
     AZURE_AI_KEY := environ !! "AZURE_AI_KEY";
     SUPABASE_URL := environ !! "SUPABASE_URL";
     SUPABASE_KEY := environ !! "SUPABASE_KEY" |}.

(** A feedparser entry, read with [entry.get(key, default)]. *)
Definition Entry : Type := gmap string string.

Record Paper := {
  title : string;
  link : string;
  summary : string;
  published : string;
  authors : string;
  id : string
}.

(** A value passed through [json.dumps]. *)
Inductive dumped := Dumps (v : json).

(** The record handed to [upsert]. *)
Record Row := {
  paper_id : string;
  row_title : string;
  row_authors : string;
  published_date : string;
  row_link : string;
  row_summary : string;
  ai_topic : json;
  ai_findings : dumped;
  ai_methodology : json;
  ai_significance : json;
  ai_keywords : dumped;
  processed_at : string;
  source : string;
  metadata : dumped
}.

Record ChatRequest := {
  model : string;
  system_content : string;
  user_content : string;
  temperature : Q;
  max_tokens : nat
}.

(** Console lines that carry data (banner rules and wall-clock stamps are
    not traced). *)
Inductive log_line :=
| LogMissingEnv (names : string)
| LogEnvValidated
| LogFetching (url : string)
| LogNoEntries
| LogFetched (n : nat)
| LogFetchError (e : exn)
| LogAnalyzing (title60 : string)
| LogAnalysisCompleted
| LogTopic (topic : json)
| LogAnalysisFailed (e : exn)
| LogStoring
| LogInsertSuccessful
| LogRecordId (id40 : string)
| LogInsertNoData
| LogInsertFailed (e : exn)
| LogAborted
| LogNoPapers
| LogProcessing (i n : nat)
| LogPapersFetched (n : nat)
| LogStored (n : nat)
| LogFailed (n : nat)
| LogSuccessRate (percent : Q)
| LogComplete.

Inductive event :=
| EvFeedParse (url : string)
| EvChatCreate (req : ChatRequest)
| EvUpsert (table : string) (row : Row) (on_conflict : string)
| EvLog (line : log_line).

(** The collaborators of the script. *)
Record Services (W : Type) := {
  feedparser_parse : string -> W -> call (list Entry) * W;
  OpenAI : option string -> string -> call unit;
  chat_completions_create : ChatRequest -> W -> call (list (option string)) * W;
  json_loads : string -> call json;
  create_client : option string -> option string -> call unit;
  utcnow_isoformat : W -> string;
  upsert_execute : string -> Row -> string -> W -> call (list Row) * W
}.
Arguments feedparser_parse {W}.
Arguments OpenAI {W}.
Arguments chat_completions_create {W}.
Arguments json_loads {W}.
Arguments create_client {W}.
Arguments utcnow_isoformat {W}.
Arguments upsert_execute {W}.

Definition required (cfg : Config) : list (string * option string) :=
  [("AZURE_AI_ENDPOINT", AZURE_AI_ENDPOINT cfg);
   ("AZURE_AI_KEY", AZURE_AI_KEY cfg);
   ("SUPABASE_URL", SUPABASE_URL cfg);
   ("SUPABASE_KEY", SUPABASE_KEY cfg)].

Definition missing (cfg : Config) : list string :=
  map fst (filter (fun nv => negb (Py.truthy_str (snd nv))) (required cfg)).

Definition paper_of_entry (entry : Entry) : Paper :=
  {| title := default "Untitled" (entry !! "title");
     link := default "" (entry !! "link");
     summary := default "" (entry !! "summary");
     published := default "" (entry !! "published");
     authors := default "Unknown" (entry !! "author");
     id := default (default "" (entry !! "link")) (entry !! "id") |}.

(** The part of the message before the summary. *)
Definition text_header (paper : Paper) : string :=
  Py.nl +:+ "Title: " +:+ title paper +:+ Py.nl
  +:+ "Authors: " +:+ authors paper +:+ Py.nl
  +:+ "Published: " +:+ published paper +:+ Py.nl
  +:+ Py.nl
  +:+ "Summary:" +:+ Py.nl.

Definition text_to_analyze (paper : Paper) : string :=
  Py.nl +:+ "Title: " +:+ title paper +:+ Py.nl
  +:+ "Authors: " +:+ authors paper +:+ Py.nl
  +:+ "Published: " +:+ published paper +:+ Py.nl
  +:+ Py.nl
  +:+ "Summary:" +:+ Py.nl
  +:+ Py.slice_to MAX_TEXT_LENGTH (summary paper) +:+ Py.nl.

Definition prompt : string :=
  "You are an expert academic paper analyzer. Analyze this Harvard research paper and provide a structured response with:

1. Main Topic/Field (one phrase)
2. Key Findings (2-3 bullet points)
3. Methodology (brief description)
4. Significance (1-2 sentences)
5. Keywords (5-7 relevant terms)

Format your response as clean JSON with keys: topic, findings, methodology, significance, keywords".

Definition chat_request (paper : Paper) : ChatRequest :=
  {| model := "gpt-3.5-turbo";
     system_content := prompt;
     user_content := text_to_analyze paper;
     temperature := 3 # 10;
     max_tokens := 800 |}.

(** The annotation substituted when the reply is not JSON. *)
Definition default_items (analysis_text : string) : list (string * json) :=
  [("topic", JString "Academic Research");
   ("findings", JArray [JString (Py.slice_to 200 analysis_text)]);
   ("methodology", JString "See summary");
   ("significance", JString (Py.slice_to 300 analysis_text));
   ("keywords", JArray [JString "research"; JString "Harvard";
                        JString "academic"])].

Definition default_analysis (analysis_text : string) : json :=
  JObject (default_items analysis_text).

Definition base_url (endpoint : string) : string :=
  if Py.endswith "/v1" endpoint then endpoint else endpoint +:+ "/v1".

Definition row_of (paper : Paper) (analysis : list (string * json))
    (now : string) : Row :=
  {| paper_id := id paper;
     row_title := title paper;
     row_authors := authors paper;
     published_date := published paper;
     row_link := link paper;
     row_summary := Py.slice_to 500 (summary paper);
     ai_topic := Json.dict_get "topic" (JString "") analysis;
     ai_findings := Dumps (Json.dict_get "findings" (JArray []) analysis);
     ai_methodology := Json.dict_get "methodology" (JString "") analysis;
     ai_significance := Json.dict_get "significance" (JString "") analysis;
     ai_keywords := Dumps (Json.dict_get "keywords" (JArray []) analysis);
     processed_at := now;
     source := "Harvard DASH";
     metadata := Dumps (JObject [("feed_url", JString DASH_RSS_FEED);
                                 ("processed_by", JString "harvard-pipeline");
                                 ("ai_model", JString "gpt-3.5-turbo")]) |}.

(** [successful/len(papers)*100] *)
Definition success_rate (successful total : nat) : call Q :=
  match total with
  | O => Raised ZeroDivisionError
  | S _ => Returned ((Z.of_nat successful # Pos.of_nat total) * 100)%Q
  end.

Section Script.
Context {W : Type} (sv : Services W) (cfg : Config).

Local Abbreviation Run := (M event W).

Definition log (line : log_line) : Run unit := emit (EvLog line).

Definition validate_environment : Run bool :=
  match missing cfg with
  | [] => log LogEnvValidated >> ret true
  | names => log (LogMissingEnv (Py.join ", " names)) >> ret false
  end.

Definition fetch_harvard_papers : Run (list Paper) :=
  log (LogFetching DASH_RSS_FEED) >>
  try_except
    (let* entries :=
       contact (EvFeedParse DASH_RSS_FEED) (feedparser_parse sv DASH_RSS_FEED) in
     match entries with
     | [] => log LogNoEntries >> ret []
     | _ =>
         let papers := map paper_of_entry (take MAX_PAPERS_PER_RUN entries) in
         log (LogFetched (length papers)) >> ret papers
     end)
    (fun e => log (LogFetchError e) >> ret []).

(** [AZURE_AI_ENDPOINT.endswith('/v1')]: an attribute of a possibly
    absent string. *)
Definition endpoint_base_url : call string :=
  match AZURE_AI_ENDPOINT cfg with
  | Some endpoint => Returned (base_url endpoint)
  | None => Raised AttributeError
  end.

(** [response.choices[0].message.content.strip()] *)
Definition first_content (choices : list (option string)) : call string :=
  match choices with
  | [] => Raised IndexError
  | None :: _ => Raised AttributeError
  | Some content :: _ => Returned (Py.strip content)
  end.

(** [analysis.get('topic', 'N/A')], which only a dict supports;
    returns the dict along with the value. *)
Definition analysis_topic (analysis : json)
  : call (list (string * json) * json) :=
  match analysis with
  | JObject d => Returned (d, Json.dict_get "topic" (JString "N/A") d)
  | _ => Raised AttributeError
  end.

Definition analyze_paper_with_ai (paper : Paper)
  : Run (option (list (string * json))) :=
  log (LogAnalyzing (Py.slice_to 60 (title paper))) >>
  try_except
    (let* url := pure_call endpoint_base_url in
     let* _ := pure_call (OpenAI sv (AZURE_AI_KEY cfg) url) in
     let* choices :=
       contact (EvChatCreate (chat_request paper))
               (chat_completions_create sv (chat_request paper)) in
     let* analysis_text := pure_call (first_content choices) in
     let* analysis :=
       try_catch is_JSONDecodeError
         (pure_call (json_loads sv analysis_text))
         (fun _ => ret (default_analysis analysis_text)) in
     log LogAnalysisCompleted >>
     let* dt := pure_call (analysis_topic analysis) in
     log (LogTopic (snd dt)) >>
     ret (Some (fst dt)))
    (fun e => log (LogAnalysisFailed e) >> ret None).

(** [datetime.utcnow().isoformat()] *)
Definition utcnow : Run string :=
  fun w => (Ok (utcnow_isoformat sv w), w, []).

Definition store_in_supabase (paper : Paper)
    (analysis : list (string * json)) : Run bool :=
  log LogStoring >>
  try_except
    (let* _ := pure_call (create_client sv (SUPABASE_URL cfg) (SUPABASE_KEY cfg)) in
     let* now := utcnow in
     let data := row_of paper analysis now in
     let* result_data :=
       contact (EvUpsert "harvard_papers" data "paper_id")
               (upsert_execute sv "harvard_papers" data "paper_id") in
     match result_data with
     | _ :: _ =>
         log LogInsertSuccessful >>
         log (LogRecordId (Py.slice_to 40 (id paper))) >>
         ret true
     | [] => log LogInsertNoData >> ret false
     end)
    (fun e => log (LogInsertFailed e) >> ret false).

(** [if not analysis]: [None] and the empty dict are falsy. *)
Definition truthy_analysis (analysis : option (list (string * json)))
  : option (list (string * json)) :=
  match analysis with
  | Some (m :: d) => Some (m :: d)
  | _ => None
  end.

(** The [for i, paper in enumerate(papers, 1)] loop of [main]; [total]
    is [len(papers)] and the result the two counters. *)
Fixpoint main_loop (total i : nat) (papers : list Paper)
    (successful failed : nat) : Run (nat * nat) :=
  match papers with
  | [] => ret (successful, failed)
  | paper :: rest =>
      log (LogProcessing i total) >>
      let* analysis := analyze_paper_with_ai paper in
      match truthy_analysis analysis with
      | None => main_loop total (S i) rest successful (S failed)
      | Some a =>
          let* stored := store_in_supabase paper a in
          if stored
          then main_loop total (S i) rest (S successful) failed
          else main_loop total (S i) rest successful (S failed)
      end
  end.

Definition summary_block (papers : list Paper) (successful failed : nat)
  : Run unit :=
  log (LogPapersFetched (length papers)) >>
  log (LogStored successful) >>
  log (LogFailed failed) >>
  let* rate := pure_call (success_rate successful (length papers)) in
  log (LogSuccessRate rate) >>
  log LogComplete.

Definition main : Run unit :=
  let* valid := validate_environment in
  if negb valid then log LogAborted >> raise (SystemExit 1)
  else
    let* papers := fetch_harvard_papers in
    match papers with
    | [] => log LogNoPapers >> ret tt
    | _ =>
        let* counters := main_loop (length papers) 1 papers 0 0 in
        summary_block papers (fst counters) (snd counters)
    end.
End Script.

(** The script run as [__main__]: the settings are read from the
    environment when the module is loaded, then [main()] runs. *)
Definition script {W} (sv : Services W) (environ : gmap string string)
  : M event W unit := main sv (load_config environ).

Definition required_names : list string :=
  ["AZURE_AI_ENDPOINT"; "AZURE_AI_KEY"; "SUPABASE_URL"; "SUPABASE_KEY"].

(** The setting is not in the environment, or is the empty string. *)
Definition unset (environ : gmap string string) (name : string) : Prop :=
  environ !! name = None \/ environ !! name = Some "".

(** What [fetch_harvard_papers] answers, by the answer of the feed. *)
Definition fetched (c : call (list Entry)) : list Paper :=
  match c with
  | Returned entries => map paper_of_entry (take MAX_PAPERS_PER_RUN entries)
  | Raised _ => []
  end.

Definition fetch_line (c : call (list Entry)) : log_line :=
  match c with
  | Returned [] => LogNoEntries
  | Returned _ => LogFetched (length (fetched c))
  | Raised e => LogFetchError e
  end.

(** *** Reading a trace *)

Definition is_contact (ev : event) : bool :=
  match ev with EvLog _ => false | _ => true end.


(** The papers a run starts to work on, by their [Processing paper i/n]
    lines. *)
Definition processing_lines (t : list event) : list (nat * nat) :=
  omap (fun ev => match ev with
                  | EvLog (LogProcessing i n) => Some (i, n)
                  | _ => None
                  end) t.

(** The [Analyzing: ...] lines of a trace. *)
Definition analyzing_lines (t : list event) : list string :=
  omap (fun ev => match ev with
                  | EvLog (LogAnalyzing t60) => Some t60
                  | _ => None
                  end) t.

(** The successful stores of a trace. *)
Definition insert_successes (t : list event) : nat :=
  length (omap (fun ev => match ev with
                          | EvLog LogInsertSuccessful => Some tt
                          | _ => None
                          end) t).

(** What the analysis of [paper] may leave in a trace after its
    [Analyzing] line. *)
Definition analysis_event (paper : Paper) (ev : event) : Prop :=
  match ev with
  | EvChatCreate req => req = chat_request paper
  | EvLog (LogAnalysisCompleted | LogTopic _ | LogAnalysisFailed _) => True
  | _ => False
  end.

(** What the storing of [paper] may leave in a trace after its [Storing]
    line. *)
Definition store_event (paper : Paper) (ev : event) : Prop :=
  match ev with
  | EvUpsert table row on_conflict =>
      table = "harvard_papers" /\ on_conflict = "paper_id"
      /\ exists analysis now, row = row_of paper analysis now
  | EvLog (LogInsertSuccessful | LogRecordId _ | LogInsertNoData
          | LogInsertFailed _) => True
  | _ => False
  end.

(** What the work on [paper] may leave in a trace. *)
Definition item_event (paper : Paper) (ev : event) : Prop :=
  match ev with
  | EvLog (LogProcessing _ _ | LogAnalyzing _ | LogStoring) => True
  | _ => analysis_event paper ev \/ store_event paper ev
  end.


(** The requests and rows of a run come from papers. *)
Definition from_paper (ev : event) : Prop :=
  match ev with
  | EvChatCreate req => exists paper, req = chat_request paper
  | EvUpsert _ row _ => exists paper analysis now, row = row_of paper analysis now
  | _ => True
  end.

(** The lines of the summary block in a trace. *)
Definition summary_lines (t : list event) : list log_line :=
  omap (fun ev => match ev with
                  | EvLog (LogPapersFetched n) => Some (LogPapersFetched n)
                  | EvLog (LogStored n) => Some (LogStored n)
                  | EvLog (LogFailed n) => Some (LogFailed n)
                  | EvLog (LogSuccessRate q) => Some (LogSuccessRate q)
                  | _ => None
                  end) t.

(** *** A reference world: the table [harvard_papers] keyed by [paper_id]

    The feed and the model's replies are fixed; every upsert succeeds and
    returns the stored row. *)
Definition table_services (feed : call (list Entry))
    (reply : ChatRequest -> call (list (option string)))
  : Services (gmap string Row) :=
  {| feedparser_parse := fun _ w => (feed, w);
     OpenAI := fun key _ =>
       match key with
       | Some _ => Returned tt
       | None => Raised (ServiceError "OpenAIError")
       end;
     chat_completions_create := fun req w => (reply req, w);
     json_loads := Json.loads 1000;
     create_client := fun _ _ => Returned tt;
     utcnow_isoformat := fun _ => "2025-01-01T00:00:00";
     upsert_execute := fun _ row _ w =>
       (Returned [row], <[paper_id row := row]> w) |}.

Definition full_environ : gmap string string :=
  {[ "AZURE_AI_ENDPOINT" := "https://ai.example/v1";
     "AZURE_AI_KEY" := "key";
     "SUPABASE_URL" := "https://db.example";
     "SUPABASE_KEY" := "key" ]}.

(** A feed of one entry and a model that answers a JSON object. *)
Definition sample_entry : Entry :=
  {[ "title" := "On Torts"; "id" := "oai:dash.harvard.edu:1/1";
     "link" := "https://dash.harvard.edu/handle/1/1";
     "summary" := "A study of tort law." ]}.

(** Eleven entries, told apart by their titles. *)
Definition eleven_entries : list Entry :=
  map (fun name => {[ "title" := name; "id" := "oai:" +:+ name ]})
      ["a"; "b"; "c"; "d"; "e"; "f"; "g"; "h"; "i"; "j"; "k"].

Definition sample_reply : string :=
  "{" +:+ Json.quoted "topic" +:+ ": " +:+ Json.quoted "Law" +:+ "}".

Definition sample_services : Services (gmap string Row) :=
  table_services (Returned [sample_entry])
                 (fun _ => Returned [Some sample_reply]).

Definition full_config : Config := load_config full_environ.

(** A reply nested deeper than the decoder of the reference world goes. *)
Definition deep_reply : string :=
  string_of_list_ascii (repeat "["%char 1001).

(** A value that is not a dict. *)
Definition not_a_dict (v : json) : Prop :=
  match v with JObject _ => False | _ => True end.

(** The requests a trace sends to the Enricher, and the rows it upserts. *)
Definition chat_requests (t : list event) : list ChatRequest :=
  omap (fun ev => match ev with EvChatCreate req => Some req | _ => None end) t.

Definition upsert_rows (t : list event) : list Row :=
  omap (fun ev => match ev with EvUpsert _ row _ => Some row | _ => None end) t.

End IngestHarvard.

(** ** pipeline.py: feed -> local download -> blob upload *)
Module Pipeline.

Definition DASH_RSS_FEED : string := "https://dash.harvard.edu/feed/rss_1.0/site".
Definition DOWNLOAD_DIR : string := "downloads".
Definition CONTAINER_NAME : string := "law-dropzone".

(** A feedparser entry, read as [entry.title] and [entry.link]; either
    key may be absent from the entry. *)
Record Entry := {
  title : option string;
  link : option string
}.

Inductive log_line :=
| LogFound (n : nat)
| LogDownloading (title : string)
| LogAlreadyDownloaded (title : string)
| LogUploaded (pdf_filename container : string)
| LogComplete.

Inductive event :=
| EvFeedParse (url : string)
| EvHttpGet (url : string)
| EvUploadBlob (container name data : string) (overwrite : bool)
| EvLog (line : log_line).

(** The collaborators of the script: the remote services, and the local
    file system's answer to [open(path, "wb")] over the files it holds. *)
Record Services (W : Type) := {
  from_connection_string : string -> call unit;
  feedparser_parse : string -> W -> call (list Entry) * W;
  requests_get : string -> W -> call Response * W;
  upload_blob : string -> string -> string -> bool -> W -> call unit * W;
  open_wb : string -> gmap string string -> call unit
}.
Arguments from_connection_string {W}.
Arguments feedparser_parse {W}.
Arguments requests_get {W}.
Arguments upload_blob {W}.
Arguments open_wb {W}.

(** The state the script works on: the files under the working directory
    and the state of the remote world. *)
Record World (W : Type) := {
  files : gmap string string;
  remote : W
}.
Arguments files {W}.
Arguments remote {W}.

(** [os.path.join(DOWNLOAD_DIR, name)] for a name without a slash *)
Definition path_join (dir name : string) : string := dir +:+ "/" +:+ name.

Section Script.
Context {W : Type} (sv : Services W) (environ : gmap string string).

Local Abbreviation Run := (M event (World W)).

Definition log (line : log_line) : Run unit := emit (EvLog line).

(** A contact with a remote service: only the remote part of the world
    changes. *)
Definition remotely {A} (ev : event) (f : W -> call A * W) : Run A :=
  contact ev (fun w => let '(c, r) := f (remote w) in
                       (c, {| files := files w; remote := r |})).

(** [os.path.exists(path)] *)
Definition path_exists (path : string) : Run bool :=
  fun w => (Ok (bool_decide (is_Some (files w !! path))), w, []).

(** [with open(path, "wb") as f: f.write(data)]: the [open] may raise
    [OSError] (a name the file system refuses, a folder that cannot be
    written), and then no file is made. *)
Definition write_file (path data : string) : Run unit :=
  fun w =>
    match open_wb sv path (files w) with
    | Returned _ =>
        (Ok tt, {| files := <[path := data]> (files w); remote := remote w |}, [])
    | Raised e => (Raise (Exc e), w, [])
    end.

(** [open(path, "rb")] and the read of its content *)
Definition read_file (path : string) : Run string :=
  fun w => (match files w !! path with
            | Some data => Ok data
            | None => Raise (Exc OSError)
            end, w, []).

(** [BlobServiceClient.from_connection_string(AZURE_CONNECTION_STRING)]:
    the SDK parses its argument as a string, which [None] is not. *)
Definition connect (conn : option string) : call unit :=
  match conn with
  | Some s => from_connection_string sv s
  | None => Raised AttributeError
  end.

(** The body of [for entry in feed.entries]. *)
Definition process_entry (entry : Entry) : Run unit :=
  let* entry_title := pure_call (getattr (title entry)) in
  let title := Py.replace_char "/" "_" (Py.replace_char " " "_" entry_title) in
  let* link := pure_call (getattr (link entry)) in
  if negb (Py.endswith ".pdf" link) then ret tt
  else
    let pdf_filename := title +:+ ".pdf" in
    let pdf_path := path_join DOWNLOAD_DIR pdf_filename in
    let* present := path_exists pdf_path in
    (if negb present
     then log (LogDownloading title) >>
          let* r := remotely (EvHttpGet link) (requests_get sv link) in
          write_file pdf_path (content r)
     else log (LogAlreadyDownloaded title)) >>
    let* data := read_file pdf_path in
    remotely (EvUploadBlob CONTAINER_NAME pdf_filename data true)
             (upload_blob sv CONTAINER_NAME pdf_filename data true) >>
    log (LogUploaded pdf_filename CONTAINER_NAME).

Fixpoint for_entries (entries : list Entry) : Run unit :=
  match entries with
  | [] => ret tt
  | entry :: rest => process_entry entry >> for_entries rest
  end.

(** The whole script.  [os.makedirs(DOWNLOAD_DIR, exist_ok=True)] leaves
    the files of the model as they are. *)
Definition script : Run unit :=
  let AZURE_CONNECTION_STRING := environ !! "AZURE_CONNECTION_STRING" in
  let* _ := pure_call (connect AZURE_CONNECTION_STRING) in
  let* entries := remotely (EvFeedParse DASH_RSS_FEED)
                           (feedparser_parse sv DASH_RSS_FEED) in
  log (LogFound (length entries)) >>
  for_entries entries >>
  log LogComplete.
End Script.

(** The entry carries a PDF link. *)
Definition has_pdf_link (entry : Entry) : bool :=
  match link entry with
  | Some url => Py.endswith ".pdf" url
  | None => false
  end.

(** The entry has both keys the loop reads. *)
Definition complete (entry : Entry) : bool :=
  match title entry, link entry with
  | Some _, Some _ => true
  | _, _ => false
  end.

(** The entry is one the loop passes over with [continue]: it has both
    keys, and its link does not end in ".pdf". *)
Definition skipped (entry : Entry) : bool :=
  complete entry && negb (has_pdf_link entry).

Definition is_upload (ev : event) : bool :=
  match ev with EvUploadBlob _ _ _ _ => true | _ => false end.

(** *** A reference world: the container as a map from blob names to data

    The feed and the answer to each GET are fixed; an upload succeeds
    unless the blob exists and [overwrite] is off; the local file system
    takes every write. *)
Definition container_services (feed : call (list Entry))
    (get : string -> call Response) : Services (gmap string string) :=
  {| from_connection_string := fun _ => Returned tt;
     feedparser_parse := fun _ w => (feed, w);
     requests_get := fun url w => (get url, w);
     upload_blob := fun _ name data overwrite w =>
       if overwrite || negb (bool_decide (is_Some (w !! name)))
       then (Returned tt, <[name := data]> w)
       else (Raised (ServiceError "ResourceExistsError"), w);
     open_wb := fun _ _ => Returned tt |}.

(** The same world over a file system that refuses a file name of more
    than [limit] characters. *)
Definition name_limit_services (limit : nat) (feed : call (list Entry))
    (get : string -> call Response) : Services (gmap string string) :=
  {| from_connection_string := fun _ => Returned tt;
     feedparser_parse := fun _ w => (feed, w);
     requests_get := fun url w => (get url, w);
     upload_blob := fun _ name data overwrite w =>
       if overwrite || negb (bool_decide (is_Some (w !! name)))
       then (Returned tt, <[name := data]> w)
       else (Raised (ServiceError "ResourceExistsError"), w);
     open_wb := fun path _ =>
       if limit <? String.length (Py.last_segment "/" path)
       then Raised OSError else Returned tt |}.

(** The same world over a container that refuses every upload. *)
Definition sealed_container_services (feed : call (list Entry))
    (get : string -> call Response) : Services (gmap string string) :=
  {| from_connection_string := fun _ => Returned tt;
     feedparser_parse := fun _ w => (feed, w);
     requests_get := fun url w => (get url, w);
     upload_blob := fun _ _ _ _ w => (Raised (ServiceError "HttpResponseError"), w);
     open_wb := fun _ _ => Returned tt |}.

(** The uploads of a trace. *)
Definition uploads (t : list event) : list event :=
  List.filter is_upload t.

(** Eleven PDF entries. *)
Definition eleven_entries : list Entry :=
  map (fun name => {| title := Some name;
                      link := Some ("https://dash.harvard.edu/bitstream/1/"
                                    +:+ name +:+ ".pdf") |})
      ["a"; "b"; "c"; "d"; "e"; "f"; "g"; "h"; "i"; "j"; "k"].

(** A feed of one PDF entry, fetched with the given answer. *)
Definition sample_url : string :=
  "https://dash.harvard.edu/bitstream/1/1/torts.pdf".

Definition sample_entry : Entry :=
  {| title := Some "On Torts"; link := Some sample_url |}.

Definition sample_services (answer : call Response)
  : Services (gmap string string) :=
  container_services (Returned [sample_entry]) (fun _ => answer).

Definition sample_environ : gmap string string :=
  {[ "AZURE_CONNECTION_STRING" := "DefaultEndpointsProtocol=https" ]}.

Definition empty_world : World (gmap string string) :=
  {| files := ∅; remote := ∅ |}.

(** The local names of the loop body: the title with blanks and slashes
    replaced, the name of the PDF and its path in the download folder. *)
Definition safe_title (entry : Entry) : string :=
  Py.replace_char "/" "_" (Py.replace_char " " "_" (default "" (title entry))).

Definition pdf_filename (entry : Entry) : string := safe_title entry +:+ ".pdf".

Definition pdf_path (entry : Entry) : string :=
  path_join DOWNLOAD_DIR (pdf_filename entry).

(** The addresses a trace fetches. *)
Definition gets (t : list event) : list string :=
  omap (fun ev => match ev with EvHttpGet url => Some url | _ => None end) t.

(** The names and data a trace uploads. *)
Definition uploaded (t : list event) : list (string * string) :=
  omap (fun ev => match ev with
                  | EvUploadBlob _ name data _ => Some (name, data)
                  | _ => None
                  end) t.

(** A path directly inside the download folder. *)
Definition in_download_dir (path : string) : Prop :=
  exists name, path = path_join DOWNLOAD_DIR name /\ Py.contains "/" name = false.

(** An upload as the script makes them: into the container, overwriting,
    under a name that ends in ".pdf" and has neither slash nor blank. *)
Definition well_named (ev : event) : Prop :=
  match ev with
  | EvUploadBlob container name _ overwrite =>
      container = CONTAINER_NAME /\ overwrite = true
      /\ Py.endswith ".pdf" name = true
      /\ Py.contains "/" name = false /\ Py.contains " " name = false
  | _ => True
  end.

End Pipeline.

(** ** dash_ingest.py: feed -> blob upload, skipping stored blobs *)
Module DashIngest.

Definition DASH_FEED_URL : string :=
  "https://dash.harvard.edu/feed/rss_2.0/1741.1/34902198".
Definition container_name : string := "law-dropzone".

(** A link of an entry, read as [link.type] and [link.href]; either key
    may be absent. *)
Record Link := {
  type : option string;
  href : option string
}.

(** A feedparser entry, read as [entry.links]; the key may be absent. *)
Record Entry := {
  links : option (list Link)
}.

Inductive log_line :=
| LogSkipping (pdf_name : string)
| LogDownloading (pdf_name : string)
| LogUploaded (pdf_name : string)
| LogFailed (pdf_url : string).

Inductive event :=
| EvFeedParse (url : string)
| EvListBlobs (container : string)
| EvHttpGet (url : string)
| EvUploadBlob (container name data : string)
| EvLog (line : log_line).

Record Services (W : Type) := {
  from_connection_string : string -> call unit;
  feedparser_parse : string -> W -> call (list Entry) * W;
  list_blobs : string -> W -> call (list string) * W;
  requests_get : string -> W -> call Response * W;
  upload_blob : string -> string -> string -> W -> call unit * W
}.
Arguments from_connection_string {W}.
Arguments feedparser_parse {W}.
Arguments list_blobs {W}.
Arguments requests_get {W}.
Arguments upload_blob {W}.

Section Script.
Context {W : Type} (sv : Services W) (environ : gmap string string).

Local Abbreviation Run := (M event W).

Definition log (line : log_line) : Run unit := emit (EvLog line).

(** [os.environ[name]] *)
Definition environ_item (name : string) : call string :=
  match environ !! name with
  | Some v => Returned v
  | None => Raised KeyError
  end.

(** The body of [for link in entry.links]. *)
Definition process_link (link : Link) : Run unit :=
  let* link_type := pure_call (getattr (type link)) in
  if String.eqb link_type "application/pdf" then
    let* pdf_url := pure_call (getattr (href link)) in
    let pdf_name := Py.last_segment "/" pdf_url in
    let* names := contact (EvListBlobs container_name)
                          (list_blobs sv container_name) in
    if existsb (fun name => String.eqb name pdf_name) names
    then log (LogSkipping pdf_name)
    else
      log (LogDownloading pdf_name) >>
      let* r := contact (EvHttpGet pdf_url) (requests_get sv pdf_url) in
      if (status_code r =? 200)%Z
      then contact (EvUploadBlob container_name pdf_name (content r))
                   (upload_blob sv container_name pdf_name (content r)) >>
           log (LogUploaded pdf_name)
      else log (LogFailed pdf_url)
  else ret tt.

Fixpoint for_links (ls : list Link) : Run unit :=
  match ls with
  | [] => ret tt
  | link :: rest => process_link link >> for_links rest
  end.

(** The body of [for entry in feed.entries]. *)
Definition process_entry (entry : Entry) : Run unit :=
  let* entry_links := pure_call (getattr (links entry)) in
  for_links entry_links.

Fixpoint for_entries (entries : list Entry) : Run unit :=
  match entries with
  | [] => ret tt
  | entry :: rest => process_entry entry >> for_entries rest
  end.

Definition script : Run unit :=
  let* conn_str := pure_call (environ_item "AZURE_STORAGE_CONN_STRING") in
  let* _ := pure_call (from_connection_string sv conn_str) in
  let* entries := contact (EvFeedParse DASH_FEED_URL)
                          (feedparser_parse sv DASH_FEED_URL) in
  for_entries entries.
End Script.

Definition is_pdf (link : Link) : bool :=
  match type link with
  | Some link_type => String.eqb link_type "application/pdf"
  | None => false
  end.

(** The link has a type, and it is not that of a PDF. *)
Definition other_type (link : Link) : bool :=
  match type link with
  | Some link_type => negb (String.eqb link_type "application/pdf")
  | None => false
  end.

(** The entry carries a PDF link. *)
Definition has_pdf_link (entry : Entry) : bool :=
  existsb is_pdf (default [] (links entry)).

(** The entry is one the loops pass over: it has its links, each of
    them has a type, and none is a PDF. *)
Definition skipped (entry : Entry) : bool :=
  match links entry with
  | Some entry_links => forallb other_type entry_links
  | None => false
  end.

Definition is_upload (ev : event) : bool :=
  match ev with EvUploadBlob _ _ _ => true | _ => false end.

(** The uploads of a trace. *)
Definition uploads (t : list event) : list event :=
  List.filter is_upload t.

(** *** A reference world: the container as a map from blob names to data

    The feed and the answer to each GET are fixed; the listing names the
    stored blobs and an upload fails when the blob exists. *)
Definition container_services (feed : call (list Entry))
    (get : string -> call Response) : Services (gmap string string) :=
  {| from_connection_string := fun _ => Returned tt;
     feedparser_parse := fun _ w => (feed, w);
     list_blobs := fun _ w => (Returned (map fst (map_to_list w)), w);
     requests_get := fun url w => (get url, w);
     upload_blob := fun _ name data w =>
       match w !! name with
       | Some _ => (Raised (ServiceError "ResourceExistsError"), w)
       | None => (Returned tt, <[name := data]> w)
       end |}.

(** Two PDF links in two entries, the first after an HTML link. *)
Definition first_url : string :=
  "https://dash.harvard.edu/bitstream/1/1/torts.pdf".

Definition first_pdf : Link :=
  {| type := Some "application/pdf"; href := Some first_url |}.

Definition second_pdf : Link :=
  {| type := Some "application/pdf";
     href := Some "https://dash.harvard.edu/bitstream/1/2/contracts.pdf" |}.

Definition html_link : Link :=
  {| type := Some "text/html";
     href := Some "https://dash.harvard.edu/handle/1/1" |}.

Definition sample_feed : list Entry :=
  [{| links := Some [html_link; first_pdf] |};
   {| links := Some [second_pdf] |}].

(** The feed above, with the given answer for the first PDF and a PDF
    for every other address. *)
Definition sample_services (first_answer : call Response)
  : Services (gmap string string) :=
  container_services (Returned sample_feed)
    (fun url => if String.eqb url first_url then first_answer
                else Returned pdf_ok).

Definition sample_environ : gmap string string :=
  {[ "AZURE_STORAGE_CONN_STRING" := "DefaultEndpointsProtocol=https" ]}.



(** The local name [pdf_name] of the loop body. *)
Definition pdf_name (link : Link) : string :=
  Py.last_segment "/" (default "" (href link)).

(** The addresses a trace fetches, its listings of the container, and the
    names and data it uploads. *)
Definition gets (t : list event) : list string :=
  omap (fun ev => match ev with EvHttpGet url => Some url | _ => None end) t.

Definition listings (t : list event) : nat :=
  length (omap (fun ev => match ev with EvListBlobs _ => Some tt | _ => None end) t).

Definition uploaded (t : list event) : list (string * string) :=
  omap (fun ev => match ev with
                  | EvUploadBlob _ name data => Some (name, data)
                  | _ => None
                  end) t.

(** An upload as the script makes them: into the container, under a name
    without a slash. *)
Definition well_named (ev : event) : Prop :=
  match ev with
  | EvUploadBlob container name _ =>
      container = container_name /\ Py.contains "/" name = false
  | _ => True
  end.

(** The link has the keys the loop reads of it: its type, and its
    address when it is a PDF link.  The entry has its links, and they
    have their keys. *)
Definition readable (link : Link) : bool :=
  match type link with
  | Some link_type =>
      if String.eqb link_type "application/pdf"
      then bool_decide (is_Some (href link)) else true
  | None => false
  end.

Definition complete (entry : Entry) : bool :=
  match links entry with
  | Some entry_links => forallb readable entry_links
  | None => false
  end.

(** What the body of the loop leaves in the reference container for one
    PDF link: the container as it is when the name is stored or the GET
    is not answered with status 200, else the container with the body of
    the answer under the name. *)
Definition store_link (get : string -> call Response)
    (w : gmap string string) (link : Link) : gmap string string :=
  match href link with
  | Some url =>
      match w !! Py.last_segment "/" url, get url with
      | None, Returned r =>
          if (status_code r =? 200)%Z
          then <[Py.last_segment "/" url := content r]> w else w
      | _, _ => w
      end
  | None => w
  end.

(** The PDF links of a feed, in the order of the two loops. *)
Definition pdf_links (entries : list Entry) : list Link :=
  List.filter is_pdf (concat (map (fun entry => default [] (links entry)) entries)).

End DashIngest.

(** * Properties *)

(** ** Strings *)

Lemma length_slice_to (n : nat) (s : string) :
  String.length (Py.slice_to n s) <= n.
Proof.
  unfold Py.slice_to. revert s.
  induction n as [|n IH]; intros [|c s]; simpl; try lia.
  specialize (IH s). lia.
Qed.

Lemma slice_to_prefix (n : nat) (s : string) :
  exists rest, s = Py.slice_to n s +:+ rest.
Proof.
  unfold Py.slice_to. revert s.
  induction n as [|n IH]; intros [|c s]; simpl; eauto.
  destruct (IH s) as [rest Hrest]. exists rest.
  change (String c s = String c (substring 0 n s +:+ rest)). by f_equal.
Qed.

Lemma slice_to_empty (n : nat) (s : string) :
  Py.slice_to (S n) s = "" <-> s = "".
Proof. unfold Py.slice_to. destruct s; simpl; split; congruence. Qed.

Lemma append_assoc (a b c : string) : (a +:+ b) +:+ c = a +:+ (b +:+ c).
Proof.
  induction a as [|x a IH]; [reflexivity|].
  change (String x ((a +:+ b) +:+ c) = String x (a +:+ b +:+ c)).
  by rewrite IH.
Qed.

Lemma contains_cons (c x : ascii) (s : string) :
  Py.contains c (String x s) = Ascii.eqb c x || Py.contains c s.
Proof. reflexivity. Qed.

Lemma contains_append (c : ascii) (a b : string) :
  Py.contains c (a +:+ b) = Py.contains c a || Py.contains c b.
Proof.
  induction a as [|x a IH]; [reflexivity|].
  change (String x a +:+ b) with (String x (a +:+ b)).
  by rewrite !contains_cons, IH, orb_assoc.
Qed.

Lemma replace_char_removes (a b : ascii) (s : string) :
  a <> b -> Py.contains a (Py.replace_char a b s) = false.
Proof.
  intros Hab. induction s as [|x s IH]; [reflexivity|].
  cbn [Py.replace_char]. rewrite contains_cons, IH, orb_false_r.
  destruct (Ascii.eqb_spec x a) as [->|Hxa]; by apply Ascii.eqb_neq.
Qed.

Lemma replace_char_keeps_out (a b c : ascii) (s : string) :
  c <> b -> Py.contains c s = false ->
  Py.contains c (Py.replace_char a b s) = false.
Proof.
  intros Hcb. induction s as [|x s IH]; [reflexivity|].
  cbn [Py.replace_char]. rewrite !contains_cons.
  intros [Hx Hs]%orb_false_elim. rewrite (IH Hs), orb_false_r.
  destruct (Ascii.eqb x a); [by apply Ascii.eqb_neq|done].
Qed.

Lemma length_replace_char (a b : ascii) (s : string) :
  String.length (Py.replace_char a b s) = String.length s.
Proof. induction s as [|x s IH]; [reflexivity|]. cbn. by rewrite IH. Qed.

Lemma length_append (a b : string) :
  String.length (a +:+ b) = String.length a + String.length b.
Proof.
  induction a as [|x a IH]; [reflexivity|].
  change (String x a +:+ b) with (String x (a +:+ b)). cbn. by rewrite IH.
Qed.

Lemma substring_all (s : string) : substring 0 (String.length s) s = s.
Proof. induction s as [|x s IH]; [reflexivity|]. cbn. by rewrite IH. Qed.

Lemma substring_skip (a b : string) (m : nat) :
  substring (String.length a) m (a +:+ b) = substring 0 m b.
Proof.
  induction a as [|x a IH]; [reflexivity|].
  change (String x a +:+ b) with (String x (a +:+ b)). exact IH.
Qed.

Lemma endswith_append (suffix s : string) :
  Py.endswith suffix (s +:+ suffix) = true.
Proof.
  unfold Py.endswith. rewrite length_append.
  replace (String.length s + String.length suffix - String.length suffix)
    with (String.length s) by lia.
  rewrite substring_skip, substring_all, String.eqb_refl, andb_true_r.
  apply Nat.leb_le. lia.
Qed.

Lemma last_segment_no_sep (sep : ascii) (s : string) :
  Py.contains sep s = false -> Py.last_segment sep s = s.
Proof.
  destruct s as [|x s]; [reflexivity|].
  rewrite contains_cons. intros [Hx Hs]%orb_false_elim.
  cbn [Py.last_segment]. rewrite Ascii.eqb_sym, Hx.
  unfold Py.contains in Hs. by rewrite Hs.
Qed.

Lemma last_segment_clean (sep : ascii) (s : string) :
  Py.contains sep (Py.last_segment sep s) = false.
Proof.
  induction s as [|x s IH]; [reflexivity|]. cbn [Py.last_segment].
  destruct (Ascii.eqb x sep) eqn:Hx; [exact IH|].
  destruct (existsb (Ascii.eqb sep) (list_ascii_of_string s)) eqn:Hs; [exact IH|].
  rewrite contains_cons, Ascii.eqb_sym, Hx. exact Hs.
Qed.

Lemma last_segment_after (sep : ascii) (before name : string) :
  Py.contains sep name = false ->
  Py.last_segment sep (before +:+ String sep name) = name.
Proof.
  intros Hname. induction before as [|x before IH].
  - change ("" +:+ String sep name) with (String sep name).
    cbn [Py.last_segment]. rewrite Ascii.eqb_refl.
    by apply last_segment_no_sep.
  - change (String x before +:+ String sep name)
      with (String x (before +:+ String sep name)).
    cbn [Py.last_segment]. destruct (Ascii.eqb x sep); [exact IH|].
    fold (Py.contains sep (before +:+ String sep name)).
    by rewrite contains_append, contains_cons, Ascii.eqb_refl, orb_true_r.
Qed.

Example strip_blanks : Py.strip "  a b  " = "a b" /\ Py.strip "  " = "".
Proof. split; reflexivity. Qed.

Example last_segment_of_url :
  Py.last_segment "/" "https://dash.harvard.edu/bitstream/1/1/torts.pdf"
  = "torts.pdf".
Proof. reflexivity. Qed.

(** ** The reference decoder on small inputs *)

Example loads_object :
  Json.loads 1000 IngestHarvard.sample_reply
  = Returned (JObject [("topic", JString "Law")]).
Proof. reflexivity. Qed.

Example loads_nested :
  Json.loads 1000 "[1, -2.5e3, true, null, [], {}]"
  = Returned (JArray [JNumber "1"; JNumber "-2.5e3"; JBool true; JNull;
                      JArray []; JObject []]).
Proof. reflexivity. Qed.

Example loads_rejects :
  Json.loads 1000 "" = Raised JSONDecodeError
  /\ Json.loads 1000 "The paper studies tort law." = Raised JSONDecodeError
  /\ Json.loads 1000 "[1, 2,]" = Raised JSONDecodeError
  /\ Json.loads 1000 "{} {}" = Raised JSONDecodeError
  /\ Json.loads 2 "[[[]]]" = Raised RecursionError.
Proof. repeat split; reflexivity. Qed.

(** ** The monad *)

Section MonadFacts.
Context {E W : Type}.

Lemma bind_ok {A B} (m : M E W A) (k : A -> M E W B) w a w1 t1 :
  m w = (Ok a, w1, t1) ->
  bind m k w = (outcome (k a w1), world (k a w1), t1 ++ trace (k a w1)).
Proof.
  intros H. unfold bind, outcome, world, trace. rewrite H.
  destruct (k a w1) as [[r w2] t2]. reflexivity.
Qed.

Lemma bind_raise {A B} (m : M E W A) (k : A -> M E W B) w x w1 t1 :
  m w = (Raise x, w1, t1) -> bind m k w = (Raise x, w1, t1).
Proof. intros H. unfold bind. rewrite H. reflexivity. Qed.

Lemma outcome_run {A} (r : result A) (w : W) (t : list E) :
  outcome (r, w, t) = r.
Proof. reflexivity. Qed.

Lemma world_run {A} (r : result A) (w : W) (t : list E) :
  world (r, w, t) = w.
Proof. reflexivity. Qed.

Lemma trace_run {A} (r : result A) (w : W) (t : list E) :
  trace (r, w, t) = t.
Proof. reflexivity. Qed.

End MonadFacts.

Lemma omap_none {A B} (f : A -> option B) (P : A -> Prop) (l : list A) :
  Forall P l -> (forall x, P x -> f x = None) -> omap f l = [].
Proof.
  intros Hl Hf. induction Hl as [|x l Hx _ IH]; simpl; [done|].
  by rewrite (Hf x Hx).
Qed.

Lemma omap_cons {A B} (f : A -> option B) (x : A) (l : list A) :
  omap f (x :: l)
  = match f x with Some y => y :: omap f l | None => omap f l end.
Proof. reflexivity. Qed.

(** ** ingest_harvard.py *)

Section IngestHarvardFacts.
Import IngestHarvard.
Context {W : Type} (sv : Services W) (cfg : Config).

Ltac unfold_run :=
  unfold log, utcnow, try_except, try_catch, bind, ret, emit, contact,
    pure_call, raise, result_of_call in *.

(** The analysis never raises: it answers a dict or [None], after its
    [Analyzing] line and events of the analysis only. *)
Lemma analyze_spec (paper : Paper) (w : W) :
  exists a w' t,
    analyze_paper_with_ai sv cfg paper w
    = (Ok a, w', EvLog (LogAnalyzing (Py.slice_to 60 (title paper))) :: t)
    /\ Forall (analysis_event paper) t.
Proof.
  unfold analyze_paper_with_ai. unfold_run.
  repeat (case_match; simplify_eq/=);
    do 3 eexists; (split; [reflexivity|]);
    repeat constructor.
Qed.

(** Storing never raises: it answers a boolean, which is [true] exactly
    when the trace has the line of a successful insert. *)
Lemma store_spec (paper : Paper) (a : list (string * json)) (w : W) :
  exists b w' t,
    store_in_supabase sv cfg paper a w = (Ok b, w', EvLog LogStoring :: t)
    /\ Forall (store_event paper) t
    /\ insert_successes t = (if b then 1 else 0).
Proof.
  unfold store_in_supabase. unfold_run.
  repeat (case_match; simplify_eq/=);
    do 3 eexists; (split; [reflexivity|]); (split; [|reflexivity]);
    repeat constructor; eauto.
Qed.

Lemma analysis_event_quiet (paper : Paper) (t : list event) :
  Forall (analysis_event paper) t ->
  processing_lines t = [] /\ analyzing_lines t = []
  /\ insert_successes t = 0 /\ summary_lines t = [].
Proof.
  intros Ht. unfold processing_lines, analyzing_lines, insert_successes, summary_lines.
  rewrite !(omap_none _ _ _ Ht); [done|..];
    by intros [| | |[]].
Qed.

Lemma store_event_quiet (paper : Paper) (t : list event) :
  Forall (store_event paper) t ->
  processing_lines t = [] /\ analyzing_lines t = [] /\ summary_lines t = [].
Proof.
  intros Ht. unfold processing_lines, analyzing_lines, summary_lines.
  rewrite !(omap_none _ _ _ Ht); [done|..];
    by intros [| | |[]].
Qed.

(** The loop of [main]: it never raises, starts every paper in order, and
    moves exactly one counter per paper, [successful] once per successful
    insert. *)
Lemma main_loop_spec (total : nat) (papers : list Paper) :
  forall (i successful failed : nat) (w : W),
  exists s' f' w' t,
    main_loop sv cfg total i papers successful failed w = (Ok (s', f'), w', t)
    /\ s' + f' = successful + failed + length papers
    /\ s' = successful + insert_successes t
    /\ processing_lines t = map (fun k => (k, total)) (seq i (length papers))
    /\ analyzing_lines t = map (fun p => Py.slice_to 60 (title p)) papers
    /\ summary_lines t = []
    /\ Forall (fun ev => exists p, p ∈ papers /\ item_event p ev) t.
Proof.
  induction papers as [|paper rest IH]; intros i s f w.
  { exists s, f, w, []. cbn. repeat split; try lia. constructor. }
  destruct (analyze_spec paper w) as (a & w1 & t1 & Ha & Ht1).
  destruct (analysis_event_quiet _ _ Ht1) as (Hp1 & Ha1 & Hi1 & Hs1).
  assert (Hitem1 : Forall (fun ev => exists p, p ∈ paper :: rest /\ item_event p ev) t1).
  { eapply Forall_impl; [exact Ht1|]. intros ev Hev. exists paper.
    split; [left|]. destruct ev as [| | |[]]; simpl in *; tauto. }
  assert (Hlift : forall t, Forall (fun ev => exists p, p ∈ rest /\ item_event p ev) t ->
                 Forall (fun ev => exists p, p ∈ paper :: rest /\ item_event p ev) t).
  { intros t Ht. eapply Forall_impl; [exact Ht|].
    intros ev (p & Hp & Hev). exists p. split; [by right|done]. }
  assert (Hhere : forall ev, item_event paper ev ->
                 exists p, p ∈ paper :: rest /\ item_event p ev).
  { intros ev Hev. exists paper. split; [left|done]. }
  cbn [main_loop]. unfold bind at 1, log, emit. unfold bind at 1. rewrite Ha.
  destruct (truthy_analysis a) as [d|] eqn:Htruthy.
  - destruct (store_spec paper d w1) as (b & w2 & t2 & Hst & Ht2 & Hcount).
    destruct (store_event_quiet _ _ Ht2) as (Hp2 & Ha2 & Hs2).
    assert (Hitem2 : Forall (fun ev => exists p, p ∈ paper :: rest /\ item_event p ev) t2).
    { eapply Forall_impl; [exact Ht2|]. intros ev Hev. exists paper.
      split; [left|]. destruct ev as [| | |[]]; simpl in *; tauto. }
    unfold bind at 1. rewrite Hst.
    destruct b;
      [destruct (IH (S i) (S s) f w2)
         as (s' & f' & w' & t & Hrun & Hsum & Hsucc & Hproc & Hana & Hsm & Hall)
      |destruct (IH (S i) s (S f) w2)
         as (s' & f' & w' & t & Hrun & Hsum & Hsucc & Hproc & Hana & Hsm & Hall)];
      rewrite Hrun; (do 4 eexists); (split; [reflexivity|]);
      unfold processing_lines, analyzing_lines, insert_successes, summary_lines in *;
      rewrite ?omap_app, ?omap_cons; cbv beta iota; rewrite ?omap_app;
      rewrite Hp1, Hp2, Ha1, Ha2, Hs1, Hs2, Hproc, Hana, Hsm;
      rewrite ?length_app in *; simpl length in *; simpl seq; simpl map;
      (repeat split; try (cbn; lia); try done);
      (apply Forall_cons; split; [by apply Hhere; exact I|]);
      (apply Forall_cons; split; [by apply Hhere; exact I|]);
      (apply Forall_app; split; [done|]);
      (apply Forall_cons; split; [by apply Hhere; exact I|]);
      (apply Forall_app; split; [done|]); by apply Hlift.
  - destruct (IH (S i) s (S f) w1)
      as (s' & f' & w' & t & Hrun & Hsum & Hsucc & Hproc & Hana & Hsm & Hall).
    rewrite Hrun. do 4 eexists. split; [reflexivity|].
    unfold processing_lines, analyzing_lines, insert_successes, summary_lines in *.
    rewrite ?omap_app, ?omap_cons. cbv beta iota. rewrite ?omap_app.
    rewrite Hp1, Ha1, Hs1, Hproc, Hana, Hsm.
    rewrite ?length_app in *. simpl length in *. simpl seq. simpl map.
    repeat split; try (cbn; lia); try done.
    apply Forall_cons; split; [by apply Hhere; exact I|].
    apply Forall_cons; split; [by apply Hhere; exact I|].
    apply Forall_app; split; [done|]. by apply Hlift.
Qed.

Lemma validate_ok (w : W) :
  missing cfg = [] ->
  validate_environment cfg w = (Ok true, w, [EvLog LogEnvValidated]).
Proof. intros H. unfold validate_environment. by rewrite H. Qed.

Lemma validate_missing (w : W) :
  missing cfg <> [] ->
  validate_environment cfg w
  = (Ok false, w, [EvLog (LogMissingEnv (Py.join ", " (missing cfg)))]).
Proof. intros H. unfold validate_environment. by destruct (missing cfg). Qed.

(** Fetching never raises, contacts the feed once and nothing else. *)
Lemma fetch_spec (w : W) :
  let answer := feedparser_parse sv DASH_RSS_FEED w in
  fetch_harvard_papers sv w
  = (Ok (fetched answer.1), answer.2,
     [EvLog (LogFetching DASH_RSS_FEED); EvFeedParse DASH_RSS_FEED;
      EvLog (fetch_line answer.1)]).
Proof.
  unfold fetch_harvard_papers. unfold_run.
  destruct (feedparser_parse sv DASH_RSS_FEED w) as [[[|entry entries]|e] w1];
    reflexivity.
Qed.

(** The run of [main], case by case. *)
Lemma main_aborts (w : W) :
  missing cfg <> [] ->
  main sv cfg w
  = (Raise (SystemExit 1), w,
     [EvLog (LogMissingEnv (Py.join ", " (missing cfg))); EvLog LogAborted]).
Proof.
  intros H. unfold main. unfold bind at 1. rewrite (validate_missing w H).
  reflexivity.
Qed.

Lemma main_no_papers (w : W) :
  let answer := feedparser_parse sv DASH_RSS_FEED w in
  missing cfg = [] ->
  fetched answer.1 = [] ->
  main sv cfg w
  = (Ok tt, answer.2,
     [EvLog LogEnvValidated; EvLog (LogFetching DASH_RSS_FEED);
      EvFeedParse DASH_RSS_FEED; EvLog (fetch_line answer.1);
      EvLog LogNoPapers]).
Proof.
  intros answer H Hnone. unfold main. unfold bind at 1.
  rewrite (validate_ok w H). cbn [negb]. unfold bind at 1.
  rewrite fetch_spec. fold answer. rewrite Hnone. reflexivity.
Qed.

Lemma main_summary (w : W) :
  let answer := feedparser_parse sv DASH_RSS_FEED w in
  let papers := fetched answer.1 in
  missing cfg = [] ->
  papers <> [] ->
  exists s f w' t q,
    main_loop sv cfg (length papers) 1 papers 0 0 answer.2 = (Ok (s, f), w', t)
    /\ (s + f = length papers
        /\ s = insert_successes t
        /\ processing_lines t
           = map (fun k => (k, length papers)) (seq 1 (length papers))
        /\ analyzing_lines t = map (fun p => Py.slice_to 60 (title p)) papers
        /\ summary_lines t = []
        /\ Forall (fun ev => exists p, p ∈ papers /\ item_event p ev) t)
    /\ success_rate s (length papers) = Returned q
    /\ main sv cfg w
       = (Ok tt, w',
          [EvLog LogEnvValidated; EvLog (LogFetching DASH_RSS_FEED);
           EvFeedParse DASH_RSS_FEED; EvLog (fetch_line answer.1)]
          ++ t
          ++ [EvLog (LogPapersFetched (length papers)); EvLog (LogStored s);
              EvLog (LogFailed f); EvLog (LogSuccessRate q);
              EvLog LogComplete]).
Proof.
  intros answer papers H Hsome.
  destruct (main_loop_spec (length papers) papers 1 0 0 answer.2)
    as (s & f & w' & t & Hrun & Hfacts).
  assert (Hrate : exists q, success_rate s (length papers) = Returned q).
  { destruct papers; [done|]. simpl. eauto. }
  destruct Hrate as [q Hq]. exists s, f, w', t, q.
  split; [done|]. split; [exact Hfacts|]. split; [done|].
  unfold main. unfold bind at 1. rewrite (validate_ok w H). cbn [negb].
  unfold bind at 1. rewrite fetch_spec. fold answer. fold papers.
  destruct papers as [|p ps] eqn:Hp; [done|]. rewrite <- Hp in *.
  unfold bind at 1. rewrite Hrun. cbn [fst snd].
  unfold summary_block. unfold_run. rewrite Hq. reflexivity.
Qed.
End IngestHarvardFacts.

Section AnalyzeFacts.
Import IngestHarvard.
Context {W : Type} (sv : Services W) (cfg : Config).

(** The analysis once the Enricher has answered, by what [json.loads]
    makes of the stripped reply. *)
Lemma analyze_after_reply (paper : Paper) (w w1 : W) (url content : string)
    (others : list (option string)) :
  let text := Py.strip content in
  let head := [EvLog (LogAnalyzing (Py.slice_to 60 (title paper)));
               EvChatCreate (chat_request paper)] in
  endpoint_base_url cfg = Returned url ->
  OpenAI sv (AZURE_AI_KEY cfg) url = Returned tt ->
  chat_completions_create sv (chat_request paper) w
  = (Returned (Some content :: others), w1) ->
  analyze_paper_with_ai sv cfg paper w
  = match json_loads sv text with
    | Raised JSONDecodeError =>
        (Ok (Some (default_items text)), w1,
         head ++ [EvLog LogAnalysisCompleted;
                  EvLog (LogTopic (JString "Academic Research"))])
    | Raised e => (Ok None, w1, head ++ [EvLog (LogAnalysisFailed e)])
    | Returned (JObject d) =>
        (Ok (Some d), w1,
         head ++ [EvLog LogAnalysisCompleted;
                  EvLog (LogTopic (Json.dict_get "topic" (JString "N/A") d))])
    | Returned _ =>
        (Ok None, w1,
         head ++ [EvLog LogAnalysisCompleted;
                  EvLog (LogAnalysisFailed AttributeError)])
    end.
Proof.
  intros text head Hurl Hclient Hreply.
  unfold analyze_paper_with_ai, log, try_except, try_catch, bind, ret, emit,
    contact, pure_call, result_of_call.
  rewrite Hurl. cbv beta iota. rewrite Hclient. cbv beta iota.
  rewrite Hreply. cbv beta iota. unfold first_content. fold text.
  destruct (json_loads sv text) as [[]|[]]; reflexivity.
Qed.

Lemma chat_requests_app (t1 t2 : list event) :
  chat_requests (t1 ++ t2) = chat_requests t1 ++ chat_requests t2.
Proof. apply omap_app. Qed.

Lemma upsert_rows_app (t1 t2 : list event) :
  upsert_rows (t1 ++ t2) = upsert_rows t1 ++ upsert_rows t2.
Proof. apply omap_app. Qed.

(** The contacts of one analysis and of one store. *)
Lemma analyze_contacts (paper : Paper) (w : W) :
  exists a w' t,
    analyze_paper_with_ai sv cfg paper w = (Ok a, w', t)
    /\ upsert_rows t = []
    /\ (chat_requests t = [] /\ a = None
        \/ chat_requests t = [chat_request paper]).
Proof.
  unfold analyze_paper_with_ai, log, try_except, try_catch, bind, ret, emit,
    contact, pure_call, result_of_call.
  repeat (case_match; simplify_eq/=);
    do 3 eexists; (split; [reflexivity|]); (split; [reflexivity|]);
    cbn; auto.
Qed.

Lemma store_contacts (paper : Paper) (d : list (string * json)) (w : W) :
  exists b w' t,
    store_in_supabase sv cfg paper d w = (Ok b, w', t)
    /\ chat_requests t = []
    /\ length (upsert_rows t) <= 1.
Proof.
  unfold store_in_supabase, log, utcnow, try_except, try_catch, bind, ret, emit,
    contact, pure_call, result_of_call.
  repeat (case_match; simplify_eq/=);
    do 3 eexists; (split; [reflexivity|]); (split; [reflexivity|]);
    cbn; lia.
Qed.

(** The loop asks the Enricher at most once per paper and upserts only
    papers it has asked about. *)
Lemma main_loop_contacts (total : nat) (papers : list Paper) :
  forall i successful failed w,
  exists r w' t,
    main_loop sv cfg total i papers successful failed w = (r, w', t)
    /\ length (upsert_rows t) <= length (chat_requests t)
    /\ length (chat_requests t) <= length papers.
Proof.
  induction papers as [|paper rest IH]; intros i s f w.
  { do 3 eexists. split; [reflexivity|]. cbn. lia. }
  destruct (analyze_contacts paper w) as (a & w1 & t1 & Ha & Hup1 & Hchat1).
  cbn [main_loop]. unfold bind at 1, log, emit. unfold bind at 1. rewrite Ha.
  destruct (truthy_analysis a) as [d|] eqn:Htruthy.
  - assert (Hone : chat_requests t1 = [chat_request paper]).
    { destruct Hchat1 as [[_ ->]|H]; [done|exact H]. }
    destruct (store_contacts paper d w1) as (b & w2 & t2 & Hst & Hchat2 & Hup2).
    unfold bind at 1. rewrite Hst.
    destruct b;
      [destruct (IH (S i) (S s) f w2) as (r & w' & t & Hrun & Hle1 & Hle2)
      |destruct (IH (S i) s (S f) w2) as (r & w' & t & Hrun & Hle1 & Hle2)];
      rewrite Hrun; (do 3 eexists); (split; [reflexivity|]);
      unfold upsert_rows, chat_requests in *;
      rewrite !omap_app, !length_app, Hup1, Hone, Hchat2; cbn; lia.
  - destruct (IH (S i) s (S f) w1) as (r & w' & t & Hrun & Hle1 & Hle2).
    rewrite Hrun. do 3 eexists. split; [reflexivity|].
    unfold upsert_rows, chat_requests in *.
    rewrite !omap_app, !length_app, Hup1.
    destruct Hchat1 as [[-> _]| ->]; cbn; lia.
Qed.
(** With a client that can be built, every analysis sends its request,
    and so the loop sends one request for every paper, in order. *)
Lemma analyze_sends (url : string) (paper : Paper) (w : W) :
  endpoint_base_url cfg = Returned url ->
  OpenAI sv (AZURE_AI_KEY cfg) url = Returned tt ->
  chat_requests (trace (analyze_paper_with_ai sv cfg paper w))
  = [chat_request paper].
Proof.
  intros Hurl Hclient.
  unfold analyze_paper_with_ai, log, try_except, try_catch, bind, ret, emit,
    contact, pure_call, result_of_call.
  rewrite Hurl. cbv beta iota. rewrite Hclient. cbv beta iota.
  repeat (case_match; simplify_eq/=); reflexivity.
Qed.

Lemma main_loop_requests (url : string) (total : nat) (papers : list Paper) :
  endpoint_base_url cfg = Returned url ->
  OpenAI sv (AZURE_AI_KEY cfg) url = Returned tt ->
  forall i successful failed w,
    chat_requests (trace (main_loop sv cfg total i papers successful failed w))
    = map chat_request papers.
Proof.
  intros Hurl Hclient.
  induction papers as [|paper rest IH]; intros i s f w; [reflexivity|].
  pose proof (analyze_sends url paper w Hurl Hclient) as Hsent.
  destruct (analyze_contacts paper w) as (a & w1 & t1 & Ha & _ & _).
  rewrite Ha, trace_run in Hsent.
  cbn [main_loop map]. unfold bind at 1, log, emit. unfold bind at 1. rewrite Ha.
  destruct (truthy_analysis a) as [d|] eqn:Htruthy.
  - destruct (store_contacts paper d w1) as (b & w2 & t2 & Hst & Hchat2 & _).
    unfold bind at 1. rewrite Hst.
    destruct b;
      [specialize (IH (S i) (S s) f w2)|specialize (IH (S i) s (S f) w2)];
      destruct (main_loop sv cfg total (S i) rest _ _ w2) as [[r w'] t];
      rewrite trace_run in *; rewrite !chat_requests_app, Hsent, Hchat2, IH;
      reflexivity.
  - specialize (IH (S i) s (S f) w1).
    destruct (main_loop sv cfg total (S i) rest _ _ w1) as [[r w'] t].
    rewrite trace_run in *. rewrite !chat_requests_app, Hsent, IH. reflexivity.
Qed.
End AnalyzeFacts.

Lemma text_to_analyze_split (paper : IngestHarvard.Paper) :
  IngestHarvard.text_to_analyze paper
  = IngestHarvard.text_header paper
    +:+ Py.slice_to IngestHarvard.MAX_TEXT_LENGTH (IngestHarvard.summary paper)
    +:+ Py.nl.
Proof.
  unfold IngestHarvard.text_to_analyze, IngestHarvard.text_header.
  by rewrite !append_assoc.
Qed.

Lemma item_event_from_paper (paper : IngestHarvard.Paper) (ev : IngestHarvard.event) :
  IngestHarvard.item_event paper ev -> IngestHarvard.from_paper ev.
Proof.
  destruct ev as [| | |[]]; simpl; try done.
  - intros [->|[]]. by exists paper.
  - intros [[]|(_ & _ & a & now & ->)]. by exists paper, a, now.
Qed.

(** Every request and every row of a run of [main] comes from a paper. *)
Lemma main_from_paper {W} (sv : IngestHarvard.Services W) cfg (w : W) :
  Forall IngestHarvard.from_paper (trace (IngestHarvard.main sv cfg w)).
Proof.
  destruct (IngestHarvard.missing cfg) as [|name names] eqn:Hmiss.
  - set (answer := IngestHarvard.feedparser_parse sv IngestHarvard.DASH_RSS_FEED w).
    destruct (IngestHarvard.fetched answer.1) as [|p ps] eqn:Hpapers.
    + rewrite (main_no_papers sv cfg w Hmiss Hpapers). by repeat constructor.
    + destruct (main_summary sv cfg w Hmiss)
        as (s & f & w' & t & q & _ & (_ & _ & _ & _ & _ & Hall) & _ & ->).
      { fold answer. by rewrite Hpapers. }
      unfold trace. cbn [snd]. repeat (apply Forall_cons; split; [exact I|]).
      apply Forall_app; split; [|by repeat constructor].
      eapply Forall_impl; [exact Hall|].
      intros ev (p' & _ & Hev). by eapply item_event_from_paper.
  - rewrite main_aborts; [|by rewrite Hmiss]. by repeat constructor.
Qed.

(** C6.  For every paper, the message sent to the Enricher is a header
    followed by a prefix of the summary of at most [MAX_TEXT_LENGTH] = 8000
    characters,
    and the row handed to the database carries the first 500 characters of
    the summary; the two lengths never exceed 8000 and 500.  Every request
    and every row of a run of [main] is built this way from some paper. *)
Theorem C6_summary_truncation {W} (sv : IngestHarvard.Services W)
    (cfg : IngestHarvard.Config) (w : W) :
  (forall paper analysis now,
     let sent := Py.slice_to IngestHarvard.MAX_TEXT_LENGTH
                   (IngestHarvard.summary paper) in
     let row := IngestHarvard.row_of paper analysis now in
     IngestHarvard.user_content (IngestHarvard.chat_request paper)
     = IngestHarvard.text_header paper +:+ sent +:+ Py.nl
     /\ (exists rest, IngestHarvard.summary paper = sent +:+ rest)
     /\ String.length sent <= 8000
     /\ IngestHarvard.row_summary row
        = Py.slice_to 500 (IngestHarvard.summary paper)
     /\ String.length (IngestHarvard.row_summary row) <= 500)
  /\ Forall IngestHarvard.from_paper (trace (IngestHarvard.main sv cfg w)).
Proof.
  split; [|apply main_from_paper].
  intros paper analysis now sent row.
  split; [apply text_to_analyze_split|].
  split; [apply slice_to_prefix|].
  split; [apply (length_slice_to IngestHarvard.MAX_TEXT_LENGTH)|].
  split; [reflexivity|apply length_slice_to].
Qed.

(** C10.  In the loop of [main] every paper moves exactly one of the two
    counters, so the loop ends with [successful + failed] grown by the
    number of papers.  A run of [main] either prints no summary line at
    all, or prints the four of them with [successful + failed] equal to
    the number of fetched papers, that number positive, and the success
    rate a well-defined quotient; [main] never ends in
    [ZeroDivisionError]. *)
Theorem C10_counters_partition_the_papers {W} (sv : IngestHarvard.Services W)
    (cfg : IngestHarvard.Config) (w : W) :
  (forall total i papers successful failed w0,
     exists s f,
       outcome (IngestHarvard.main_loop sv cfg total i papers successful failed w0)
       = Ok (s, f)
       /\ s + f = successful + failed + length papers)
  /\ (let lines := IngestHarvard.summary_lines
                     (trace (IngestHarvard.main sv cfg w)) in
      lines = []
      \/ exists n s f q,
           lines = [IngestHarvard.LogPapersFetched n; IngestHarvard.LogStored s;
                    IngestHarvard.LogFailed f; IngestHarvard.LogSuccessRate q]
           /\ s + f = n /\ 0 < n
           /\ IngestHarvard.success_rate s n = Returned q)
  /\ outcome (IngestHarvard.main sv cfg w) <> Raise (Exc ZeroDivisionError).
Proof.
  split.
  { intros total i papers s0 f0 w0.
    destruct (main_loop_spec sv cfg total papers i s0 f0 w0)
      as (s & f & w' & t & -> & Hsum & _).
    by exists s, f. }
  destruct (IngestHarvard.missing cfg) as [|name names] eqn:Hmiss.
  - set (answer := IngestHarvard.feedparser_parse sv IngestHarvard.DASH_RSS_FEED w).
    destruct (IngestHarvard.fetched answer.1) as [|p ps] eqn:Hpapers.
    + rewrite (main_no_papers sv cfg w Hmiss Hpapers). split; [left|done].
      fold answer. by destruct answer.1 as [[|??]|?].
    + destruct (main_summary sv cfg w Hmiss)
        as (s & f & w' & t & q & _ & (Hsum & _ & _ & _ & Hquiet & _) & Hq & ->).
      { fold answer. by rewrite Hpapers. }
      fold answer in Hsum, Hq |- *. rewrite Hpapers in Hsum, Hq |- *.
      split; [|done]. right. exists (length (p :: ps)), s, f, q.
      repeat split; [|done|simpl; lia|done].
      unfold trace. cbn [snd]. unfold IngestHarvard.summary_lines in *.
      rewrite !omap_app, Hquiet. by destruct answer.1 as [[|??]|?].
  - rewrite main_aborts; [|by rewrite Hmiss]. split; [by left|done].
Qed.

Example sample_run_summary :
  IngestHarvard.summary_lines
    (trace (IngestHarvard.main IngestHarvard.sample_services
              IngestHarvard.full_config ∅))
  = [IngestHarvard.LogPapersFetched 1; IngestHarvard.LogStored 1;
     IngestHarvard.LogFailed 0; IngestHarvard.LogSuccessRate (100 # 1)].
Proof. vm_compute. reflexivity. Qed.

(** C8.  When the settings are in place and the feed raises or yields no
    entries, [main] returns normally (exit code 0): no exception escapes,
    no paper is started, and neither the Enricher nor the database is
    contacted; the feed is the only service the run has touched. *)
Theorem C8_feed_failure_ends_the_run_gracefully {W}
    (sv : IngestHarvard.Services W) (cfg : IngestHarvard.Config) (w : W) :
  let answer := IngestHarvard.feedparser_parse sv IngestHarvard.DASH_RSS_FEED w in
  let run := IngestHarvard.main sv cfg w in
  IngestHarvard.missing cfg = [] ->
  (exists e, answer.1 = Raised e) \/ answer.1 = Returned [] ->
  outcome run = Ok tt
  /\ exit_code (outcome run) = 0%Z
  /\ IngestHarvard.processing_lines (trace run) = []
  /\ List.filter IngestHarvard.is_contact (trace run)
     = [IngestHarvard.EvFeedParse IngestHarvard.DASH_RSS_FEED]
  /\ world run = answer.2.
Proof.
  intros answer run Hmiss Hfeed. subst run.
  rewrite (main_no_papers sv cfg w Hmiss).
  - fold answer. by destruct Hfeed as [[e ->]| ->].
  - fold answer. by destruct Hfeed as [[e ->]| ->].
Qed.

Lemma C8_witness :
  let sv := IngestHarvard.table_services
              (Raised (ServiceError "URLError")) (fun _ => Returned []) in
  let run := IngestHarvard.main sv IngestHarvard.full_config ∅ in
  outcome run = Ok tt
  /\ exit_code (outcome run) = 0%Z
  /\ IngestHarvard.processing_lines (trace run) = []
  /\ List.filter IngestHarvard.is_contact (trace run)
     = [IngestHarvard.EvFeedParse IngestHarvard.DASH_RSS_FEED]
  /\ world run = ∅.
Proof.
  apply (C8_feed_failure_ends_the_run_gracefully
           (IngestHarvard.table_services
              (Raised (ServiceError "URLError")) (fun _ => Returned []))
           IngestHarvard.full_config ∅).
  - reflexivity.
  - left. eexists. reflexivity.
Defined.

(** C4 (as amended).  When the client is built, the Enricher answers and
    [json.loads] raises [JSONDecodeError] on the stripped reply, the
    analysis does not raise and does not fail the paper: it answers the
    default annotation, whose topic is "Academic Research", whose findings
    are the single first 200 characters of the reply, whose significance is
    the first 300 characters of the reply (empty exactly when the stripped
    reply is empty) and whose keywords are three fixed terms.  The
    annotation is truthy, so the loop goes on to the sink write, and the
    paper counts as successful exactly when that write succeeds. *)
Theorem C4_default_annotation_on_undecodable_reply {W}
    (sv : IngestHarvard.Services W) (cfg : IngestHarvard.Config)
    (paper : IngestHarvard.Paper) (w w1 : W) (url content : string)
    (others : list (option string)) :
  let text := Py.strip content in
  let d := IngestHarvard.default_items text in
  IngestHarvard.endpoint_base_url cfg = Returned url ->
  IngestHarvard.OpenAI sv (IngestHarvard.AZURE_AI_KEY cfg) url = Returned tt ->
  IngestHarvard.chat_completions_create sv (IngestHarvard.chat_request paper) w
  = (Returned (Some content :: others), w1) ->
  IngestHarvard.json_loads sv text = Raised JSONDecodeError ->
  outcome (IngestHarvard.analyze_paper_with_ai sv cfg paper w) = Ok (Some d)
  /\ world (IngestHarvard.analyze_paper_with_ai sv cfg paper w) = w1
  /\ Json.dict_lookup "topic" d = Some (JString "Academic Research")
  /\ Json.dict_lookup "findings" d
     = Some (JArray [JString (Py.slice_to 200 text)])
  /\ Json.dict_lookup "significance" d = Some (JString (Py.slice_to 300 text))
  /\ (Py.slice_to 300 text = "" <-> text = "")
  /\ Json.dict_lookup "keywords" d
     = Some (JArray [JString "research"; JString "Harvard"; JString "academic"])
  /\ IngestHarvard.truthy_analysis (Some d) = Some d
  /\ (forall total i successful failed,
        exists stored,
          outcome (IngestHarvard.store_in_supabase sv cfg paper d w1) = Ok stored
          /\ outcome (IngestHarvard.main_loop sv cfg total i [paper]
                        successful failed w)
             = Ok (if stored then (S successful, failed)
                   else (successful, S failed))).
Proof.
  intros text d Hurl Hclient Hreply Hjson.
  assert (Hrun : IngestHarvard.analyze_paper_with_ai sv cfg paper w
                 = (Ok (Some d), w1,
                    [IngestHarvard.EvLog
                       (IngestHarvard.LogAnalyzing
                          (Py.slice_to 60 (IngestHarvard.title paper)));
                     IngestHarvard.EvChatCreate (IngestHarvard.chat_request paper);
                     IngestHarvard.EvLog IngestHarvard.LogAnalysisCompleted;
                     IngestHarvard.EvLog
                       (IngestHarvard.LogTopic (JString "Academic Research"))])).
  { unfold IngestHarvard.analyze_paper_with_ai, IngestHarvard.log, try_except,
      try_catch, bind, ret, emit, contact, pure_call, result_of_call.
    rewrite Hurl. cbv beta iota. rewrite Hclient. cbv beta iota.
    rewrite Hreply. cbv beta iota. unfold IngestHarvard.first_content.
    fold text. rewrite Hjson. reflexivity. }
  rewrite Hrun. repeat split; try reflexivity.
  - by intros ?%slice_to_empty.
  - by intros ->.
  - intros total i s f.
    destruct (store_spec sv cfg paper d w1) as (stored & w2 & t2 & Hstore & _).
    exists stored. rewrite Hstore. split; [reflexivity|].
    cbn [IngestHarvard.main_loop]. unfold bind at 1, IngestHarvard.log, emit.
    unfold bind at 1. rewrite Hrun.
    change (IngestHarvard.truthy_analysis (Some d)) with (Some d).
    cbv beta iota. unfold bind at 1. rewrite Hstore.
    by destruct stored.
Qed.

Lemma C4_witness :
  let sv := IngestHarvard.table_services (Returned [])
              (fun _ => Returned [Some "The paper studies tort law."]) in
  let paper := IngestHarvard.paper_of_entry ∅ in
  outcome (IngestHarvard.analyze_paper_with_ai sv IngestHarvard.full_config
             paper ∅)
  = Ok (Some (IngestHarvard.default_items "The paper studies tort law.")).
Proof.
  apply (C4_default_annotation_on_undecodable_reply
           (IngestHarvard.table_services (Returned [])
              (fun _ => Returned [Some "The paper studies tort law."]))
           IngestHarvard.full_config (IngestHarvard.paper_of_entry ∅) ∅ ∅
           "https://ai.example/v1" "The paper studies tort law." []);
    reflexivity.
Defined.

(** C4, counterexample.  A reply of blanks is not JSON, so the default
    annotation is substituted, and its significance is the empty string. *)
Lemma C4_counterexample :
  let sv := IngestHarvard.table_services (Returned [])
              (fun _ => Returned [Some "  "]) in
  let paper := IngestHarvard.paper_of_entry ∅ in
  IngestHarvard.json_loads sv (Py.strip "  ") = Raised JSONDecodeError
  /\ exists d,
       outcome (IngestHarvard.analyze_paper_with_ai sv
                  IngestHarvard.full_config paper ∅) = Ok (Some d)
       /\ Json.dict_lookup "significance" d = Some (JString "").
Proof. split; [reflexivity|]. eexists. split; reflexivity. Qed.

(** ** pipeline.py *)

Section PipelineFacts.
Import Pipeline.
Context {W : Type} (sv : Services W).

(** An entry whose link does not end in ".pdf" runs into [continue]. *)
Lemma process_entry_no_pdf (entry : Entry) (w : World W) :
  skipped entry = true -> process_entry sv entry w = (Ok tt, w, []).
Proof.
  unfold skipped, complete, has_pdf_link, process_entry.
  destruct (title entry) as [t|]; [|done]. destruct (link entry) as [l|]; [|done].
  cbn. by intros ->.
Qed.

(** An entry without title, or without link, ends the body with
    [AttributeError] before anything is done. *)
Lemma process_entry_incomplete (entry : Entry) (w : World W) :
  complete entry = false ->
  process_entry sv entry w = (Raise (Exc AttributeError), w, []).
Proof.
  unfold complete, process_entry.
  destruct (title entry) as [t|]; [|done]. by destruct (link entry) as [l|].
Qed.

Lemma for_entries_filter (entries : list Entry) (w : World W) :
  for_entries sv entries w
  = for_entries sv (filter (fun e => skipped e = false) entries) w.
Proof.
  revert w. induction entries as [|entry rest IH]; intros w; [done|].
  rewrite filter_cons. case_decide as Hkept.
  - cbn [for_entries]. unfold bind.
    destruct (process_entry sv entry w) as [[[[]|x] w1] t1]; [|done].
    by rewrite IH.
  - apply not_false_is_true in Hkept. cbn [for_entries]. unfold bind.
    rewrite (process_entry_no_pdf entry w Hkept), <- IH.
    by destruct (for_entries sv rest w) as [[r w2] t2].
Qed.

(** The script around the loop. *)
Lemma script_run (environ : gmap string string) (w : World W) :
  script sv environ w
  = match connect sv (environ !! "AZURE_CONNECTION_STRING") with
    | Raised e => (Raise (Exc e), w, [])
    | Returned _ =>
        match feedparser_parse sv DASH_RSS_FEED (remote w) with
        | (Raised e, r1) =>
            (Raise (Exc e), {| files := files w; remote := r1 |},
             [EvFeedParse DASH_RSS_FEED])
        | (Returned entries, r1) =>
            let run := for_entries sv entries {| files := files w; remote := r1 |} in
            (outcome run, world run,
             EvFeedParse DASH_RSS_FEED :: EvLog (LogFound (length entries))
             :: trace run
             ++ match outcome run with Ok _ => [EvLog LogComplete] | Raise _ => [] end)
        end
    end.
Proof.
  unfold script, bind, pure_call, remotely, contact, log, emit.
  destruct (connect sv _) as [[]|e]; [|done]. cbn [result_of_call].
  destruct (feedparser_parse sv DASH_RSS_FEED (remote w)) as [[entries|e] r1];
    [|done].
  cbn [result_of_call]. cbv zeta.
  destruct (for_entries sv entries _) as [[[[]|x] w2] t2]; [done|].
  by rewrite app_nil_r.
Qed.

Lemma pdf_filename_clean (entry : Entry) :
  Py.endswith ".pdf" (pdf_filename entry) = true
  /\ Py.contains "/" (pdf_filename entry) = false
  /\ Py.contains " " (pdf_filename entry) = false.
Proof.
  unfold pdf_filename, safe_title. split; [apply endswith_append|].
  rewrite !contains_append. split.
  - by rewrite replace_char_removes.
  - rewrite replace_char_keeps_out; [done|done|].
    by apply replace_char_removes.
Qed.

Lemma pdf_path_in_download_dir (entry : Entry) : in_download_dir (pdf_path entry).
Proof. exists (pdf_filename entry). split; [done|]. apply pdf_filename_clean. Qed.

(** The body for an entry with a title and the PDF link [url], from the
    existence check on. *)
Lemma process_entry_pdf (entry : Entry) (url : string) (w : World W) :
  complete entry = true -> has_pdf_link entry = true -> link entry = Some url ->
  process_entry sv entry w
  = bind (path_exists (pdf_path entry))
      (fun present =>
         bind (if negb present
               then bind (log (LogDownloading (safe_title entry)))
                      (fun _ =>
                         bind (remotely (EvHttpGet url) (requests_get sv url))
                           (fun r => write_file sv (pdf_path entry) (content r)))
               else log (LogAlreadyDownloaded (safe_title entry)))
           (fun _ =>
              bind (read_file (pdf_path entry))
                (fun data =>
                   bind (remotely
                           (EvUploadBlob CONTAINER_NAME (pdf_filename entry) data true)
                           (upload_blob sv CONTAINER_NAME (pdf_filename entry)
                              data true))
                     (fun _ => log (LogUploaded (pdf_filename entry)
                                      CONTAINER_NAME))))) w.
Proof.
  unfold complete, has_pdf_link, process_entry, pdf_path, pdf_filename, safe_title.
  destruct (title entry) as [t|]; [|done]. intros _ Hpdf Hurl.
  rewrite Hurl in Hpdf |- *.
  unfold bind at 1, pure_call. cbn [getattr result_of_call].
  unfold bind at 1. cbn [getattr result_of_call]. rewrite Hpdf. cbn [negb].
  cbn [default from_option id].
  by destruct (bind _ _ w) as [[r w1] t1].
Qed.

(** The ways through that body. *)
Lemma process_entry_cached (entry : Entry) (w : World W) (data : string) :
  complete entry = true -> has_pdf_link entry = true ->
  files w !! pdf_path entry = Some data ->
  let answer := upload_blob sv CONTAINER_NAME (pdf_filename entry) data true
                  (remote w) in
  process_entry sv entry w
  = (result_of_call answer.1, {| files := files w; remote := answer.2 |},
     EvLog (LogAlreadyDownloaded (safe_title entry))
     :: EvUploadBlob CONTAINER_NAME (pdf_filename entry) data true
     :: match answer.1 with
        | Returned _ => [EvLog (LogUploaded (pdf_filename entry) CONTAINER_NAME)]
        | Raised _ => []
        end).
Proof.
  intros Hfull Hpdf Hfile.
  assert (exists url, link entry = Some url) as [url Hurl].
  { unfold has_pdf_link in Hpdf. destruct (link entry); [by eexists|done]. }
  rewrite (process_entry_pdf entry url w Hfull Hpdf Hurl).
  unfold bind, path_exists, read_file, write_file, remotely, contact, log, emit, ret.
  rewrite Hfile. rewrite bool_decide_eq_true_2 by eauto. cbn [negb files remote].
  rewrite Hfile.
  by destruct (upload_blob sv _ _ _ _ _) as [[[]|e] r1].
Qed.

Lemma process_entry_fetch_raises (entry : Entry) (url : string) (w : World W)
    (e : exn) (r1 : W) :
  complete entry = true -> has_pdf_link entry = true -> link entry = Some url ->
  files w !! pdf_path entry = None ->
  requests_get sv url (remote w) = (Raised e, r1) ->
  process_entry sv entry w
  = (Raise (Exc e), {| files := files w; remote := r1 |},
     [EvLog (LogDownloading (safe_title entry)); EvHttpGet url]).
Proof.
  intros Hfull Hpdf Hurl Hfile Hget.
  rewrite (process_entry_pdf entry url w Hfull Hpdf Hurl).
  unfold bind, path_exists, read_file, write_file, remotely, contact, log, emit, ret.
  rewrite Hfile. rewrite bool_decide_eq_false_2 by (by intros [??]).
  cbn [negb]. by rewrite Hget.
Qed.

Lemma process_entry_write_raises (entry : Entry) (url : string) (w : World W)
    (r : Response) (e : exn) (r1 : W) :
  complete entry = true -> has_pdf_link entry = true -> link entry = Some url ->
  files w !! pdf_path entry = None ->
  requests_get sv url (remote w) = (Returned r, r1) ->
  open_wb sv (pdf_path entry) (files w) = Raised e ->
  process_entry sv entry w
  = (Raise (Exc e), {| files := files w; remote := r1 |},
     [EvLog (LogDownloading (safe_title entry)); EvHttpGet url]).
Proof.
  intros Hfull Hpdf Hurl Hfile Hget Hopen.
  rewrite (process_entry_pdf entry url w Hfull Hpdf Hurl).
  unfold bind, path_exists, read_file, write_file, remotely, contact, log, emit, ret.
  rewrite Hfile. rewrite bool_decide_eq_false_2 by (by intros [??]).
  cbn [negb]. rewrite Hget. cbn [result_of_call files remote]. by rewrite Hopen.
Qed.

Lemma process_entry_fetched (entry : Entry) (url : string) (w : World W)
    (r : Response) (r1 : W) :
  complete entry = true -> has_pdf_link entry = true -> link entry = Some url ->
  files w !! pdf_path entry = None ->
  requests_get sv url (remote w) = (Returned r, r1) ->
  open_wb sv (pdf_path entry) (files w) = Returned tt ->
  let answer := upload_blob sv CONTAINER_NAME (pdf_filename entry) (content r) true
                  r1 in
  process_entry sv entry w
  = (result_of_call answer.1,
     {| files := <[pdf_path entry := content r]> (files w); remote := answer.2 |},
     EvLog (LogDownloading (safe_title entry))
     :: EvHttpGet url
     :: EvUploadBlob CONTAINER_NAME (pdf_filename entry) (content r) true
     :: match answer.1 with
        | Returned _ => [EvLog (LogUploaded (pdf_filename entry) CONTAINER_NAME)]
        | Raised _ => []
        end).
Proof.
  intros Hfull Hpdf Hurl Hfile Hget Hopen.
  rewrite (process_entry_pdf entry url w Hfull Hpdf Hurl).
  unfold bind, path_exists, read_file, write_file, remotely, contact, log, emit, ret.
  rewrite Hfile. rewrite bool_decide_eq_false_2 by (by intros [??]).
  cbn [negb]. rewrite Hget. cbn [result_of_call files remote]. rewrite Hopen.
  cbn [files remote]. rewrite lookup_insert_eq.
  by destruct (upload_blob sv _ _ _ _ _) as [[[]|e] r2].
Qed.

(** An entry is incomplete, passed over, or a PDF entry. *)
Lemma entry_cases (entry : Entry) :
  complete entry = false \/ skipped entry = true
  \/ (complete entry = true /\ has_pdf_link entry = true
      /\ exists url, link entry = Some url).
Proof.
  unfold skipped, complete, has_pdf_link.
  destruct (title entry) as [t|]; [|by left].
  destruct (link entry) as [url|]; [|by left].
  destruct (Py.endswith ".pdf" url); [|by right; left].
  right. right. by eauto.
Qed.

End PipelineFacts.

(** ** dash_ingest.py *)

Section DashIngestFacts.
Import DashIngest.
Context {W : Type} (sv : Services W).

Lemma process_link_no_pdf (link : Link) (w : W) :
  other_type link = true -> process_link sv link w = (Ok tt, w, []).
Proof.
  unfold other_type, process_link. destruct (type link) as [ty|]; [|done].
  cbn. by intros ->%negb_true_iff.
Qed.

(** A link without type, or a PDF link without address, ends the body
    with [AttributeError] before anything is done. *)
Lemma process_link_no_type (link : Link) (w : W) :
  type link = None ->
  process_link sv link w = (Raise (Exc AttributeError), w, []).
Proof. unfold process_link. by intros ->. Qed.

Lemma process_link_no_href (link : Link) (w : W) :
  is_pdf link = true -> href link = None ->
  process_link sv link w = (Raise (Exc AttributeError), w, []).
Proof.
  unfold is_pdf, process_link. destruct (type link) as [ty|]; [|done].
  cbn. by intros -> ->.
Qed.

Lemma not_listed (names : list string) (name : string) :
  name ∉ names -> existsb (fun n => String.eqb n name) names = false.
Proof.
  intros Hnotin. apply not_true_is_false.
  intros (n & Hin & Heq)%existsb_exists.
  apply String.eqb_eq in Heq as ->. by apply Hnotin, list_elem_of_In.
Qed.

(** The body for a PDF link at [url], up to the listing. *)
Lemma process_link_pdf (link : Link) (url : string) (w : W) :
  is_pdf link = true -> href link = Some url ->
  process_link sv link w
  = bind (contact (EvListBlobs container_name) (list_blobs sv container_name))
         (fun names =>
            if existsb (fun name => String.eqb name (Py.last_segment "/" url)) names
            then log (LogSkipping (Py.last_segment "/" url))
            else
              bind (log (LogDownloading (Py.last_segment "/" url)))
                   (fun _ =>
                      bind (contact (EvHttpGet url) (requests_get sv url))
                           (fun r =>
                              if (status_code r =? 200)%Z
                              then bind (contact
                                           (EvUploadBlob container_name
                                              (Py.last_segment "/" url) (content r))
                                           (upload_blob sv container_name
                                              (Py.last_segment "/" url) (content r)))
                                        (fun _ =>
                                           log (LogUploaded (Py.last_segment "/" url)))
                              else log (LogFailed url)))) w.
Proof.
  unfold is_pdf, process_link. destruct (type link) as [ty|]; [|done].
  intros Hty ->. unfold bind at 1, pure_call. cbn [getattr result_of_call].
  rewrite Hty. unfold bind at 1. cbn [getattr result_of_call].
  by destruct (bind _ _ w) as [[r w1] t1].
Qed.

(** A stored blob is skipped before any fetch or write. *)
Lemma process_link_skip (link : Link) (url : string) (w w1 : W)
    (names : list string) :
  is_pdf link = true -> href link = Some url ->
  list_blobs sv container_name w = (Returned names, w1) ->
  Py.last_segment "/" url ∈ names ->
  process_link sv link w
  = (Ok tt, w1,
     [EvListBlobs container_name;
      EvLog (LogSkipping (Py.last_segment "/" url))]).
Proof.
  intros Hpdf Hurl Hlist Hin. rewrite (process_link_pdf link url w Hpdf Hurl).
  unfold bind, contact, log, emit. rewrite Hlist. cbn.
  assert (existsb (fun name => String.eqb name (Py.last_segment "/" url))
                  names = true) as ->; [|done].
  apply existsb_exists. exists (Py.last_segment "/" url).
  split; [by apply list_elem_of_In|apply String.eqb_refl].
Qed.

(** A fetch that answers another status than 200 is reported and
    nothing is written. *)
Lemma process_link_failed (link : Link) (url : string) (w w1 w2 : W)
    (names : list string) (r : Response) :
  is_pdf link = true -> href link = Some url ->
  list_blobs sv container_name w = (Returned names, w1) ->
  Py.last_segment "/" url ∉ names ->
  requests_get sv url w1 = (Returned r, w2) ->
  status_code r <> 200%Z ->
  process_link sv link w
  = (Ok tt, w2,
     [EvListBlobs container_name;
      EvLog (LogDownloading (Py.last_segment "/" url));
      EvHttpGet url;
      EvLog (LogFailed url)]).
Proof.
  intros Hpdf Hurl Hlist Hnotin Hget Hstatus.
  rewrite (process_link_pdf link url w Hpdf Hurl).
  unfold bind, contact, log, emit. rewrite Hlist. cbn.
  rewrite (not_listed _ _ Hnotin), Hget. cbn.
  by destruct (Z.eqb_spec (status_code r) 200).
Qed.


(** A fetch that answers 200 is followed by the upload. *)
Lemma process_link_uploads (link : Link) (url : string) (w w1 w2 w3 : W)
    (names : list string) (r : Response) (c : call unit) :
  is_pdf link = true -> href link = Some url ->
  list_blobs sv container_name w = (Returned names, w1) ->
  Py.last_segment "/" url ∉ names ->
  requests_get sv url w1 = (Returned r, w2) ->
  status_code r = 200%Z ->
  upload_blob sv container_name (Py.last_segment "/" url) (content r) w2
  = (c, w3) ->
  process_link sv link w
  = (match c with Returned _ => Ok tt | Raised e => Raise (Exc e) end, w3,
     [EvListBlobs container_name;
      EvLog (LogDownloading (Py.last_segment "/" url));
      EvHttpGet url;
      EvUploadBlob container_name (Py.last_segment "/" url) (content r)]
     ++ match c with
        | Returned _ => [EvLog (LogUploaded (Py.last_segment "/" url))]
        | Raised _ => []
        end).
Proof.
  intros Hpdf Hurl Hlist Hnotin Hget Hstatus Hup.
  rewrite (process_link_pdf link url w Hpdf Hurl).
  unfold bind, contact, log, emit. rewrite Hlist. cbn.
  rewrite (not_listed _ _ Hnotin), Hget. cbn. rewrite Hstatus, Z.eqb_refl, Hup.
  by destruct c as [[]|e].
Qed.

Lemma for_links_no_pdf (ls : list Link) (w : W) :
  forallb other_type ls = true -> for_links sv ls w = (Ok tt, w, []).
Proof.
  induction ls as [|link rest IH]; [done|]. cbn [forallb for_links].
  intros [Hlink Hrest]%andb_true_iff. unfold bind.
  by rewrite (process_link_no_pdf link w Hlink), (IH Hrest).
Qed.

(** The body of the outer loop. *)
Lemma dash_process_entry_links (entry : Entry) (ls : list Link) (w : W) :
  links entry = Some ls -> process_entry sv entry w = for_links sv ls w.
Proof.
  unfold process_entry, bind, pure_call. intros ->. cbn.
  by destruct (for_links sv ls w) as [[r w1] t1].
Qed.

Lemma dash_process_entry_no_links (entry : Entry) (w : W) :
  links entry = None ->
  process_entry sv entry w = (Raise (Exc AttributeError), w, []).
Proof. unfold process_entry, bind, pure_call. by intros ->. Qed.

Lemma dash_process_entry_skipped (entry : Entry) (w : W) :
  skipped entry = true -> process_entry sv entry w = (Ok tt, w, []).
Proof.
  unfold skipped. destruct (links entry) as [ls|] eqn:Hlinks; [|done].
  intros Hnone. rewrite (dash_process_entry_links entry ls w Hlinks).
  by apply for_links_no_pdf.
Qed.

Lemma dash_for_entries_filter (entries : list Entry) (w : W) :
  for_entries sv entries w
  = for_entries sv (filter (fun e => skipped e = false) entries) w.
Proof.
  revert w. induction entries as [|entry rest IH]; intros w; [done|].
  rewrite filter_cons. case_decide as Hkept.
  - cbn [for_entries]. unfold bind.
    destruct (process_entry sv entry w) as [[[[]|x] w1] t1]; [|done].
    by rewrite IH.
  - apply not_false_is_true in Hkept. cbn [for_entries]. unfold bind.
    rewrite (dash_process_entry_skipped entry w Hkept), <- IH.
    by destruct (for_entries sv rest w) as [[r w2] t2].
Qed.

(** The script around the loops. *)
Lemma dash_script_run (environ : gmap string string) (w : W) :
  script sv environ w
  = match environ !! "AZURE_STORAGE_CONN_STRING" with
    | None => (Raise (Exc KeyError), w, [])
    | Some conn =>
        match from_connection_string sv conn with
        | Raised e => (Raise (Exc e), w, [])
        | Returned _ =>
            match feedparser_parse sv DASH_FEED_URL w with
            | (Raised e, w1) => (Raise (Exc e), w1, [EvFeedParse DASH_FEED_URL])
            | (Returned entries, w1) =>
                let run := for_entries sv entries w1 in
                (outcome run, world run, EvFeedParse DASH_FEED_URL :: trace run)
            end
        end
    end.
Proof.
  unfold script, environ_item, bind, pure_call, contact.
  destruct (environ !! "AZURE_STORAGE_CONN_STRING") as [conn|]; [|done].
  cbn [result_of_call].
  destruct (from_connection_string sv conn) as [[]|e]; [|done].
  cbn [result_of_call].
  destruct (feedparser_parse sv DASH_FEED_URL w) as [[entries|e] w1]; [|done].
  cbn [result_of_call]. cbv zeta.
  by destruct (for_entries sv entries w1) as [[r w2] t2].
Qed.

End DashIngestFacts.

(** C9 (as amended).  In both blob variants the loop passes over an
    entry that has the keys the loop reads and carries no PDF link: the
    body returns at once, with the world unchanged and no event, and the
    loop over the whole feed runs exactly as it does over the feed
    without such entries.  In a run of pipeline.py they show in one
    place, the count of the opening line; in a run of dash_ingest.py
    nowhere.  An entry that lacks a key the loop reads is not passed
    over: the read raises [AttributeError]. *)
Theorem C9_entries_without_pdf_link_are_skipped_silently {W V}
    (psv : Pipeline.Services W) (dsv : DashIngest.Services V) :
  (forall entry w,
     Pipeline.skipped entry = true ->
     Pipeline.process_entry psv entry w = (Ok tt, w, []))
  /\ (forall entries w,
        Pipeline.for_entries psv entries w
        = Pipeline.for_entries psv
            (filter (fun e => Pipeline.skipped e = false) entries) w)
  /\ (forall environ w entries r1,
        Pipeline.connect psv (environ !! "AZURE_CONNECTION_STRING") = Returned tt ->
        Pipeline.feedparser_parse psv Pipeline.DASH_RSS_FEED (Pipeline.remote w)
        = (Returned entries, r1) ->
        let kept := filter (fun e => Pipeline.skipped e = false) entries in
        let loop := Pipeline.for_entries psv kept
                      {| Pipeline.files := Pipeline.files w;
                         Pipeline.remote := r1 |} in
        Pipeline.script psv environ w
        = (outcome loop, world loop,
           Pipeline.EvFeedParse Pipeline.DASH_RSS_FEED
           :: Pipeline.EvLog (Pipeline.LogFound (length entries))
           :: trace loop
           ++ match outcome loop with
              | Ok _ => [Pipeline.EvLog Pipeline.LogComplete]
              | Raise _ => []
              end))
  /\ (forall link w,
        DashIngest.other_type link = true ->
        DashIngest.process_link dsv link w = (Ok tt, w, []))
  /\ (forall entry w,
        DashIngest.skipped entry = true ->
        DashIngest.process_entry dsv entry w = (Ok tt, w, []))
  /\ (forall entries w,
        DashIngest.for_entries dsv entries w
        = DashIngest.for_entries dsv
            (filter (fun e => DashIngest.skipped e = false) entries) w)
  /\ (forall environ w conn entries w1,
        environ !! "AZURE_STORAGE_CONN_STRING" = Some conn ->
        DashIngest.from_connection_string dsv conn = Returned tt ->
        DashIngest.feedparser_parse dsv DashIngest.DASH_FEED_URL w
        = (Returned entries, w1) ->
        let kept := filter (fun e => DashIngest.skipped e = false) entries in
        let loop := DashIngest.for_entries dsv kept w1 in
        DashIngest.script dsv environ w
        = (outcome loop, world loop,
           DashIngest.EvFeedParse DashIngest.DASH_FEED_URL :: trace loop))
  /\ (forall entry w,
        Pipeline.complete entry = false ->
        Pipeline.process_entry psv entry w = (Raise (Exc AttributeError), w, []))
  /\ (forall entry w,
        DashIngest.links entry = None ->
        DashIngest.process_entry dsv entry w = (Raise (Exc AttributeError), w, []))
  /\ (forall link w,
        DashIngest.type link = None ->
        DashIngest.process_link dsv link w = (Raise (Exc AttributeError), w, [])).
Proof.
  split; [apply process_entry_no_pdf|].
  split; [apply for_entries_filter|].
  split.
  { intros environ w entries r1 Hconn Hfeed. cbv zeta.
    rewrite script_run, Hconn, Hfeed. cbv zeta.
    by rewrite <- for_entries_filter. }
  split; [apply process_link_no_pdf|].
  split; [apply dash_process_entry_skipped|].
  split; [apply dash_for_entries_filter|].
  split.
  { intros environ w conn entries w1 Henv Hconn Hfeed. cbv zeta.
    rewrite dash_script_run, Henv, Hconn, Hfeed. cbv zeta.
    by rewrite <- dash_for_entries_filter. }
  split; [apply process_entry_incomplete|].
  split; [apply dash_process_entry_no_links|apply process_link_no_type].
Qed.

(** *** dash_ingest.py over the reference container *)

Section DashContainer.
Import DashIngest.
Context (feed : call (list Entry)) (get : string -> call Response).

Local Abbreviation sv := (container_services feed get).

Lemma listed_iff_stored (w : gmap string string) (name : string) :
  name ∈ map fst (map_to_list w) <-> is_Some (w !! name).
Proof.
  split.
  - intros ([k v] & -> & Hkv)%list_elem_of_fmap.
    apply elem_of_map_to_list in Hkv. by exists v.
  - intros [v Hv]. apply list_elem_of_fmap. exists (name, v).
    split; [done|]. by apply elem_of_map_to_list.
Qed.

Lemma stored_link_skipped (link : Link) (url : string) (w : gmap string string) :
  is_pdf link = true -> href link = Some url ->
  is_Some (w !! Py.last_segment "/" url) ->
  process_link sv link w
  = (Ok tt, w,
     [EvListBlobs container_name;
      EvLog (LogSkipping (Py.last_segment "/" url))]).
Proof.
  intros Hpdf Hurl Hin. eapply process_link_skip; [done|done|reflexivity|].
  by apply listed_iff_stored.
Qed.

(** A link is a PDF link, a link of another type, or has no type. *)
Lemma link_cases (link : Link) :
  is_pdf link = true \/ other_type link = true \/ type link = None.
Proof.
  unfold is_pdf, other_type. destruct (type link) as [ty|]; [|auto].
  destruct (String.eqb ty "application/pdf"); auto.
Qed.









End DashContainer.


(** *** ingest_harvard.py over the reference table *)

Section HarvardTable.
Import IngestHarvard.
Context (feed : call (list Entry))
  (reply : ChatRequest -> call (list (option string))) (cfg : Config).

Local Abbreviation sv := (table_services feed reply).




End HarvardTable.




Lemma falsy_iff_unset (environ : gmap string string) (name : string) :
  Py.truthy_str (environ !! name) = false <-> IngestHarvard.unset environ name.
Proof.
  unfold IngestHarvard.unset, Py.truthy_str.
  destruct (environ !! name) as [s|]; [|by split; [left|]].
  destruct (String.eqb_spec s ""); split; simpl; try done.
  - intros _. right. congruence.
  - intros [|]; congruence.
Qed.

(** The settings [validate_environment] reports are those that are unset. *)
Lemma missing_iff_unset (environ : gmap string string) :
  IngestHarvard.missing (IngestHarvard.load_config environ) <> []
  <-> Exists (IngestHarvard.unset environ) IngestHarvard.required_names.
Proof.
  unfold IngestHarvard.required_names.
  rewrite !Exists_cons, Exists_nil, <- !falsy_iff_unset.
  unfold IngestHarvard.missing, IngestHarvard.required, IngestHarvard.load_config.
  cbn.
  destruct (Py.truthy_str (environ !! "AZURE_AI_ENDPOINT"));
    destruct (Py.truthy_str (environ !! "AZURE_AI_KEY"));
    destruct (Py.truthy_str (environ !! "SUPABASE_URL"));
    destruct (Py.truthy_str (environ !! "SUPABASE_KEY"));
    cbn; (split; intros H;
          [first [done | repeat (first [left; reflexivity | right])]
          |first [done | exfalso; by repeat destruct H as [H|H]]]).
Qed.

(** C3 (as amended).  In ingest_harvard.py, when one of the four settings
    is unset (absent from the environment, or the empty string) the run
    ends in [sys.exit(1)] before any service is contacted, and the exit
    code is non-zero only in that case: no failure of a paper produces a
    non-zero exit.  In pipeline.py and dash_ingest.py an absent storage
    credential makes the script raise before any service is contacted. *)
Theorem C3_missing_settings_abort_the_run :
  (forall W (sv : IngestHarvard.Services W) environ w,
     let run := IngestHarvard.script sv environ w in
     (Exists (IngestHarvard.unset environ) IngestHarvard.required_names ->
      outcome run = Raise (SystemExit 1)
      /\ List.filter IngestHarvard.is_contact (trace run) = []
      /\ world run = w)
     /\ (exit_code (outcome run) <> 0%Z
         <-> Exists (IngestHarvard.unset environ) IngestHarvard.required_names))
  /\ (forall W (sv : Pipeline.Services W) environ w,
        environ !! "AZURE_CONNECTION_STRING" = None ->
        Pipeline.script sv environ w = (Raise (Exc AttributeError), w, [])
        /\ exit_code (outcome (Pipeline.script sv environ w)) = 1%Z)
  /\ (forall W (sv : DashIngest.Services W) environ w,
        environ !! "AZURE_STORAGE_CONN_STRING" = None ->
        DashIngest.script sv environ w = (Raise (Exc KeyError), w, [])
        /\ exit_code (outcome (DashIngest.script sv environ w)) = 1%Z).
Proof.
  split; [|split].
  - intros W sv environ w. cbv zeta. unfold IngestHarvard.script.
    rewrite <- missing_iff_unset.
    set (cfg := IngestHarvard.load_config environ).
    destruct (IngestHarvard.missing cfg) as [|name names] eqn:Hmiss.
    + split; [done|].
      set (answer := IngestHarvard.feedparser_parse sv IngestHarvard.DASH_RSS_FEED w).
      destruct (IngestHarvard.fetched answer.1) as [|p ps] eqn:Hpapers.
      * by rewrite (main_no_papers sv cfg w Hmiss Hpapers).
      * destruct (main_summary sv cfg w Hmiss) as (s & f & w' & t & q & _ & _ & _ & ->);
          [|done].
        fold answer. by rewrite Hpapers.
    + rewrite main_aborts; [|by rewrite Hmiss]. by repeat split.
  - intros W sv environ w Habsent.
    unfold Pipeline.script, Pipeline.connect, bind, pure_call.
    by rewrite Habsent.
  - intros W sv environ w Habsent.
    unfold DashIngest.script, DashIngest.environ_item, bind, pure_call.
    by rewrite Habsent.
Qed.

Lemma C3_witness :
  let run := IngestHarvard.script IngestHarvard.sample_services
               (delete "SUPABASE_KEY" IngestHarvard.full_environ) ∅ in
  outcome run = Raise (SystemExit 1)
  /\ List.filter IngestHarvard.is_contact (trace run) = []
  /\ world run = ∅.
Proof.
  apply (proj1 (proj1 C3_missing_settings_abort_the_run _
                  IngestHarvard.sample_services
                  (delete "SUPABASE_KEY" IngestHarvard.full_environ) ∅)).
  unfold IngestHarvard.required_names.
  do 3 apply Exists_cons_tl. apply Exists_cons_hd. left. reflexivity.
Defined.

(** C3, counterexample.  pipeline.py with its credential set and a GET
    that raises ends with exit code 1; ingest_harvard.py with all four
    settings in the environment, one of them empty, ends with exit
    code 1. *)
Lemma C3_counterexample :
  (let sv := Pipeline.sample_services (Raised (ServiceError "ConnectionError")) in
   let run := Pipeline.script sv Pipeline.sample_environ Pipeline.empty_world in
   is_Some (Pipeline.sample_environ !! "AZURE_CONNECTION_STRING")
   /\ outcome run = Raise (Exc (ServiceError "ConnectionError"))
   /\ exit_code (outcome run) = 1%Z)
  /\ (let environ := <["AZURE_AI_KEY" := ""]> IngestHarvard.full_environ in
      let run := IngestHarvard.script IngestHarvard.sample_services environ ∅ in
      Forall (fun name => is_Some (environ !! name)) IngestHarvard.required_names
      /\ exit_code (outcome run) = 1%Z).
Proof.
  split.
  - cbv zeta. split; [|split].
    + eexists. vm_compute. reflexivity.
    + vm_compute. reflexivity.
    + vm_compute. reflexivity.
  - cbv zeta. split; [|vm_compute; reflexivity].
    unfold IngestHarvard.required_names.
    repeat (apply Forall_cons; split;
            [eexists; vm_compute; reflexivity|]).
    constructor.
Qed.

(** C2 (as amended).  In ingest_harvard.py the analysis and the store of
    a paper never raise, and the loop of [main] never raises: it starts
    and analyses every paper in order, moves one counter per paper, and
    counts as successful exactly the papers whose insert succeeded, the
    others as failed.  After a paper that failed, at the analysis or at
    the store, the loop goes on with the papers that follow, from the
    world the failure left; with a client that can be built, the request
    of every paper is sent to the Enricher, in order, whatever happened to
    the papers before it.  In dash_ingest.py a fetch that answers
    another status than 200 is reported on the console, nothing is
    uploaded, and the loop goes on with the links that follow. *)
Theorem C2_item_failures_do_not_stop_the_loop :
  (forall W (sv : IngestHarvard.Services W) cfg,
     (forall paper w,
        exists a, outcome (IngestHarvard.analyze_paper_with_ai sv cfg paper w) = Ok a)
     /\ (forall paper d w,
           exists b, outcome (IngestHarvard.store_in_supabase sv cfg paper d w) = Ok b)
     /\ (forall total papers i successful failed w,
           exists s f w' t,
             IngestHarvard.main_loop sv cfg total i papers successful failed w
             = (Ok (s, f), w', t)
             /\ s + f = successful + failed + length papers
             /\ s = successful + IngestHarvard.insert_successes t
             /\ IngestHarvard.processing_lines t
                = map (fun k => (k, total)) (seq i (length papers))
             /\ IngestHarvard.analyzing_lines t
                = map (fun p => Py.slice_to 60 (IngestHarvard.title p)) papers)
     /\ (forall total i paper rest successful failed w a w1 t1,
           IngestHarvard.analyze_paper_with_ai sv cfg paper w = (Ok a, w1, t1) ->
           IngestHarvard.truthy_analysis a = None ->
           let after := IngestHarvard.main_loop sv cfg total (S i) rest
                          successful (S failed) w1 in
           IngestHarvard.main_loop sv cfg total i (paper :: rest)
             successful failed w
           = (outcome after, world after,
              IngestHarvard.EvLog (IngestHarvard.LogProcessing i total)
              :: t1 ++ trace after))
     /\ (forall total i paper rest successful failed w a w1 t1 d w2 t2,
           IngestHarvard.analyze_paper_with_ai sv cfg paper w = (Ok a, w1, t1) ->
           IngestHarvard.truthy_analysis a = Some d ->
           IngestHarvard.store_in_supabase sv cfg paper d w1 = (Ok false, w2, t2) ->
           let after := IngestHarvard.main_loop sv cfg total (S i) rest
                          successful (S failed) w2 in
           IngestHarvard.main_loop sv cfg total i (paper :: rest)
             successful failed w
           = (outcome after, world after,
              IngestHarvard.EvLog (IngestHarvard.LogProcessing i total)
              :: t1 ++ t2 ++ trace after))
     /\ (forall url total papers i successful failed w,
           IngestHarvard.endpoint_base_url cfg = Returned url ->
           IngestHarvard.OpenAI sv (IngestHarvard.AZURE_AI_KEY cfg) url
           = Returned tt ->
           IngestHarvard.chat_requests
             (trace (IngestHarvard.main_loop sv cfg total i papers
                       successful failed w))
           = map IngestHarvard.chat_request papers))
  /\ (forall W (sv : DashIngest.Services W) link url rest w w1 w2 names r,
        DashIngest.is_pdf link = true ->
        DashIngest.href link = Some url ->
        DashIngest.list_blobs sv DashIngest.container_name w = (Returned names, w1) ->
        Py.last_segment "/" url ∉ names ->
        DashIngest.requests_get sv url w1 = (Returned r, w2) ->
        status_code r <> 200%Z ->
        let after := DashIngest.for_links sv rest w2 in
        DashIngest.for_links sv (link :: rest) w
        = (outcome after, world after,
           [DashIngest.EvListBlobs DashIngest.container_name;
            DashIngest.EvLog
              (DashIngest.LogDownloading (Py.last_segment "/" url));
            DashIngest.EvHttpGet url;
            DashIngest.EvLog (DashIngest.LogFailed url)]
           ++ trace after)).
Proof.
  split.
  - intros W sv cfg. split; [|split; [|split; [|split; [|split]]]].
    6: { intros url total papers i s0 f0 w Hurl Hclient.
         by eapply main_loop_requests. }
    + intros paper w. destruct (analyze_spec sv cfg paper w) as (a & ? & ? & -> & _).
      by exists a.
    + intros paper d w. destruct (store_spec sv cfg paper d w) as (b & ? & ? & -> & _).
      by exists b.
    + intros total papers i s0 f0 w.
      destruct (main_loop_spec sv cfg total papers i s0 f0 w)
        as (s & f & w' & t & Hrun & Hsum & Hsucc & Hproc & Hana & _).
      by exists s, f, w', t.
    + intros total i paper rest s0 f0 w a w1 t1 Ha Hfalsy after. subst after.
      cbn [IngestHarvard.main_loop].
      unfold bind at 1, IngestHarvard.log, emit. unfold bind at 1.
      rewrite Ha, Hfalsy.
      by destruct (IngestHarvard.main_loop sv cfg total (S i) rest s0 (S f0) w1)
        as [[r w'] t'].
    + intros total i paper rest s0 f0 w a w1 t1 d w2 t2 Ha Htruthy Hstore after.
      subst after. cbn [IngestHarvard.main_loop].
      unfold bind at 1, IngestHarvard.log, emit. unfold bind at 1.
      rewrite Ha, Htruthy. unfold bind at 1. rewrite Hstore.
      destruct (IngestHarvard.main_loop sv cfg total (S i) rest s0 (S f0) w2)
        as [[r w'] t'].
      by rewrite outcome_run, world_run, trace_run, app_assoc.
  - intros W sv link url rest w w1 w2 names r Hpdf Hurl Hlist Hnotin Hget Hstatus
      after.
    cbn [DashIngest.for_links].
    by rewrite (bind_ok _ _ w tt w2 _
                  (process_link_failed sv link url w w1 w2 names r
                     Hpdf Hurl Hlist Hnotin Hget Hstatus)).
Qed.

Lemma C2_witness :
  let sv := DashIngest.sample_services (Returned not_found) in
  let after := DashIngest.for_links sv [DashIngest.second_pdf] ∅ in
  DashIngest.for_links sv [DashIngest.first_pdf; DashIngest.second_pdf] ∅
  = (outcome after, world after,
     [DashIngest.EvListBlobs DashIngest.container_name;
      DashIngest.EvLog (DashIngest.LogDownloading "torts.pdf");
      DashIngest.EvHttpGet DashIngest.first_url;
      DashIngest.EvLog (DashIngest.LogFailed DashIngest.first_url)]
     ++ trace after).
Proof.
  apply (proj2 C2_item_failures_do_not_stop_the_loop _
           (DashIngest.sample_services (Returned not_found))
           DashIngest.first_pdf DashIngest.first_url [DashIngest.second_pdf]
           ∅ ∅ ∅ [] not_found).
  - reflexivity.
  - reflexivity.
  - reflexivity.
  - apply not_elem_of_nil.
  - reflexivity.
  - discriminate.
Defined.

(** C2, counterexample.  In dash_ingest.py a GET that raises on the first
    PDF ends the run with that exception: the second PDF of the feed is
    never listed, fetched or uploaded. *)
Lemma C2_counterexample :
  let sv := DashIngest.sample_services (Raised (ServiceError "ConnectionError")) in
  let run := DashIngest.script sv DashIngest.sample_environ ∅ in
  outcome run = Raise (Exc (ServiceError "ConnectionError"))
  /\ trace run
     = [DashIngest.EvFeedParse DashIngest.DASH_FEED_URL;
        DashIngest.EvListBlobs DashIngest.container_name;
        DashIngest.EvLog (DashIngest.LogDownloading "torts.pdf");
        DashIngest.EvHttpGet DashIngest.first_url]
  /\ world run = ∅.
Proof. repeat split; vm_compute; reflexivity. Qed.

(** C7.  pipeline.py does not look at the status of the answer: whatever
    [requests.get] answers for the entry is written to the download folder
    and uploaded to the container as the PDF of the entry.  So a GET
    answered with 404 puts the body of that answer in the container. *)
Theorem C7_pipeline_uploads_a_failed_download :
  (forall answer : Response,
     let sv := Pipeline.sample_services (Returned answer) in
     let run := Pipeline.script sv Pipeline.sample_environ Pipeline.empty_world in
     outcome run = Ok tt
     /\ Pipeline.uploads (trace run)
        = [Pipeline.EvUploadBlob "law-dropzone" "On_Torts.pdf" (content answer) true]
     /\ Pipeline.remote (world run) !! "On_Torts.pdf" = Some (content answer))
  /\ (let sv := Pipeline.sample_services (Returned not_found) in
      let run := Pipeline.script sv Pipeline.sample_environ Pipeline.empty_world in
      status_code not_found = 404%Z
      /\ outcome run = Ok tt
      /\ trace run
         = [Pipeline.EvFeedParse Pipeline.DASH_RSS_FEED;
            Pipeline.EvLog (Pipeline.LogFound 1);
            Pipeline.EvLog (Pipeline.LogDownloading "On_Torts");
            Pipeline.EvHttpGet Pipeline.sample_url;
            Pipeline.EvUploadBlob "law-dropzone" "On_Torts.pdf" "Not Found" true;
            Pipeline.EvLog (Pipeline.LogUploaded "On_Torts.pdf" "law-dropzone");
            Pipeline.EvLog Pipeline.LogComplete]
      /\ Pipeline.remote (world run) !! "On_Torts.pdf" = Some "Not Found").
Proof.
  split.
  - intros answer. repeat split; vm_compute; reflexivity.
  - repeat split; vm_compute; reflexivity.
Qed.

Lemma C9_witness :
  Pipeline.process_entry (Pipeline.sample_services (Returned pdf_ok))
    {| Pipeline.title := Some "Annual report";
       Pipeline.link := Some "https://dash.harvard.edu/handle/1/2" |}
    Pipeline.empty_world
  = (Ok tt, Pipeline.empty_world, [])
  /\ DashIngest.process_entry (DashIngest.sample_services (Returned pdf_ok))
       {| DashIngest.links := Some [DashIngest.html_link] |} ∅
     = (Ok tt, ∅, []).
Proof.
  split.
  - apply (proj1 (C9_entries_without_pdf_link_are_skipped_silently
                    (Pipeline.sample_services (Returned pdf_ok))
                    (DashIngest.sample_services (Returned pdf_ok)))).
    reflexivity.
  - apply (proj1 (proj2 (proj2 (proj2 (proj2
             (C9_entries_without_pdf_link_are_skipped_silently
                (Pipeline.sample_services (Returned pdf_ok))
                (DashIngest.sample_services (Returned pdf_ok)))))))).
    reflexivity.
Defined.

(** C9, counterexample.  An entry of pipeline.py whose link is a page,
    not a PDF, shows in the output of the run: the opening line counts
    it.  And an entry without a link carries no PDF link either, but is
    not passed over: the read of the key ends the run with
    [AttributeError], in pipeline.py and in dash_ingest.py, and the PDF of
    the entry that follows is never uploaded. *)
Lemma C9_counterexample :
  let page := {| Pipeline.title := Some "Annual report";
                 Pipeline.link := Some "https://dash.harvard.edu/handle/1/2" |} in
  let bare := {| Pipeline.title := Some "Annual report";
                 Pipeline.link := None |} in
  let run feed := Pipeline.script
                    (Pipeline.container_services (Returned feed)
                       (fun _ => Returned pdf_ok))
                    Pipeline.sample_environ Pipeline.empty_world in
  let dash_run := DashIngest.script
                    (DashIngest.container_services
                       (Returned [ {| DashIngest.links := None |};
                                   {| DashIngest.links :=
                                        Some [DashIngest.second_pdf] |} ])
                       (fun _ => Returned pdf_ok))
                    DashIngest.sample_environ ∅ in
  Pipeline.has_pdf_link page = false
  /\ Pipeline.has_pdf_link bare = false
  /\ trace (run [page])
     = [Pipeline.EvFeedParse Pipeline.DASH_RSS_FEED;
        Pipeline.EvLog (Pipeline.LogFound 1);
        Pipeline.EvLog Pipeline.LogComplete]
  /\ trace (run [])
     = [Pipeline.EvFeedParse Pipeline.DASH_RSS_FEED;
        Pipeline.EvLog (Pipeline.LogFound 0);
        Pipeline.EvLog Pipeline.LogComplete]
  /\ outcome (run [bare; Pipeline.sample_entry]) = Raise (Exc AttributeError)
  /\ Pipeline.uploads (trace (run [bare; Pipeline.sample_entry])) = []
  /\ outcome dash_run = Raise (Exc AttributeError)
  /\ DashIngest.uploads (trace dash_run) = [].
Proof. repeat split; vm_compute; reflexivity. Qed.

(** *** pipeline.py with every GET answered, every write and upload taken *)

Section PipelineContainer.
Import Pipeline.
Context {W : Type} (sv : Services W).
Hypothesis get_answers :
  forall url r0, exists r r1, requests_get sv url r0 = (Returned r, r1).
Hypothesis open_succeeds : forall path fs, open_wb sv path fs = Returned tt.
Hypothesis upload_accepted :
  forall name data r0,
    exists r1, upload_blob sv CONTAINER_NAME name data true r0 = (Returned tt, r1).

(** Every PDF entry is uploaded, once. *)
Lemma container_entry_uploads (entry : Entry) (w : World W) :
  complete entry = true -> has_pdf_link entry = true ->
  exists w' t,
    process_entry sv entry w = (Ok tt, w', t) /\ length (uploads t) = 1.
Proof.
  intros Hfull Hpdf.
  assert (exists url, link entry = Some url) as [url Hurl].
  { unfold has_pdf_link in Hpdf. destruct (link entry); [by eexists|done]. }
  destruct (files w !! pdf_path entry) as [data|] eqn:Hfile.
  - rewrite (process_entry_cached sv entry w data Hfull Hpdf Hfile).
    destruct (upload_accepted (pdf_filename entry) data (remote w)) as [r1 ->].
    by do 2 eexists.
  - destruct (get_answers url (remote w)) as (r & r1 & Hget).
    rewrite (process_entry_fetched sv entry url w r r1 Hfull Hpdf Hurl Hfile Hget
               (open_succeeds _ _)).
    destruct (upload_accepted (pdf_filename entry) (content r) r1) as [r2 ->].
    by do 2 eexists.
Qed.

Lemma container_entries_upload (entries : list Entry) :
  Forall (fun e => complete e = true) entries ->
  forall w, exists w' t,
    for_entries sv entries w = (Ok tt, w', t)
    /\ length (uploads t)
       = length (filter (fun e => has_pdf_link e = true) entries).
Proof.
  induction 1 as [|entry rest Hfull _ IH]; intros w; [by exists w, []|].
  rewrite filter_cons. cbn [for_entries]. case_decide as Hpdf.
  - destruct (container_entry_uploads entry w Hfull Hpdf) as (w1 & t1 & Hrun1 & Hup1).
    destruct (IH w1) as (w2 & t2 & Hrun2 & Hup2).
    rewrite (bind_ok _ _ _ _ _ _ Hrun1), Hrun2.
    rewrite outcome_run, world_run, trace_run. do 2 eexists. split; [done|].
    unfold uploads in *. rewrite List.filter_app, length_app, Hup1, Hup2. done.
  - apply not_true_is_false in Hpdf.
    assert (Hskip : skipped entry = true).
    { unfold skipped. by rewrite Hfull, Hpdf. }
    rewrite (bind_ok _ _ _ _ _ _ (process_entry_no_pdf sv entry w Hskip)).
    destruct (IH w) as (w2 & t2 & -> & Hup2).
    rewrite outcome_run, world_run, trace_run. by do 2 eexists.
Qed.
End PipelineContainer.

(** C5 (as amended).  In ingest_harvard.py, for every feed of more than
    [MAX_PAPERS_PER_RUN] = 10 entries, a run works on exactly 10 papers:
    the first 10 entries of the feed, in feed order; the entries after
    them are ignored.  pipeline.py has no maximum: when every entry of
    the feed has its title and link, every GET is answered, and every
    local write and every upload is taken, a run uploads once for every
    PDF entry of the feed, however many there are. *)
Theorem C5_batch_bound :
  (forall W (sv : IngestHarvard.Services W) cfg w entries w1,
     IngestHarvard.missing cfg = [] ->
     IngestHarvard.feedparser_parse sv IngestHarvard.DASH_RSS_FEED w
     = (Returned entries, w1) ->
     IngestHarvard.MAX_PAPERS_PER_RUN < length entries ->
     let papers := map IngestHarvard.paper_of_entry
                       (take IngestHarvard.MAX_PAPERS_PER_RUN entries) in
     let run := IngestHarvard.main sv cfg w in
     length papers = 10
     /\ outcome (IngestHarvard.fetch_harvard_papers sv w) = Ok papers
     /\ IngestHarvard.processing_lines (trace run)
        = map (fun k => (k, 10)) (seq 1 10)
     /\ IngestHarvard.analyzing_lines (trace run)
        = map (fun p => Py.slice_to 60 (IngestHarvard.title p)) papers)
  /\ (forall W (sv : Pipeline.Services W) environ w entries r1,
        Pipeline.connect sv (environ !! "AZURE_CONNECTION_STRING") = Returned tt ->
        Pipeline.feedparser_parse sv Pipeline.DASH_RSS_FEED (Pipeline.remote w)
        = (Returned entries, r1) ->
        Forall (fun e => Pipeline.complete e = true) entries ->
        (forall url r0, exists r r',
           Pipeline.requests_get sv url r0 = (Returned r, r')) ->
        (forall path fs, Pipeline.open_wb sv path fs = Returned tt) ->
        (forall name data r0, exists r',
           Pipeline.upload_blob sv Pipeline.CONTAINER_NAME name data true r0
           = (Returned tt, r')) ->
        length (Pipeline.uploads (trace (Pipeline.script sv environ w)))
        = length (filter (fun e => Pipeline.has_pdf_link e = true) entries)).
Proof.
  split.
  - intros W sv cfg w entries w1 Hmiss Hfeed Hlen papers run.
    assert (Hten : length papers = 10).
    { unfold papers. rewrite length_map, length_take.
      unfold IngestHarvard.MAX_PAPERS_PER_RUN in *. lia. }
    split; [done|]. split.
    { rewrite fetch_spec, Hfeed. reflexivity. }
    destruct (main_summary sv cfg w Hmiss)
      as (s & f & w' & t & q & _ & (_ & _ & Hproc & Hana & _) & _ & Hmain).
    { rewrite Hfeed. cbn [fst IngestHarvard.fetched]. fold papers.
      intros Hnil. by rewrite Hnil in Hten. }
    rewrite Hfeed in Hproc, Hana, Hmain.
    cbn [fst snd IngestHarvard.fetched] in Hproc, Hana, Hmain.
    fold papers in Hproc, Hana, Hmain. rewrite Hten in Hproc.
    subst run. rewrite Hmain, trace_run.
    unfold IngestHarvard.processing_lines, IngestHarvard.analyzing_lines in *.
    rewrite !omap_app, Hproc, Hana.
    destruct entries as [|e es]; [simpl in Hlen; lia|].
    split; cbn; rewrite ?app_nil_r; reflexivity.
  - intros W sv environ w entries r1 Hconn Hfeed Hfull Hget Hopen Hup.
    rewrite script_run, Hconn, Hfeed. cbv zeta.
    destruct (container_entries_upload sv Hget Hopen Hup entries Hfull
                {| Pipeline.files := Pipeline.files w; Pipeline.remote := r1 |})
      as (w' & t & -> & Hcount).
    rewrite outcome_run, !trace_run. unfold Pipeline.uploads in *.
    cbn [List.filter Pipeline.is_upload].
    rewrite List.filter_app, length_app, Hcount. cbn. lia.
Qed.

Lemma C5_witness :
  let sv := IngestHarvard.table_services (Returned IngestHarvard.eleven_entries)
              (fun _ => Returned [Some IngestHarvard.sample_reply]) in
  let run := IngestHarvard.main sv IngestHarvard.full_config ∅ in
  let blobs := Pipeline.container_services (Returned Pipeline.eleven_entries)
                 (fun _ => Returned pdf_ok) in
  IngestHarvard.processing_lines (trace run) = map (fun k => (k, 10)) (seq 1 10)
  /\ IngestHarvard.analyzing_lines (trace run)
     = ["a"; "b"; "c"; "d"; "e"; "f"; "g"; "h"; "i"; "j"]
  /\ length (Pipeline.uploads
               (trace (Pipeline.script blobs Pipeline.sample_environ
                         Pipeline.empty_world)))
     = length (filter (fun e => Pipeline.has_pdf_link e = true)
                      Pipeline.eleven_entries).
Proof.
  pose proof (proj1 C5_batch_bound _
                (IngestHarvard.table_services
                   (Returned IngestHarvard.eleven_entries)
                   (fun _ => Returned [Some IngestHarvard.sample_reply]))
                IngestHarvard.full_config ∅ IngestHarvard.eleven_entries ∅)
    as Hbound.
  destruct Hbound as (_ & _ & Hproc & Hana).
  - reflexivity.
  - reflexivity.
  - vm_compute. lia.
  - split; [exact Hproc|]. split; [rewrite Hana; vm_compute; reflexivity|].
    apply (proj2 C5_batch_bound _
             (Pipeline.container_services (Returned Pipeline.eleven_entries)
                (fun _ => Returned pdf_ok))
             Pipeline.sample_environ Pipeline.empty_world
             Pipeline.eleven_entries ∅).
    + reflexivity.
    + reflexivity.
    + repeat (apply Forall_cons_2; [reflexivity|]). apply Forall_nil_2.
    + intros url r0. by do 2 eexists.
    + reflexivity.
    + intros name data r0. by eexists.
Defined.

(** C5, counterexample.  pipeline.py run on a feed of eleven PDF entries
    uploads eleven blobs, not ten. *)
Lemma C5_counterexample :
  let sv := Pipeline.container_services (Returned Pipeline.eleven_entries)
              (fun _ => Returned pdf_ok) in
  let run := Pipeline.script sv Pipeline.sample_environ Pipeline.empty_world in
  length Pipeline.eleven_entries = 11
  /\ outcome run = Ok tt
  /\ length (Pipeline.uploads (trace run)) = 11
  /\ size (Pipeline.remote (world run)) = 11.
Proof. repeat split; vm_compute; reflexivity. Qed.

(** * Further properties of the scripts *)

(** ** ingest_harvard.py, function by function *)

(** X1.  [validate_environment] contacts nothing and leaves the world as
    it is.  It answers [True] exactly when none of the four settings is
    unset; otherwise its one console line lists the unset settings, all of
    them and only them, in the order of the dict [required]:
    AZURE_AI_ENDPOINT, AZURE_AI_KEY, SUPABASE_URL, SUPABASE_KEY. *)
Theorem X1_validate_environment_reports_the_unset_settings {W}
    (environ : gmap string string) (w : W) :
  let cfg := IngestHarvard.load_config environ in
  let run := IngestHarvard.validate_environment cfg w in
  world run = w
  /\ List.filter IngestHarvard.is_contact (trace run) = []
  /\ IngestHarvard.missing cfg
     = filter (fun name => Py.truthy_str (environ !! name) = false)
              IngestHarvard.required_names
  /\ (forall name,
        name ∈ IngestHarvard.missing cfg
        <-> name ∈ IngestHarvard.required_names
            /\ IngestHarvard.unset environ name)
  /\ (IngestHarvard.missing cfg = [] ->
      run = (Ok true, w, [IngestHarvard.EvLog IngestHarvard.LogEnvValidated]))
  /\ (IngestHarvard.missing cfg <> [] ->
      run = (Ok false, w,
             [IngestHarvard.EvLog
                (IngestHarvard.LogMissingEnv
                   (Py.join ", " (IngestHarvard.missing cfg)))])).
Proof.
  intros cfg run.
  assert (Hmissing : IngestHarvard.missing cfg
            = filter (fun name => Py.truthy_str (environ !! name) = false)
                     IngestHarvard.required_names).
  { unfold IngestHarvard.missing, IngestHarvard.required, cfg,
      IngestHarvard.load_config, IngestHarvard.required_names. cbn.
    destruct (Py.truthy_str (environ !! "AZURE_AI_ENDPOINT"));
      destruct (Py.truthy_str (environ !! "AZURE_AI_KEY"));
      destruct (Py.truthy_str (environ !! "SUPABASE_URL"));
      destruct (Py.truthy_str (environ !! "SUPABASE_KEY")); reflexivity. }
  assert (Hrun : IngestHarvard.missing cfg = [] /\ run
                   = (Ok true, w, [IngestHarvard.EvLog IngestHarvard.LogEnvValidated])
                 \/ IngestHarvard.missing cfg <> [] /\ run
                   = (Ok false, w,
                      [IngestHarvard.EvLog
                         (IngestHarvard.LogMissingEnv
                            (Py.join ", " (IngestHarvard.missing cfg)))])).
  { destruct (IngestHarvard.missing cfg) as [|n ns] eqn:Hm.
    - left. split; [done|]. by apply validate_ok.
    - right. split; [done|]. subst run. rewrite validate_missing, Hm; [done|].
      by rewrite Hm. }
  split; [by destruct Hrun as [[_ ->]|[_ ->]]|].
  split; [by destruct Hrun as [[_ ->]|[_ ->]]|].
  split; [exact Hmissing|]. split.
  - intros name. rewrite Hmissing, list_elem_of_filter, falsy_iff_unset. tauto.
  - split; intros Hm; destruct Hrun as [[Hm' ->]|[Hm' ->]]; done.
Qed.

Lemma X1_witness :
  IngestHarvard.validate_environment
    (IngestHarvard.load_config
       (<["SUPABASE_URL" := ""]> (delete "AZURE_AI_KEY" IngestHarvard.full_environ)))
    tt
  = (Ok false, tt,
     [IngestHarvard.EvLog (IngestHarvard.LogMissingEnv "AZURE_AI_KEY, SUPABASE_URL")]).
Proof.
  destruct (X1_validate_environment_reports_the_unset_settings
              (<["SUPABASE_URL" := ""]>
                 (delete "AZURE_AI_KEY" IngestHarvard.full_environ)) tt)
    as (_ & _ & _ & _ & _ & Hline).
  apply Hline. vm_compute. discriminate.
Defined.

(** X2.  [fetch_harvard_papers] never raises and contacts the feed once
    and nothing else.  It answers at most [MAX_PAPERS_PER_RUN] papers: the
    papers of the first entries of the feed, in feed order, all of them
    when the feed has at most that many, and none when the feed raises. *)
Theorem X2_fetch_harvard_papers_is_total_and_bounded {W}
    (sv : IngestHarvard.Services W) (w : W) :
  let answer := IngestHarvard.feedparser_parse sv IngestHarvard.DASH_RSS_FEED w in
  let run := IngestHarvard.fetch_harvard_papers sv w in
  exists papers,
    outcome run = Ok papers
    /\ world run = answer.2
    /\ List.filter IngestHarvard.is_contact (trace run)
       = [IngestHarvard.EvFeedParse IngestHarvard.DASH_RSS_FEED]
    /\ length papers <= IngestHarvard.MAX_PAPERS_PER_RUN
    /\ (forall entries,
          answer.1 = Returned entries ->
          papers = map IngestHarvard.paper_of_entry
                       (take IngestHarvard.MAX_PAPERS_PER_RUN entries)
          /\ (length entries <= IngestHarvard.MAX_PAPERS_PER_RUN ->
              papers = map IngestHarvard.paper_of_entry entries))
    /\ (forall e, answer.1 = Raised e -> papers = []).
Proof.
  intros answer run. subst run. rewrite fetch_spec. fold answer.
  exists (IngestHarvard.fetched answer.1).
  split; [done|]. split; [done|]. split; [done|]. split; [|split].
  - unfold IngestHarvard.MAX_PAPERS_PER_RUN.
    destruct answer.1 as [entries|e]; cbn; [|lia].
    rewrite length_map, length_take. lia.
  - intros entries ->. split; [done|]. intros Hlen. cbn.
    by rewrite take_ge.
  - by intros e ->.
Qed.

Lemma X2_witness :
  IngestHarvard.fetched (Returned [IngestHarvard.sample_entry])
  = map IngestHarvard.paper_of_entry [IngestHarvard.sample_entry].
Proof.
  destruct (X2_fetch_harvard_papers_is_total_and_bounded
              IngestHarvard.sample_services ∅)
    as (papers & Hrun & _ & _ & _ & Hentries & _).
  destruct (Hentries [IngestHarvard.sample_entry] eq_refl) as [_ Hall].
  rewrite <- Hall; [|vm_compute; lia].
  rewrite fetch_spec in Hrun. cbn in Hrun. by simplify_eq.
Defined.

(** X3.  The base URL handed to the OpenAI client always ends in "/v1":
    an endpoint that ends in "/v1" is passed as it is, any other gets
    "/v1" appended, and doing it twice changes nothing more. *)
Theorem X3_base_url_ends_in_v1 (endpoint : string) :
  Py.endswith "/v1" (IngestHarvard.base_url endpoint) = true
  /\ (Py.endswith "/v1" endpoint = true -> IngestHarvard.base_url endpoint = endpoint)
  /\ (Py.endswith "/v1" endpoint = false ->
      IngestHarvard.base_url endpoint = endpoint +:+ "/v1")
  /\ IngestHarvard.base_url (IngestHarvard.base_url endpoint)
     = IngestHarvard.base_url endpoint.
Proof.
  assert (Hends : Py.endswith "/v1" (IngestHarvard.base_url endpoint) = true).
  { unfold IngestHarvard.base_url.
    destruct (Py.endswith "/v1" endpoint) eqn:He; [done|apply endswith_append]. }
  split; [done|]. split; [|split].
  - unfold IngestHarvard.base_url. by intros ->.
  - unfold IngestHarvard.base_url. by intros ->.
  - unfold IngestHarvard.base_url at 1. by rewrite Hends.
Qed.

Lemma X3_witness :
  IngestHarvard.base_url "https://ai.example" = "https://ai.example/v1".
Proof.
  destruct (X3_base_url_ends_in_v1 "https://ai.example") as (_ & _ & Happend & _).
  apply Happend. reflexivity.
Defined.


(** X4.  A reply that [json.loads] decodes to something else than an
    object (a list, a number, a string, [true], [null]) gets no default
    annotation: the analysis prints that it completed, then fails on
    [analysis.get] and answers [None].  The loop counts the paper as failed
    and does not contact the database for it. *)
Theorem X4_reply_that_is_no_object_fails_the_paper {W}
    (sv : IngestHarvard.Services W) (cfg : IngestHarvard.Config)
    (paper : IngestHarvard.Paper) (w w1 : W) (url content : string)
    (others : list (option string)) (v : json) :
  IngestHarvard.endpoint_base_url cfg = Returned url ->
  IngestHarvard.OpenAI sv (IngestHarvard.AZURE_AI_KEY cfg) url = Returned tt ->
  IngestHarvard.chat_completions_create sv (IngestHarvard.chat_request paper) w
  = (Returned (Some content :: others), w1) ->
  IngestHarvard.json_loads sv (Py.strip content) = Returned v ->
  IngestHarvard.not_a_dict v ->
  IngestHarvard.analyze_paper_with_ai sv cfg paper w
  = (Ok None, w1,
     [IngestHarvard.EvLog
        (IngestHarvard.LogAnalyzing (Py.slice_to 60 (IngestHarvard.title paper)));
      IngestHarvard.EvChatCreate (IngestHarvard.chat_request paper);
      IngestHarvard.EvLog IngestHarvard.LogAnalysisCompleted;
      IngestHarvard.EvLog (IngestHarvard.LogAnalysisFailed AttributeError)])
  /\ (forall total i successful failed,
        let run := IngestHarvard.main_loop sv cfg total i [paper]
                     successful failed w in
        outcome run = Ok (successful, S failed)
        /\ IngestHarvard.upsert_rows (trace run) = []
        /\ world run = w1).
Proof.
  intros Hurl Hclient Hreply Hjson Hv.
  pose proof (analyze_after_reply sv cfg paper w w1 url content others
                Hurl Hclient Hreply) as Hrun.
  cbv zeta in Hrun. rewrite Hjson in Hrun.
  assert (Hrun' : IngestHarvard.analyze_paper_with_ai sv cfg paper w
            = (Ok None, w1,
               [IngestHarvard.EvLog
                  (IngestHarvard.LogAnalyzing
                     (Py.slice_to 60 (IngestHarvard.title paper)));
                IngestHarvard.EvChatCreate (IngestHarvard.chat_request paper);
                IngestHarvard.EvLog IngestHarvard.LogAnalysisCompleted;
                IngestHarvard.EvLog (IngestHarvard.LogAnalysisFailed AttributeError)])).
  { by destruct v. }
  split; [exact Hrun'|]. intros total i s f run.
  assert (Hloop : run = (Ok (s, S f), w1,
            IngestHarvard.EvLog (IngestHarvard.LogProcessing i total)
            :: trace (IngestHarvard.analyze_paper_with_ai sv cfg paper w))).
  { subst run. cbn [IngestHarvard.main_loop].
    unfold bind, IngestHarvard.log, emit, ret. rewrite Hrun'. reflexivity. }
  rewrite Hloop, Hrun'. repeat split.
Qed.

Lemma X4_witness :
  let sv := IngestHarvard.table_services (Returned [])
              (fun _ => Returned [Some "[1, 2]"]) in
  IngestHarvard.analyze_paper_with_ai sv IngestHarvard.full_config
    (IngestHarvard.paper_of_entry ∅) ∅
  = (Ok None, ∅,
     [IngestHarvard.EvLog (IngestHarvard.LogAnalyzing "Untitled");
      IngestHarvard.EvChatCreate
        (IngestHarvard.chat_request (IngestHarvard.paper_of_entry ∅));
      IngestHarvard.EvLog IngestHarvard.LogAnalysisCompleted;
      IngestHarvard.EvLog (IngestHarvard.LogAnalysisFailed AttributeError)]).
Proof.
  refine (proj1 (X4_reply_that_is_no_object_fails_the_paper
                   (IngestHarvard.table_services (Returned [])
                      (fun _ => Returned [Some "[1, 2]"]))
                   IngestHarvard.full_config (IngestHarvard.paper_of_entry ∅) ∅ ∅
                   "https://ai.example/v1" "[1, 2]" []
                   (JArray [JNumber "1"; JNumber "2"]) _ _ _ _ _));
    first [reflexivity | exact I].
Defined.

(** X5.  Only [JSONDecodeError] is answered with the default annotation.
    Any other exception of [json.loads] ([RecursionError] on a reply that
    is nested too deep, say) fails the paper: the analysis answers [None]
    and does not print that it completed. *)
Theorem X5_other_decoding_errors_fail_the_paper {W}
    (sv : IngestHarvard.Services W) (cfg : IngestHarvard.Config)
    (paper : IngestHarvard.Paper) (w w1 : W) (url content : string)
    (others : list (option string)) (e : exn) :
  IngestHarvard.endpoint_base_url cfg = Returned url ->
  IngestHarvard.OpenAI sv (IngestHarvard.AZURE_AI_KEY cfg) url = Returned tt ->
  IngestHarvard.chat_completions_create sv (IngestHarvard.chat_request paper) w
  = (Returned (Some content :: others), w1) ->
  IngestHarvard.json_loads sv (Py.strip content) = Raised e ->
  e <> JSONDecodeError ->
  IngestHarvard.analyze_paper_with_ai sv cfg paper w
  = (Ok None, w1,
     [IngestHarvard.EvLog
        (IngestHarvard.LogAnalyzing (Py.slice_to 60 (IngestHarvard.title paper)));
      IngestHarvard.EvChatCreate (IngestHarvard.chat_request paper);
      IngestHarvard.EvLog (IngestHarvard.LogAnalysisFailed e)]).
Proof.
  intros Hurl Hclient Hreply Hjson He.
  pose proof (analyze_after_reply sv cfg paper w w1 url content others
                Hurl Hclient Hreply) as Hrun.
  cbv zeta in Hrun. rewrite Hjson in Hrun. by destruct e.
Qed.

Lemma X5_witness :
  let sv := IngestHarvard.table_services (Returned [])
              (fun _ => Returned [Some IngestHarvard.deep_reply]) in
  outcome (IngestHarvard.analyze_paper_with_ai sv IngestHarvard.full_config
             (IngestHarvard.paper_of_entry ∅) ∅)
  = Ok None.
Proof.
  cbv zeta.
  rewrite (X5_other_decoding_errors_fail_the_paper
             (IngestHarvard.table_services (Returned [])
                (fun _ => Returned [Some IngestHarvard.deep_reply]))
             IngestHarvard.full_config (IngestHarvard.paper_of_entry ∅) ∅ ∅
             "https://ai.example/v1" IngestHarvard.deep_reply [] RecursionError).
  - reflexivity.
  - reflexivity.
  - reflexivity.
  - reflexivity.
  - vm_compute. reflexivity.
  - discriminate.
Defined.

(** X6.  One analysis asks the Enricher at most once, for the request
    built from its paper, and never touches the database.  It answers an
    annotation only after that one request.  When the endpoint setting is
    absent or the client cannot be built, it asks nothing, leaves the
    world as it is and answers [None]. *)
Theorem X6_analysis_asks_the_enricher_at_most_once {W}
    (sv : IngestHarvard.Services W) (cfg : IngestHarvard.Config)
    (paper : IngestHarvard.Paper) (w : W) :
  let run := IngestHarvard.analyze_paper_with_ai sv cfg paper w in
  let failed e :=
    (Ok None, w,
     [IngestHarvard.EvLog
        (IngestHarvard.LogAnalyzing (Py.slice_to 60 (IngestHarvard.title paper)));
      IngestHarvard.EvLog (IngestHarvard.LogAnalysisFailed e)]) in
  (IngestHarvard.chat_requests (trace run) = []
   \/ IngestHarvard.chat_requests (trace run) = [IngestHarvard.chat_request paper])
  /\ IngestHarvard.upsert_rows (trace run) = []
  /\ (forall d, outcome run = Ok (Some d) ->
        IngestHarvard.chat_requests (trace run) = [IngestHarvard.chat_request paper])
  /\ (forall e, IngestHarvard.endpoint_base_url cfg = Raised e -> run = failed e)
  /\ (forall url e,
        IngestHarvard.endpoint_base_url cfg = Returned url ->
        IngestHarvard.OpenAI sv (IngestHarvard.AZURE_AI_KEY cfg) url = Raised e ->
        run = failed e).
Proof.
  intros run failed.
  destruct (analyze_contacts sv cfg paper w) as (a & w' & t & Hrun & Hup & Hchat).
  subst run. split; [|split; [|split; [|split]]].
  - rewrite Hrun, trace_run. destruct Hchat as [[-> _]| ->]; auto.
  - by rewrite Hrun, trace_run.
  - intros d. rewrite Hrun, outcome_run, trace_run. intros [= ->].
    by destruct Hchat as [[_ [=]]|Hone].
  - intros e He. subst failed.
    unfold IngestHarvard.analyze_paper_with_ai, IngestHarvard.log, try_except,
      try_catch, bind, ret, emit, contact, pure_call, result_of_call.
    by rewrite He.
  - intros url e Hurl He. subst failed.
    unfold IngestHarvard.analyze_paper_with_ai, IngestHarvard.log, try_except,
      try_catch, bind, ret, emit, contact, pure_call, result_of_call.
    rewrite Hurl. cbv beta iota. by rewrite He.
Qed.

Lemma X6_witness :
  let cfg := IngestHarvard.load_config
               (delete "AZURE_AI_ENDPOINT" IngestHarvard.full_environ) in
  IngestHarvard.analyze_paper_with_ai IngestHarvard.sample_services cfg
    (IngestHarvard.paper_of_entry IngestHarvard.sample_entry) ∅
  = (Ok None, ∅,
     [IngestHarvard.EvLog (IngestHarvard.LogAnalyzing "On Torts");
      IngestHarvard.EvLog (IngestHarvard.LogAnalysisFailed AttributeError)]).
Proof.
  destruct (X6_analysis_asks_the_enricher_at_most_once
              IngestHarvard.sample_services
              (IngestHarvard.load_config
                 (delete "AZURE_AI_ENDPOINT" IngestHarvard.full_environ))
              (IngestHarvard.paper_of_entry IngestHarvard.sample_entry) ∅)
    as (_ & _ & _ & Habsent & _).
  apply (Habsent AttributeError). reflexivity.
Defined.

(** X7.  The empty object is falsy.  On the reply [{}] the analysis
    itself succeeds (it prints the topic N/A and answers the empty dict),
    but [if not analysis] in the loop counts the paper as failed, and the
    database is not contacted for it. *)
Theorem X7_empty_object_reply_is_counted_as_failed {W}
    (sv : IngestHarvard.Services W) (cfg : IngestHarvard.Config)
    (paper : IngestHarvard.Paper) (w w1 : W) (url content : string)
    (others : list (option string)) :
  IngestHarvard.endpoint_base_url cfg = Returned url ->
  IngestHarvard.OpenAI sv (IngestHarvard.AZURE_AI_KEY cfg) url = Returned tt ->
  IngestHarvard.chat_completions_create sv (IngestHarvard.chat_request paper) w
  = (Returned (Some content :: others), w1) ->
  IngestHarvard.json_loads sv (Py.strip content) = Returned (JObject []) ->
  IngestHarvard.analyze_paper_with_ai sv cfg paper w
  = (Ok (Some []), w1,
     [IngestHarvard.EvLog
        (IngestHarvard.LogAnalyzing (Py.slice_to 60 (IngestHarvard.title paper)));
      IngestHarvard.EvChatCreate (IngestHarvard.chat_request paper);
      IngestHarvard.EvLog IngestHarvard.LogAnalysisCompleted;
      IngestHarvard.EvLog (IngestHarvard.LogTopic (JString "N/A"))])
  /\ (forall total i successful failed,
        let run := IngestHarvard.main_loop sv cfg total i [paper]
                     successful failed w in
        outcome run = Ok (successful, S failed)
        /\ IngestHarvard.upsert_rows (trace run) = []
        /\ world run = w1).
Proof.
  intros Hurl Hclient Hreply Hjson.
  pose proof (analyze_after_reply sv cfg paper w w1 url content others
                Hurl Hclient Hreply) as Hrun.
  cbv zeta in Hrun. rewrite Hjson in Hrun.
  split; [exact Hrun|]. intros total i s f run.
  assert (Hloop : run = (Ok (s, S f), w1,
            IngestHarvard.EvLog (IngestHarvard.LogProcessing i total)
            :: trace (IngestHarvard.analyze_paper_with_ai sv cfg paper w))).
  { subst run. cbn [IngestHarvard.main_loop].
    unfold bind, IngestHarvard.log, emit, ret. rewrite Hrun. reflexivity. }
  rewrite Hloop, Hrun. repeat split.
Qed.

Lemma X7_witness :
  let sv := IngestHarvard.table_services (Returned [])
              (fun _ => Returned [Some "{}"]) in
  let run := IngestHarvard.main_loop sv IngestHarvard.full_config 1 1
               [IngestHarvard.paper_of_entry IngestHarvard.sample_entry] 0 0 ∅ in
  outcome run = Ok (0, 1)
  /\ IngestHarvard.upsert_rows (trace run) = []
  /\ world run = ∅.
Proof.
  refine (proj2 (X7_empty_object_reply_is_counted_as_failed
                   (IngestHarvard.table_services (Returned [])
                      (fun _ => Returned [Some "{}"]))
                   IngestHarvard.full_config
                   (IngestHarvard.paper_of_entry IngestHarvard.sample_entry) ∅ ∅
                   "https://ai.example/v1" "{}" [] _ _ _ _) 1 1 0 0);
    reflexivity.
Defined.

(** X8.  [store_in_supabase] answers [True] exactly when the upsert
    returns at least one row.  It sends one upsert, into the table
    harvard_papers with conflict key paper_id, of the row built from the
    paper, the annotation and the clock; an upsert that raises or returns
    no row gives [False] and no exception.  When the client cannot be
    created nothing is sent at all. *)
Theorem X8_store_succeeds_exactly_on_a_returned_row {W}
    (sv : IngestHarvard.Services W) (cfg : IngestHarvard.Config)
    (paper : IngestHarvard.Paper) (analysis : list (string * json)) (w : W) :
  let row := IngestHarvard.row_of paper analysis
               (IngestHarvard.utcnow_isoformat sv w) in
  let answer := IngestHarvard.upsert_execute sv "harvard_papers" row "paper_id" w in
  let run := IngestHarvard.store_in_supabase sv cfg paper analysis w in
  (forall e,
     IngestHarvard.create_client sv (IngestHarvard.SUPABASE_URL cfg)
       (IngestHarvard.SUPABASE_KEY cfg) = Raised e ->
     run = (Ok false, w,
            [IngestHarvard.EvLog IngestHarvard.LogStoring;
             IngestHarvard.EvLog (IngestHarvard.LogInsertFailed e)]))
  /\ (IngestHarvard.create_client sv (IngestHarvard.SUPABASE_URL cfg)
        (IngestHarvard.SUPABASE_KEY cfg) = Returned tt ->
      run = (Ok (match answer.1 with Returned (_ :: _) => true | _ => false end),
             answer.2,
             IngestHarvard.EvLog IngestHarvard.LogStoring
             :: IngestHarvard.EvUpsert "harvard_papers" row "paper_id"
             :: match answer.1 with
                | Returned (_ :: _) =>
                    [IngestHarvard.EvLog IngestHarvard.LogInsertSuccessful;
                     IngestHarvard.EvLog
                       (IngestHarvard.LogRecordId
                          (Py.slice_to 40 (IngestHarvard.id paper)))]
                | Returned [] => [IngestHarvard.EvLog IngestHarvard.LogInsertNoData]
                | Raised e => [IngestHarvard.EvLog (IngestHarvard.LogInsertFailed e)]
                end))
  /\ IngestHarvard.paper_id row = IngestHarvard.id paper.
Proof.
  intros row answer run. subst run. split; [|split; [|reflexivity]].
  - intros e He.
    unfold IngestHarvard.store_in_supabase, IngestHarvard.log, IngestHarvard.utcnow,
      try_except, try_catch, bind, ret, emit, contact, pure_call, result_of_call.
    by rewrite He.
  - intros Hclient.
    unfold IngestHarvard.store_in_supabase, IngestHarvard.log, IngestHarvard.utcnow,
      try_except, try_catch, bind, ret, emit, contact, pure_call, result_of_call.
    rewrite Hclient. cbv beta iota. fold row. fold answer.
    by destruct answer as [[[|r rs]|e] w1].
Qed.

Lemma X8_witness :
  let paper := IngestHarvard.paper_of_entry IngestHarvard.sample_entry in
  outcome (IngestHarvard.store_in_supabase IngestHarvard.sample_services
             IngestHarvard.full_config paper [("topic", JString "Law")] ∅)
  = Ok true.
Proof.
  cbv zeta.
  destruct (X8_store_succeeds_exactly_on_a_returned_row
              IngestHarvard.sample_services IngestHarvard.full_config
              (IngestHarvard.paper_of_entry IngestHarvard.sample_entry)
              [("topic", JString "Law")] ∅) as (_ & Hsent & _).
  rewrite Hsent; reflexivity.
Defined.

(** X9.  Whatever the feed, the Enricher and the database answer, one run
    of [main] sends at most [MAX_PAPERS_PER_RUN] requests to the Enricher,
    and at most one upsert for each of these requests. *)
Theorem X9_a_run_sends_at_most_ten_requests {W}
    (sv : IngestHarvard.Services W) (cfg : IngestHarvard.Config) (w : W) :
  let t := trace (IngestHarvard.main sv cfg w) in
  length (IngestHarvard.chat_requests t) <= IngestHarvard.MAX_PAPERS_PER_RUN
  /\ length (IngestHarvard.upsert_rows t)
     <= length (IngestHarvard.chat_requests t).
Proof.
  cbv zeta.
  destruct (IngestHarvard.missing cfg) as [|name names] eqn:Hmiss.
  - set (answer := IngestHarvard.feedparser_parse sv IngestHarvard.DASH_RSS_FEED w).
    destruct (IngestHarvard.fetched answer.1) as [|p ps] eqn:Hpapers.
    + rewrite (main_no_papers sv cfg w Hmiss Hpapers). fold answer.
      unfold IngestHarvard.MAX_PAPERS_PER_RUN. cbn. lia.
    + destruct (main_summary sv cfg w Hmiss)
        as (s & f & w' & t & q & Hloop & _ & _ & ->).
      { fold answer. by rewrite Hpapers. }
      fold answer in Hloop |- *.
      destruct (main_loop_contacts sv cfg
                  (length (IngestHarvard.fetched answer.1)) 
                  (IngestHarvard.fetched answer.1) 1 0 0 answer.2)
        as (r & w'' & t' & Hrun & Hle1 & Hle2).
      rewrite Hloop in Hrun. injection Hrun as _ _ <-.
      assert (Hten : length (IngestHarvard.fetched answer.1) <= 10).
      { destruct answer.1 as [entries|e]; cbn; [|lia].
        rewrite length_map, length_take.
        unfold IngestHarvard.MAX_PAPERS_PER_RUN. lia. }
      unfold trace. cbn [snd].
      rewrite !chat_requests_app, !upsert_rows_app, !length_app.
      remember (length (IngestHarvard.chat_requests t)) as asked eqn:Hasked.
      remember (length (IngestHarvard.upsert_rows t)) as written eqn:Hwritten.
      clear Hasked Hwritten. unfold IngestHarvard.MAX_PAPERS_PER_RUN.
      cbn. lia.
  - rewrite main_aborts; [|by rewrite Hmiss].
    unfold IngestHarvard.MAX_PAPERS_PER_RUN. cbn. lia.
Qed.

(** The quotient [successful/total*100] for [successful + failed = total]. *)
Lemma success_rate_percentage (s f : nat) (q : Q) :
  IngestHarvard.success_rate s (s + f) = Returned q ->
  (0 <= q)%Q /\ (q <= 100)%Q /\ ((q == 100)%Q <-> f = 0) /\ ((q == 0)%Q <-> s = 0).
Proof.
  unfold IngestHarvard.success_rate.
  destruct (s + f) as [|m] eqn:Hn; [done|]. intros [= <-].
  assert (Hden : Z.pos (Pos.of_nat (S m)) = Z.of_nat (s + f)).
  { rewrite Hn, <- positive_nat_Z, Nat2Pos.id; [done|lia]. }
  unfold Qle, Qeq. cbn [Qnum Qden Qmult].
  rewrite Pos.mul_1_r, Hden. lia.
Qed.

(** X10.  The success rate a run prints is a percentage: it lies between
    0 and 100, it is 100 exactly when no paper failed and 0 exactly when
    none was stored. *)
Theorem X10_printed_success_rate_is_a_percentage {W}
    (sv : IngestHarvard.Services W) (cfg : IngestHarvard.Config) (w : W) :
  let lines := IngestHarvard.summary_lines (trace (IngestHarvard.main sv cfg w)) in
  lines = []
  \/ exists s f q,
       lines = [IngestHarvard.LogPapersFetched (s + f); IngestHarvard.LogStored s;
                IngestHarvard.LogFailed f; IngestHarvard.LogSuccessRate q]
       /\ (0 <= q)%Q /\ (q <= 100)%Q
       /\ ((q == 100)%Q <-> f = 0)
       /\ ((q == 0)%Q <-> s = 0).
Proof.
  cbv zeta.
  destruct (IngestHarvard.missing cfg) as [|name names] eqn:Hmiss.
  - set (answer := IngestHarvard.feedparser_parse sv IngestHarvard.DASH_RSS_FEED w).
    destruct (IngestHarvard.fetched answer.1) as [|p ps] eqn:Hpapers.
    + rewrite (main_no_papers sv cfg w Hmiss Hpapers). left.
      fold answer. by destruct answer.1 as [[|??]|?].
    + destruct (main_summary sv cfg w Hmiss)
        as (s & f & w' & t & q & _ & (Hsum & _ & _ & _ & Hquiet & _) & Hq & ->).
      { fold answer. by rewrite Hpapers. }
      fold answer in Hsum, Hq |- *. rewrite <- Hsum in Hq |- *.
      right. exists s, f, q. split; [|by apply success_rate_percentage].
      unfold trace. cbn [snd]. unfold IngestHarvard.summary_lines in *.
      rewrite !omap_app, Hquiet. by destruct answer.1 as [[|??]|?].
  - rewrite main_aborts; [|by rewrite Hmiss]. by left.
Qed.

(** ** pipeline.py, entry by entry *)

Section PipelineRuns.
Import Pipeline.
Context {W : Type} (sv : Services W).

(** What one pass through the body keeps, whatever the services answer. *)
Lemma process_entry_keeps (entry : Entry) (w : World W) :
  let run := process_entry sv entry w in
  let bound := if has_pdf_link entry then 1 else 0 in
  Forall well_named (trace run)
  /\ files w ⊆ files (world run)
  /\ (forall path, is_Some (files (world run) !! path) ->
        is_Some (files w !! path) \/ in_download_dir path)
  /\ length (uploaded (trace run)) <= bound
  /\ length (gets (trace run)) <= bound.
Proof.
  cbv zeta.
  pose proof (pdf_filename_clean entry) as (Hpdf & Hslash & Hblank).
  assert (Hup : forall data,
            well_named (EvUploadBlob CONTAINER_NAME (pdf_filename entry) data true)).
  { intros data. by repeat split. }
  assert (Hidle : forall r : result unit,
            process_entry sv entry w = (r, w, []) ->
            Forall well_named (trace (process_entry sv entry w))
            /\ files w ⊆ files (world (process_entry sv entry w))
            /\ (forall path,
                  is_Some (files (world (process_entry sv entry w)) !! path) ->
                  is_Some (files w !! path) \/ in_download_dir path)
            /\ length (uploaded (trace (process_entry sv entry w)))
               <= (if has_pdf_link entry then 1 else 0)
            /\ length (gets (trace (process_entry sv entry w)))
               <= (if has_pdf_link entry then 1 else 0)).
  { intros r ->. rewrite world_run, trace_run.
    split; [apply Forall_nil_2|]. split; [done|]. split; [by left|].
    cbn. lia. }
  destruct (entry_cases entry) as [Hbare|[Hskip|(Hfull & Hlink & url & Hurl)]].
  { by apply (Hidle _ (process_entry_incomplete sv entry w Hbare)). }
  { by apply (Hidle _ (process_entry_no_pdf sv entry w Hskip)). }
  rewrite Hlink.
  destruct (files w !! pdf_path entry) as [data|] eqn:Hfile.
  { rewrite (process_entry_cached sv entry w data Hfull Hlink Hfile).
    rewrite world_run, trace_run. cbn [files].
    split; [|split; [done|split; [by left|]]].
    - destruct (upload_blob sv _ _ _ _ _).1;
        repeat first [apply Forall_cons_2 | apply Forall_nil_2 | exact I | apply Hup].
    - destruct (upload_blob sv _ _ _ _ _).1; cbn; lia. }
  destruct (requests_get sv url (remote w)) as [[r|e] r1] eqn:Hget.
  2: { rewrite (process_entry_fetch_raises sv entry url w e r1
                  Hfull Hlink Hurl Hfile Hget).
       rewrite world_run, trace_run. cbn [files].
       split; [by repeat first [apply Forall_cons_2 | apply Forall_nil_2 | exact I]|].
       split; [done|]. split; [by left|]. cbn. lia. }
  destruct (open_wb sv (pdf_path entry) (files w)) as [[]|e] eqn:Hopen.
  - rewrite (process_entry_fetched sv entry url w r r1
               Hfull Hlink Hurl Hfile Hget Hopen).
    rewrite world_run, trace_run. cbn [files].
    split; [|split; [by apply insert_subseteq|split]].
    + destruct (upload_blob sv _ _ _ _ _).1;
        repeat first [apply Forall_cons_2 | apply Forall_nil_2 | exact I | apply Hup].
    + intros path. destruct (decide (path = pdf_path entry)) as [->|Hother].
      * intros _. right. apply pdf_path_in_download_dir.
      * rewrite lookup_insert_ne by done. by left.
    + destruct (upload_blob sv _ _ _ _ _).1; cbn; lia.
  - rewrite (process_entry_write_raises sv entry url w r e r1
               Hfull Hlink Hurl Hfile Hget Hopen).
    rewrite world_run, trace_run. cbn [files].
    split; [by repeat first [apply Forall_cons_2 | apply Forall_nil_2 | exact I]|].
    split; [done|]. split; [by left|]. cbn. lia.
Qed.

Lemma for_entries_keeps (entries : list Entry) :
  forall w : World W,
  let run := for_entries sv entries w in
  Forall well_named (trace run)
  /\ files w ⊆ files (world run)
  /\ (forall path, is_Some (files (world run) !! path) ->
        is_Some (files w !! path) \/ in_download_dir path)
  /\ length (uploaded (trace run)) <= length (List.filter has_pdf_link entries)
  /\ length (gets (trace run)) <= length (List.filter has_pdf_link entries).
Proof.
  induction entries as [|entry rest IH]; intros w; cbv zeta.
  { cbn. repeat split; auto. }
  pose proof (process_entry_keeps entry w) as Hhere. cbv zeta in Hhere.
  assert (Hlen : length (List.filter has_pdf_link (entry :: rest))
                 = (if has_pdf_link entry then 1 else 0)
                   + length (List.filter has_pdf_link rest)).
  { cbn [List.filter]. by destruct (has_pdf_link entry). }
  rewrite Hlen. cbn [for_entries].
  destruct (process_entry sv entry w) as [[[[]|x] w1] t1] eqn:Hrun.
  - rewrite (bind_ok _ _ _ _ _ _ Hrun).
    rewrite world_run, trace_run in *.
    destruct Hhere as (Hnamed & Hsub & Hnew & Hup & Hget).
    destruct (IH w1) as (Hnamed' & Hsub' & Hnew' & Hup' & Hget').
    split; [by apply Forall_app|]. split; [by etrans|]. split.
    + intros path Hpath. destruct (Hnew' path Hpath) as [Hold|Hdir]; auto.
    + unfold uploaded, gets in *. rewrite !omap_app, !length_app. lia.
  - rewrite (bind_raise _ _ _ _ _ _ Hrun).
    rewrite world_run, trace_run in *.
    destruct Hhere as (Hnamed & Hsub & Hnew & Hup & Hget).
    split; [done|]. split; [done|]. split; [done|]. lia.
Qed.

(** The steps of the script around the loop add no upload and touch no
    file. *)
Lemma script_keeps (environ : gmap string string) (w : World W) :
  let run := script sv environ w in
  Forall well_named (trace run)
  /\ files w ⊆ files (world run)
  /\ (forall path, is_Some (files (world run) !! path) ->
        is_Some (files w !! path) \/ in_download_dir path)
  /\ (forall entries,
        (feedparser_parse sv DASH_RSS_FEED (remote w)).1 = Returned entries ->
        length (uploaded (trace run)) <= length (List.filter has_pdf_link entries)
        /\ length (gets (trace run)) <= length (List.filter has_pdf_link entries))
  /\ (forall e,
        (feedparser_parse sv DASH_RSS_FEED (remote w)).1 = Raised e ->
        uploaded (trace run) = [] /\ gets (trace run) = []).
Proof.
  cbv zeta. rewrite script_run.
  destruct (connect sv (environ !! "AZURE_CONNECTION_STRING")) as [[]|e].
  2: { rewrite world_run, trace_run.
       split; [apply Forall_nil_2|]. split; [done|]. split; [by left|].
       split; [|done]. intros entries _. cbn. lia. }
  destruct (feedparser_parse sv DASH_RSS_FEED (remote w)) as [[entries|e] r1];
    cbn [fst].
  2: { rewrite world_run, trace_run. cbn [files].
       split; [by repeat first [apply Forall_cons_2 | apply Forall_nil_2 | exact I]|].
       split; [done|]. split; [by left|]. split; [done|]. by intros e' _. }
  cbv zeta. rewrite world_run, trace_run.
  set (w1 := {| files := files w; remote := r1 |}).
  pose proof (for_entries_keeps entries w1)
    as (Hnamed & Hsub & Hnew & Hup & Hget).
  split.
  { do 2 (apply Forall_cons_2; [exact I|]). apply Forall_app. split; [done|].
    destruct (outcome (for_entries sv entries w1));
      by repeat first [apply Forall_cons_2 | apply Forall_nil_2 | exact I]. }
  split; [done|]. split; [done|]. split; [|done].
  intros entries' [= <-]. unfold uploaded, gets in *.
  rewrite !omap_cons. cbv beta iota. rewrite !omap_app, !length_app.
  set (sent := length (omap _ (trace (for_entries sv entries w1)))) in *.
  set (asked := length (omap _ (trace (for_entries sv entries w1)))) in *.
  clearbody sent asked.
  destruct (outcome (for_entries sv entries w1)); cbn; lia.
Qed.

End PipelineRuns.

(** X11.  Whatever the feed and the services answer, every upload of a
    run of pipeline.py goes into the container law-dropzone with
    [overwrite=True], under a name that ends in ".pdf" and holds neither a
    slash nor a blank; and a run fetches and uploads at most once for each
    entry of the feed that has a PDF link. *)
Theorem X11_pipeline_uploads_are_well_named {W} (sv : Pipeline.Services W)
    (environ : gmap string string) (w : Pipeline.World W) :
  let run := Pipeline.script sv environ w in
  (forall container name data overwrite,
     Pipeline.EvUploadBlob container name data overwrite ∈ trace run ->
     container = "law-dropzone" /\ overwrite = true
     /\ Py.endswith ".pdf" name = true
     /\ Py.contains "/" name = false /\ Py.contains " " name = false)
  /\ (forall entries,
        (Pipeline.feedparser_parse sv Pipeline.DASH_RSS_FEED (Pipeline.remote w)).1
        = Returned entries ->
        length (Pipeline.uploaded (trace run))
        <= length (List.filter Pipeline.has_pdf_link entries)
        /\ length (Pipeline.gets (trace run))
           <= length (List.filter Pipeline.has_pdf_link entries)).
Proof.
  cbv zeta.
  destruct (script_keeps sv environ w) as (Hnamed & _ & _ & Hcount & _).
  split; [|exact Hcount]. intros container name data overwrite Hin.
  rewrite Forall_forall in Hnamed. exact (Hnamed _ Hin).
Qed.

Lemma X11_witness :
  Py.endswith ".pdf" "On_Torts.pdf" = true
  /\ Py.contains "/" "On_Torts.pdf" = false.
Proof.
  destruct (X11_pipeline_uploads_are_well_named
              (Pipeline.sample_services (Returned pdf_ok))
              Pipeline.sample_environ Pipeline.empty_world) as [Hnamed _].
  destruct (Hnamed "law-dropzone" "On_Torts.pdf" (content pdf_ok) true)
    as (_ & _ & Hpdf & Hslash & _); [|by split].
  vm_compute. do 4 right. left.
Defined.

(** X12.  pipeline.py never changes or removes a file that exists: every
    file of the working directory is after the run what it was before,
    and every file the run adds lies directly in the download folder. *)
Theorem X12_pipeline_keeps_the_local_files {W} (sv : Pipeline.Services W)
    (environ : gmap string string) (w : Pipeline.World W) :
  let run := Pipeline.script sv environ w in
  (forall path data,
     Pipeline.files w !! path = Some data ->
     Pipeline.files (world run) !! path = Some data)
  /\ (forall path,
        Pipeline.files w !! path = None ->
        is_Some (Pipeline.files (world run) !! path) ->
        exists name,
          path = "downloads/" +:+ name /\ Py.contains "/" name = false).
Proof.
  cbv zeta.
  destruct (script_keeps sv environ w) as (_ & Hsub & Hnew & _).
  split.
  - intros path data Hfile. by eapply lookup_weaken.
  - intros path Hnone Hsome.
    destruct (Hnew path Hsome) as [[data Hold]|Hdir]; [congruence|exact Hdir].
Qed.

Lemma X12_witness :
  let run := Pipeline.script (Pipeline.sample_services (Returned pdf_ok))
               Pipeline.sample_environ
               {| Pipeline.files := {[ "notes.txt" := "keep" ]};
                  Pipeline.remote := ∅ |} in
  Pipeline.files (world run) !! "notes.txt" = Some "keep".
Proof.
  cbv zeta.
  destruct (X12_pipeline_keeps_the_local_files
              (Pipeline.sample_services (Returned pdf_ok))
              Pipeline.sample_environ
              {| Pipeline.files := {[ "notes.txt" := "keep" ]};
                 Pipeline.remote := ∅ |}) as [Hkept _].
  apply Hkept. reflexivity.
Defined.

(** X13.  For an entry with a title and a PDF link, a file that is
    already in the download folder under the name of the entry is uploaded
    as it is: the link of the entry is not fetched, the file is not
    rewritten, and the data sent are the content of the file, whatever it
    is. *)
Theorem X13_pipeline_uploads_an_existing_file_unfetched {W}
    (sv : Pipeline.Services W) (entry : Pipeline.Entry)
    (w : Pipeline.World W) (data : string) :
  Pipeline.complete entry = true ->
  Pipeline.has_pdf_link entry = true ->
  Pipeline.files w !! Pipeline.pdf_path entry = Some data ->
  let run := Pipeline.process_entry sv entry w in
  Pipeline.gets (trace run) = []
  /\ Pipeline.uploaded (trace run) = [(Pipeline.pdf_filename entry, data)]
  /\ Pipeline.files (world run) = Pipeline.files w
  /\ outcome run
     = result_of_call
         (Pipeline.upload_blob sv Pipeline.CONTAINER_NAME
            (Pipeline.pdf_filename entry) data true (Pipeline.remote w)).1.
Proof.
  intros Hfull Hlink Hfile. cbv zeta.
  rewrite (process_entry_cached sv entry w data Hfull Hlink Hfile).
  rewrite outcome_run, world_run, trace_run.
  by destruct (Pipeline.upload_blob sv _ _ _ _ _).1.
Qed.

Lemma X13_witness :
  let w := {| Pipeline.files := {[ "downloads/On_Torts.pdf" := "Not Found" ]};
              Pipeline.remote := ∅ |} in
  let run := Pipeline.process_entry (Pipeline.sample_services (Returned pdf_ok))
               Pipeline.sample_entry w in
  Pipeline.gets (trace run) = []
  /\ Pipeline.uploaded (trace run) = [("On_Torts.pdf", "Not Found")]
  /\ Pipeline.files (world run) = Pipeline.files w
  /\ outcome run = Ok tt.
Proof.
  apply (X13_pipeline_uploads_an_existing_file_unfetched
           (Pipeline.sample_services (Returned pdf_ok)) Pipeline.sample_entry
           {| Pipeline.files := {[ "downloads/On_Torts.pdf" := "Not Found" ]};
              Pipeline.remote := ∅ |} "Not Found");
    reflexivity.
Defined.

(** X14.  Two entries whose titles give the same file name share one
    local file.  When the GET, the write and the upload of the first
    succeed, the second entry finds the file of the first, so its own
    link is never fetched, and the data of the first entry are uploaded a
    second time under the common name. *)
Theorem X14_pipeline_equal_names_share_one_download {W}
    (sv : Pipeline.Services W) (first second : Pipeline.Entry) (url : string)
    (w : Pipeline.World W) (r : Response) (r1 r2 : W) :
  Pipeline.complete first = true ->
  Pipeline.complete second = true ->
  Pipeline.has_pdf_link first = true ->
  Pipeline.has_pdf_link second = true ->
  Pipeline.link first = Some url ->
  Pipeline.pdf_filename first = Pipeline.pdf_filename second ->
  Pipeline.files w !! Pipeline.pdf_path first = None ->
  Pipeline.requests_get sv url (Pipeline.remote w) = (Returned r, r1) ->
  Pipeline.open_wb sv (Pipeline.pdf_path first) (Pipeline.files w) = Returned tt ->
  Pipeline.upload_blob sv Pipeline.CONTAINER_NAME (Pipeline.pdf_filename first)
    (content r) true r1 = (Returned tt, r2) ->
  let run := Pipeline.for_entries sv [first; second] w in
  Pipeline.gets (trace run) = [url]
  /\ Pipeline.uploaded (trace run)
     = [(Pipeline.pdf_filename first, content r);
        (Pipeline.pdf_filename first, content r)].
Proof.
  intros Hfull1 Hfull2 Hfirst Hsecond Hurl Hname Hfile Hget Hopen Hup. cbv zeta.
  pose proof (process_entry_fetched sv first url w r r1
                Hfull1 Hfirst Hurl Hfile Hget Hopen) as Hrun1.
  cbv zeta in Hrun1. rewrite Hup in Hrun1. cbn [fst snd result_of_call] in Hrun1.
  set (w1 := {| Pipeline.files := <[Pipeline.pdf_path first := content r]>
                                    (Pipeline.files w);
                Pipeline.remote := r2 |}) in *.
  assert (Hfile2 : Pipeline.files w1 !! Pipeline.pdf_path second = Some (content r)).
  { unfold Pipeline.pdf_path. rewrite <- Hname. apply lookup_insert_eq. }
  pose proof (process_entry_cached sv second w1 (content r) Hfull2 Hsecond Hfile2)
    as Hrun2.
  cbv zeta in Hrun2. rewrite <- Hname in Hrun2.
  cbn [Pipeline.for_entries].
  rewrite (bind_ok _ _ _ _ _ _ Hrun1). rewrite trace_run.
  destruct (Pipeline.upload_blob sv Pipeline.CONTAINER_NAME
              (Pipeline.pdf_filename first) (content r) true (Pipeline.remote w1))
    as [[[]|e] r3] eqn:Hup2;
    cbn [fst snd result_of_call] in Hrun2.
  - rewrite (bind_ok _ _ _ _ _ _ Hrun2). split; reflexivity.
  - rewrite (bind_raise _ _ _ _ _ _ Hrun2). split; reflexivity.
Qed.

Lemma X14_witness :
  let sv := Pipeline.container_services (Returned [])
              (fun url => Returned {| status_code := 200; content := url |}) in
  let run := Pipeline.for_entries sv
               [ {| Pipeline.title := Some "A B";
                    Pipeline.link := Some "https://x/1.pdf" |};
                 {| Pipeline.title := Some "A/B";
                    Pipeline.link := Some "https://x/2.pdf" |} ]
               Pipeline.empty_world in
  Pipeline.gets (trace run) = ["https://x/1.pdf"]
  /\ Pipeline.uploaded (trace run)
     = [("A_B.pdf", "https://x/1.pdf"); ("A_B.pdf", "https://x/1.pdf")].
Proof.
  apply (X14_pipeline_equal_names_share_one_download
           (Pipeline.container_services (Returned [])
              (fun url => Returned {| status_code := 200; content := url |}))
           {| Pipeline.title := Some "A B"; Pipeline.link := Some "https://x/1.pdf" |}
           {| Pipeline.title := Some "A/B"; Pipeline.link := Some "https://x/2.pdf" |}
           "https://x/1.pdf" Pipeline.empty_world
           {| status_code := 200; content := "https://x/1.pdf" |}
           ∅ {[ "A_B.pdf" := "https://x/1.pdf" ]});
    reflexivity.
Defined.

(** X15.  pipeline.py catches nothing.  For an entry with a title and a
    PDF link that is not yet in the folder: a GET that raises, or an
    [open] of the local file that raises, ends the loop before anything
    is written or uploaded for the entry; an upload that raises ends the
    loop after the download was written, so the file stays in the folder
    and the next pass over the entry uploads it without fetching it again.
    In each case the entries that follow are not processed. *)
Theorem X15_pipeline_stops_at_the_first_exception {W}
    (sv : Pipeline.Services W) (entry : Pipeline.Entry) (url : string)
    (rest : list Pipeline.Entry) (w : Pipeline.World W) :
  Pipeline.complete entry = true ->
  Pipeline.has_pdf_link entry = true ->
  Pipeline.link entry = Some url ->
  Pipeline.files w !! Pipeline.pdf_path entry = None ->
  let run := Pipeline.for_entries sv (entry :: rest) w in
  let started :=
    [Pipeline.EvLog (Pipeline.LogDownloading (Pipeline.safe_title entry));
     Pipeline.EvHttpGet url] in
  (forall e r1,
     Pipeline.requests_get sv url (Pipeline.remote w) = (Raised e, r1) ->
     run = (Raise (Exc e),
            {| Pipeline.files := Pipeline.files w; Pipeline.remote := r1 |},
            started))
  /\ (forall r r1 e,
        Pipeline.requests_get sv url (Pipeline.remote w) = (Returned r, r1) ->
        Pipeline.open_wb sv (Pipeline.pdf_path entry) (Pipeline.files w)
        = Raised e ->
        run = (Raise (Exc e),
               {| Pipeline.files := Pipeline.files w; Pipeline.remote := r1 |},
               started))
  /\ (forall r r1 e r2,
        Pipeline.requests_get sv url (Pipeline.remote w) = (Returned r, r1) ->
        Pipeline.open_wb sv (Pipeline.pdf_path entry) (Pipeline.files w)
        = Returned tt ->
        Pipeline.upload_blob sv Pipeline.CONTAINER_NAME
          (Pipeline.pdf_filename entry) (content r) true r1 = (Raised e, r2) ->
        run = (Raise (Exc e),
               {| Pipeline.files := <[Pipeline.pdf_path entry := content r]>
                                      (Pipeline.files w);
                  Pipeline.remote := r2 |},
               started
               ++ [Pipeline.EvUploadBlob Pipeline.CONTAINER_NAME
                     (Pipeline.pdf_filename entry) (content r) true])
        /\ (let again := Pipeline.process_entry sv entry (world run) in
            Pipeline.gets (trace again) = []
            /\ Pipeline.uploaded (trace again)
               = [(Pipeline.pdf_filename entry, content r)])).
Proof.
  intros Hfull Hlink Hurl Hfile. cbv zeta. split; [|split].
  - intros e r1 Hget. cbn [Pipeline.for_entries].
    apply bind_raise. by apply process_entry_fetch_raises.
  - intros r r1 e Hget Hopen. cbn [Pipeline.for_entries].
    apply bind_raise. by eapply process_entry_write_raises.
  - intros r r1 e r2 Hget Hopen Hup.
    pose proof (process_entry_fetched sv entry url w r r1
                  Hfull Hlink Hurl Hfile Hget Hopen) as Hrun.
    cbv zeta in Hrun. rewrite Hup in Hrun. cbn [fst snd result_of_call] in Hrun.
    cbn [Pipeline.for_entries]. rewrite (bind_raise _ _ _ _ _ _ Hrun).
    split; [done|]. rewrite world_run.
    rewrite (process_entry_cached sv entry _ (content r) Hfull Hlink);
      [|apply lookup_insert_eq].
    rewrite trace_run. by destruct (Pipeline.upload_blob sv _ _ _ _ _).1.
Qed.

Lemma X15_witness :
  let feed := [Pipeline.sample_entry; Pipeline.sample_entry] in
  let offline := Pipeline.container_services (Returned [])
                   (fun _ => Raised (ServiceError "ConnectionError")) in
  let short_names := Pipeline.name_limit_services 8 (Returned [])
                       (fun _ => Returned pdf_ok) in
  let sealed := Pipeline.sealed_container_services (Returned [])
                  (fun _ => Returned pdf_ok) in
  (exit_code (outcome (Pipeline.for_entries offline feed Pipeline.empty_world))
   = 1%Z
   /\ world (Pipeline.for_entries offline feed Pipeline.empty_world)
      = Pipeline.empty_world)
  /\ (outcome (Pipeline.for_entries short_names feed Pipeline.empty_world)
      = Raise (Exc OSError)
      /\ world (Pipeline.for_entries short_names feed Pipeline.empty_world)
         = Pipeline.empty_world)
  /\ (outcome (Pipeline.for_entries sealed feed Pipeline.empty_world)
      = Raise (Exc (ServiceError "HttpResponseError"))
      /\ Pipeline.files (world (Pipeline.for_entries sealed feed Pipeline.empty_world))
         = {[ "downloads/On_Torts.pdf" := "%PDF-1.4" ]}).
Proof.
  cbv zeta. split; [|split].
  - destruct (X15_pipeline_stops_at_the_first_exception
                (Pipeline.container_services (Returned [])
                   (fun _ => Raised (ServiceError "ConnectionError")))
                Pipeline.sample_entry Pipeline.sample_url
                [Pipeline.sample_entry] Pipeline.empty_world)
      as (Hget & _ & _); [reflexivity|reflexivity|reflexivity|reflexivity|].
    rewrite (Hget (ServiceError "ConnectionError") ∅); [|reflexivity].
    split; reflexivity.
  - destruct (X15_pipeline_stops_at_the_first_exception
                (Pipeline.name_limit_services 8 (Returned [])
                   (fun _ => Returned pdf_ok))
                Pipeline.sample_entry Pipeline.sample_url
                [Pipeline.sample_entry] Pipeline.empty_world)
      as (_ & Hopen & _); [reflexivity|reflexivity|reflexivity|reflexivity|].
    rewrite (Hopen pdf_ok ∅ OSError); [|reflexivity|reflexivity].
    split; reflexivity.
  - destruct (X15_pipeline_stops_at_the_first_exception
                (Pipeline.sealed_container_services (Returned [])
                   (fun _ => Returned pdf_ok))
                Pipeline.sample_entry Pipeline.sample_url
                [Pipeline.sample_entry] Pipeline.empty_world)
      as (_ & _ & Hup); [reflexivity|reflexivity|reflexivity|reflexivity|].
    destruct (Hup pdf_ok ∅ (ServiceError "HttpResponseError") ∅) as [-> _];
      [reflexivity|reflexivity|reflexivity|].
    split; reflexivity.
Defined.

(** ** dash_ingest.py, link by link *)

Section DashRuns.
Import DashIngest.
Context {W : Type} (sv : Services W).

(** What a run keeps: the uploads are well named, there is a GET before
    every upload and a listing before every GET. *)
Local Abbreviation kept t :=
  (Forall well_named t
   /\ length (uploaded t) <= length (gets t)
   /\ length (gets t) <= listings t).

Lemma kept_app (t1 t2 : list event) : kept t1 -> kept t2 -> kept (t1 ++ t2).
Proof.
  intros (Hn1 & Hu1 & Hg1) (Hn2 & Hu2 & Hg2).
  split; [by apply Forall_app|].
  unfold uploaded, gets, listings in *. rewrite !omap_app, !length_app. lia.
Qed.

Lemma listings_app (t1 t2 : list event) :
  listings (t1 ++ t2) = listings t1 + listings t2.
Proof. unfold listings. by rewrite omap_app, length_app. Qed.

Lemma dash_process_link_keeps (link : Link) (w : W) :
  let run := process_link sv link w in
  kept (trace run)
  /\ listings (trace run) <= (if is_pdf link then 1 else 0)
  /\ (outcome run = Ok tt -> listings (trace run) = if is_pdf link then 1 else 0).
Proof.
  cbv zeta.
  destruct (link_cases link) as [Hpdf|[Hother|Hnone]].
  2: { rewrite (process_link_no_pdf sv link w Hother).
       assert (is_pdf link = false) as ->.
       { unfold is_pdf, other_type in *. destruct (type link); [|done].
         by apply negb_true_iff. }
       cbn. split; [split; [apply Forall_nil_2|lia]|]. split; [lia|done]. }
  2: { rewrite (process_link_no_type sv link w Hnone).
       cbn. split; [split; [apply Forall_nil_2|lia]|]. split; [lia|done]. }
  rewrite Hpdf. destruct (href link) as [url|] eqn:Hurl.
  2: { rewrite (process_link_no_href sv link w Hpdf Hurl).
       cbn. split; [split; [apply Forall_nil_2|lia]|]. split; [lia|done]. }
  assert (Hname : Py.contains "/" (Py.last_segment "/" url) = false)
    by apply last_segment_clean.
  rewrite (process_link_pdf sv link url w Hpdf Hurl).
  unfold bind, contact, log, emit, ret.
  destruct (list_blobs sv container_name w) as [[names|e] w1];
    cbn [result_of_call].
  2: { cbn. split; [split; [by repeat constructor|lia]|]. split; [lia|done]. }
  destruct (existsb _ names).
  { cbn. split; [split; [by repeat constructor|lia]|]. split; [lia|done]. }
  destruct (requests_get sv url w1) as [[r|e] w2]; cbn [result_of_call].
  2: { cbn. split; [split; [by repeat constructor|lia]|]. split; [lia|done]. }
  destruct (status_code r =? 200)%Z.
  2: { cbn. split; [split; [by repeat constructor|lia]|]. split; [lia|done]. }
  destruct (upload_blob sv container_name _ (content r) w2) as [[[]|e] w3];
    cbn; (split; [split; [by repeat constructor|lia]|]); (split; [lia|done]).
Qed.

Lemma dash_for_links_keeps (ls : list Link) :
  forall w : W,
  let run := for_links sv ls w in
  kept (trace run)
  /\ listings (trace run) <= length (List.filter is_pdf ls)
  /\ (outcome run = Ok tt -> listings (trace run) = length (List.filter is_pdf ls)).
Proof.
  induction ls as [|link rest IH]; intros w; cbv zeta.
  { cbn. split; [split; [apply Forall_nil_2|lia]|]. split; [lia|done]. }
  pose proof (dash_process_link_keeps link w) as (Hkept & Hle & Heq). cbv zeta in *.
  assert (Hlen : length (List.filter is_pdf (link :: rest))
                 = (if is_pdf link then 1 else 0) + length (List.filter is_pdf rest)).
  { cbn [List.filter]. by destruct (is_pdf link). }
  rewrite Hlen. cbn [for_links].
  destruct (process_link sv link w) as [[[[]|x] w1] t1] eqn:Hrun.
  - rewrite (bind_ok _ _ _ _ _ _ Hrun).
    rewrite outcome_run, trace_run in *.
    destruct (IH w1) as (Hkept' & Hle' & Heq').
    split; [by apply kept_app|]. rewrite listings_app.
    split; [lia|]. intros Hok. rewrite (Heq eq_refl), (Heq' Hok). done.
  - rewrite (bind_raise _ _ _ _ _ _ Hrun).
    rewrite outcome_run, trace_run in *. split; [done|]. split; [lia|done].
Qed.

Lemma dash_process_entry_keeps (entry : Entry) (w : W) :
  let run := process_entry sv entry w in
  let entry_links := default [] (links entry) in
  kept (trace run)
  /\ listings (trace run) <= length (List.filter is_pdf entry_links)
  /\ (outcome run = Ok tt ->
      listings (trace run) = length (List.filter is_pdf entry_links)).
Proof.
  cbv zeta. destruct (links entry) as [ls|] eqn:Hlinks.
  - rewrite (dash_process_entry_links sv entry ls w Hlinks).
    apply dash_for_links_keeps.
  - rewrite (dash_process_entry_no_links sv entry w Hlinks).
    cbn. split; [split; [apply Forall_nil_2|lia]|]. split; [lia|done].
Qed.

Lemma dash_for_entries_keeps (entries : list Entry) :
  forall w : W,
  let run := for_entries sv entries w in
  kept (trace run)
  /\ listings (trace run) <= length (pdf_links entries)
  /\ (outcome run = Ok tt -> listings (trace run) = length (pdf_links entries)).
Proof.
  induction entries as [|entry rest IH]; intros w; cbv zeta.
  { cbn. split; [split; [apply Forall_nil_2|lia]|]. split; [lia|done]. }
  pose proof (dash_process_entry_keeps entry w) as (Hkept & Hle & Heq).
  cbv zeta in *.
  assert (Hlen : length (pdf_links (entry :: rest))
                 = length (List.filter is_pdf (default [] (links entry)))
                   + length (pdf_links rest)).
  { unfold pdf_links. cbn [map concat]. by rewrite List.filter_app, length_app. }
  rewrite Hlen. cbn [for_entries].
  destruct (process_entry sv entry w) as [[[[]|x] w1] t1] eqn:Hrun.
  - rewrite (bind_ok _ _ _ _ _ _ Hrun).
    rewrite outcome_run, trace_run in *.
    destruct (IH w1) as (Hkept' & Hle' & Heq').
    split; [by apply kept_app|]. rewrite listings_app.
    split; [lia|]. intros Hok. rewrite (Heq eq_refl), (Heq' Hok). done.
  - rewrite (bind_raise _ _ _ _ _ _ Hrun).
    rewrite outcome_run, trace_run in *. split; [done|]. split; [lia|done].
Qed.

End DashRuns.

(** X16.  The blob name dash_ingest.py derives from a link,
    [pdf_url.split("/")[-1]], never holds a slash.  It is what follows
    the last slash of the address (a query string included), the whole
    address when there is no slash, and the empty name when the address
    ends in a slash. *)
Theorem X16_dash_blob_name_is_the_last_segment (link : DashIngest.Link) :
  Py.contains "/" (DashIngest.pdf_name link) = false
  /\ (forall before name,
        DashIngest.href link = Some (before +:+ "/" +:+ name) ->
        Py.contains "/" name = false ->
        DashIngest.pdf_name link = name)
  /\ (forall url,
        DashIngest.href link = Some url ->
        Py.contains "/" url = false ->
        DashIngest.pdf_name link = url)
  /\ (forall before,
        DashIngest.href link = Some (before +:+ "/") ->
        DashIngest.pdf_name link = "").
Proof.
  unfold DashIngest.pdf_name. split; [apply last_segment_clean|].
  split; [|split].
  - intros before name -> Hname. by apply (last_segment_after "/" before name).
  - intros url ->. apply last_segment_no_sep.
  - intros before ->. by apply (last_segment_after "/" before "").
Qed.

Lemma X16_witness :
  DashIngest.pdf_name
    {| DashIngest.type := Some "application/pdf";
       DashIngest.href :=
         Some "https://dash.harvard.edu/bitstream/1/1/torts.pdf?sequence=1" |}
  = "torts.pdf?sequence=1".
Proof.
  destruct (X16_dash_blob_name_is_the_last_segment
              {| DashIngest.type := Some "application/pdf";
                 DashIngest.href :=
                   Some "https://dash.harvard.edu/bitstream/1/1/torts.pdf?sequence=1" |})
    as (_ & Hafter & _).
  apply (Hafter "https://dash.harvard.edu/bitstream/1/1"); reflexivity.
Defined.

(** X17.  Whatever the feed and the services answer, a run of
    dash_ingest.py lists the container at most once for each PDF link of
    the feed (exactly once when the run returns), fetches at most once
    for each listing and uploads at most once for each fetch; every
    upload goes into the container law-dropzone under a name without a
    slash. *)
Theorem X17_dash_lists_before_it_fetches_before_it_uploads {W}
    (sv : DashIngest.Services W) (environ : gmap string string) (w : W) :
  let run := DashIngest.script sv environ w in
  length (DashIngest.uploaded (trace run)) <= length (DashIngest.gets (trace run))
  /\ length (DashIngest.gets (trace run)) <= DashIngest.listings (trace run)
  /\ (forall entries,
        (DashIngest.feedparser_parse sv DashIngest.DASH_FEED_URL w).1
        = Returned entries ->
        DashIngest.listings (trace run) <= length (DashIngest.pdf_links entries)
        /\ (outcome run = Ok tt ->
            DashIngest.listings (trace run)
            = length (DashIngest.pdf_links entries)))
  /\ (forall container name data,
        DashIngest.EvUploadBlob container name data ∈ trace run ->
        container = "law-dropzone" /\ Py.contains "/" name = false).
Proof.
  cbv zeta. rewrite dash_script_run.
  assert (Hnone : forall (r : result unit) (w' : W),
            length (DashIngest.uploaded (trace (r, w', @nil DashIngest.event)))
            <= length (DashIngest.gets (trace (r, w', @nil DashIngest.event)))
            /\ length (DashIngest.gets (trace (r, w', @nil DashIngest.event)))
               <= DashIngest.listings (trace (r, w', @nil DashIngest.event))).
  { intros r w'. cbn. lia. }
  destruct (environ !! "AZURE_STORAGE_CONN_STRING") as [conn|].
  2: { destruct (Hnone (Raise (Exc KeyError)) w) as [H1 H2].
       split; [exact H1|]. split; [exact H2|]. split.
       - intros entries _. cbn. split; [lia|done].
       - intros container name data Hin. cbn in Hin. by apply elem_of_nil in Hin. }
  destruct (DashIngest.from_connection_string sv conn) as [[]|e].
  2: { destruct (Hnone (Raise (Exc e)) w) as [H1 H2].
       split; [exact H1|]. split; [exact H2|]. split.
       - intros entries _. cbn. split; [lia|done].
       - intros container name data Hin. cbn in Hin. by apply elem_of_nil in Hin. }
  destruct (DashIngest.feedparser_parse sv DashIngest.DASH_FEED_URL w)
    as [[entries|e] w1]; cbn [fst].
  2: { rewrite trace_run. cbn. split; [lia|]. split; [lia|]. split; [done|].
       intros container name data Hin.
       apply list_elem_of_singleton in Hin. discriminate. }
  cbv zeta. rewrite outcome_run, trace_run.
  destruct (dash_for_entries_keeps sv entries w1)
    as ((Hnamed & Hup & Hget) & Hle & Heq).
  set (t := trace (DashIngest.for_entries sv entries w1)) in *.
  change (DashIngest.uploaded (DashIngest.EvFeedParse DashIngest.DASH_FEED_URL :: t))
    with (DashIngest.uploaded t).
  change (DashIngest.gets (DashIngest.EvFeedParse DashIngest.DASH_FEED_URL :: t))
    with (DashIngest.gets t).
  change (DashIngest.listings (DashIngest.EvFeedParse DashIngest.DASH_FEED_URL :: t))
    with (DashIngest.listings t).
  split; [done|]. split; [done|]. split.
  - intros entries' [= <-]. by split.
  - intros container name data [Hin|Hin]%elem_of_cons; [discriminate|].
    rewrite Forall_forall in Hnamed. exact (Hnamed _ Hin).
Qed.

Lemma X17_witness :
  let t := trace (DashIngest.script (DashIngest.sample_services (Returned pdf_ok))
                    DashIngest.sample_environ ∅) in
  DashIngest.listings t = 2.
Proof.
  cbv zeta.
  destruct (X17_dash_lists_before_it_fetches_before_it_uploads
              (DashIngest.sample_services (Returned pdf_ok))
              DashIngest.sample_environ ∅) as (_ & _ & Hlist & _).
  destruct (Hlist DashIngest.sample_feed eq_refl) as [_ Hall].
  rewrite Hall; reflexivity.
Defined.

(** *** dash_ingest.py over the reference container, every GET answered *)

Section DashContainerRuns.
Import DashIngest.
Context (feed : call (list Entry)) (get : string -> call Response).
Hypothesis get_answers : forall url, exists r, get url = Returned r.

Local Abbreviation sv := (container_services feed get).
Local Abbreviation store := (store_link get).

Lemma container_link (link : Link) (w : gmap string string) :
  is_pdf link = true -> readable link = true ->
  exists t, process_link sv link w = (Ok tt, store w link, t).
Proof.
  intros Hpdf Hread.
  assert (exists url, href link = Some url) as [url Hurl].
  { unfold is_pdf, readable in *. destruct (type link) as [ty|]; [|done].
    rewrite Hpdf in Hread. by apply bool_decide_eq_true in Hread as [url ->]; eauto. }
  unfold store_link. rewrite Hurl.
  destruct (w !! Py.last_segment "/" url) as [stored|] eqn:Hstored.
  { rewrite (stored_link_skipped feed get link url w Hpdf Hurl) by eauto.
    by eexists. }
  assert (Hnotin : Py.last_segment "/" url ∉ map fst (map_to_list w)).
  { rewrite listed_iff_stored, Hstored. by intros [??]. }
  destruct (get_answers url) as [r Hget]. rewrite Hget.
  destruct (Z.eqb_spec (status_code r) 200) as [Hok|Hfailed].
  - erewrite (process_link_uploads sv link url w w w _ _ r (Returned tt) Hpdf Hurl);
      [|reflexivity|exact Hnotin|by cbn; rewrite Hget|exact Hok
       |by cbn; rewrite Hstored].
    by eexists.
  - erewrite (process_link_failed sv link url w w w _ r Hpdf Hurl);
      [|reflexivity|exact Hnotin|by cbn; rewrite Hget|exact Hfailed].
    by eexists.
Qed.

Lemma container_links (ls : list Link) :
  forallb readable ls = true ->
  forall w, exists t,
    for_links sv ls w = (Ok tt, fold_left store (List.filter is_pdf ls) w, t).
Proof.
  induction ls as [|link rest IH]; [by eexists|].
  cbn [forallb]. intros [Hread Hrest]%andb_true_iff w.
  cbn [for_links List.filter]. destruct (is_pdf link) eqn:Hpdf.
  - destruct (container_link link w Hpdf Hread) as [t1 Hrun1].
    destruct (IH Hrest (store w link)) as [t2 Hrun2].
    rewrite (bind_ok _ _ _ _ _ _ Hrun1), Hrun2.
    rewrite outcome_run, world_run, trace_run. by eexists.
  - assert (Hother : other_type link = true).
    { unfold is_pdf, readable, other_type in *.
      destruct (type link) as [ty|]; [|done]. by rewrite Hpdf. }
    rewrite (bind_ok _ _ _ _ _ _ (process_link_no_pdf sv link w Hother)).
    destruct (IH Hrest w) as [t2 Hrun2].
    rewrite Hrun2, outcome_run, world_run, trace_run. by eexists.
Qed.

Lemma container_feed (entries : list Entry) :
  Forall (fun e => complete e = true) entries ->
  forall w, exists t,
    for_entries sv entries w = (Ok tt, fold_left store (pdf_links entries) w, t).
Proof.
  induction 1 as [|entry rest Hfull _ IH]; intros w; [by eexists|].
  unfold complete in Hfull. destruct (links entry) as [ls|] eqn:Hlinks; [|done].
  cbn [for_entries].
  destruct (container_links ls Hfull w) as [t1 Hrun1].
  rewrite <- (dash_process_entry_links sv entry ls w Hlinks) in Hrun1.
  destruct (IH (fold_left store (List.filter is_pdf ls) w)) as [t2 Hrun2].
  rewrite (bind_ok _ _ _ _ _ _ Hrun1), Hrun2.
  rewrite outcome_run, world_run, trace_run. eexists.
  unfold pdf_links. cbn [map concat]. rewrite Hlinks. cbn [default from_option id].
  by rewrite List.filter_app, fold_left_app.
Qed.

(** What the stored links leave: the container grows, every link
    answered with status 200 has its blob, and every new blob is the body
    of such an answer. *)
Lemma store_link_grows (w : gmap string string) (link : Link) : w ⊆ store w link.
Proof.
  unfold store_link. destruct (href link) as [url|]; [|done].
  destruct (w !! Py.last_segment "/" url) eqn:Hstored; [done|].
  destruct (get url) as [r|e]; [|done].
  destruct (status_code r =? 200)%Z; [|done]. by apply insert_subseteq.
Qed.

Lemma fold_store_grows (ls : list Link) :
  forall w, w ⊆ fold_left store ls w.
Proof.
  induction ls as [|link rest IH]; intros w; [done|]. cbn [fold_left].
  etrans; [apply store_link_grows|apply IH].
Qed.

Lemma fold_store_complete (ls : list Link) (link : Link) (url : string)
    (r : Response) :
  link ∈ ls -> href link = Some url -> get url = Returned r ->
  status_code r = 200%Z ->
  forall w, is_Some (fold_left store ls w !! Py.last_segment "/" url).
Proof.
  intros Hin Hurl Hget Hok.
  induction ls as [|l rest IH]; intros w; [by apply elem_of_nil in Hin|].
  cbn [fold_left]. apply elem_of_cons in Hin as [<-|Hrest]; [|by apply IH].
  assert (is_Some (store w link !! Py.last_segment "/" url)) as [data Hdata].
  { unfold store_link. rewrite Hurl, Hget, Hok, Z.eqb_refl.
    destruct (w !! Py.last_segment "/" url) eqn:Hstored; [by eauto|].
    rewrite lookup_insert_eq. by eauto. }
  exists data. eapply lookup_weaken; [exact Hdata|apply fold_store_grows].
Qed.

Lemma fold_store_origin (ls : list Link) :
  forall w name data,
    fold_left store ls w !! name = Some data ->
    w !! name = Some data
    \/ exists link url r,
         link ∈ ls /\ href link = Some url /\ name = Py.last_segment "/" url
         /\ get url = Returned r /\ status_code r = 200%Z /\ data = content r.
Proof.
  induction ls as [|link rest IH]; intros w name data; [by left|].
  cbn [fold_left]. intros Hdata.
  destruct (IH _ _ _ Hdata) as [Hhere|(l & url & r & Hl & ?)].
  2: { right. exists l, url, r. split; [by right|done]. }
  revert Hhere. unfold store_link.
  destruct (href link) as [url|] eqn:Hurl; [|by left].
  destruct (w !! Py.last_segment "/" url) eqn:Hstored; [by left|].
  destruct (get url) as [r|e] eqn:Hget; [|by left].
  destruct (Z.eqb_spec (status_code r) 200) as [Hok|Hfailed]; [|by left].
  destruct (decide (name = Py.last_segment "/" url)) as [->|Hother].
  - rewrite lookup_insert_eq. intros [= <-]. right.
    exists link, url, r. split; [by left|done].
  - rewrite lookup_insert_ne by done. by left.
Qed.

End DashContainerRuns.

(** X18.  Over a container that lists what it stores and refuses to
    overwrite, with every GET answered and every entry and link of the
    feed holding the keys the loops read, dash_ingest.py returns: its
    existence check keeps every upload off the stored names.  The
    container it leaves is the one it found with, link after link in feed
    order, the body of the PDF stored under the name of the link when
    that name is not stored yet and the GET is answered with status 200.
    So no stored blob is changed; every PDF link answered with status 200
    has a blob under its name; and every new blob holds the body of a PDF
    link of that name answered with status 200. *)
Theorem X18_dash_fills_the_container_without_overwriting
    (entries : list DashIngest.Entry) (get : string -> call Response)
    (environ : gmap string string) (w : gmap string string) :
  is_Some (environ !! "AZURE_STORAGE_CONN_STRING") ->
  (forall url, exists r, get url = Returned r) ->
  Forall (fun e => DashIngest.complete e = true) entries ->
  let sv := DashIngest.container_services (Returned entries) get in
  let run := DashIngest.script sv environ w in
  outcome run = Ok tt
  /\ world run
     = fold_left (DashIngest.store_link get) (DashIngest.pdf_links entries) w
  /\ (forall name data, w !! name = Some data -> world run !! name = Some data)
  /\ (forall link url r,
        link ∈ DashIngest.pdf_links entries ->
        DashIngest.href link = Some url ->
        get url = Returned r -> status_code r = 200%Z ->
        is_Some (world run !! Py.last_segment "/" url))
  /\ (forall name data,
        w !! name = None -> world run !! name = Some data ->
        exists link url r,
          link ∈ DashIngest.pdf_links entries
          /\ DashIngest.href link = Some url
          /\ name = Py.last_segment "/" url
          /\ get url = Returned r /\ status_code r = 200%Z
          /\ data = content r).
Proof.
  intros [conn Hconn] Hget Hfull. cbv zeta. rewrite dash_script_run, Hconn.
  cbn [DashIngest.from_connection_string DashIngest.feedparser_parse
       DashIngest.container_services].
  cbv zeta.
  destruct (container_feed (Returned entries) get Hget entries Hfull w) as [t ->].
  rewrite outcome_run, world_run. split; [done|]. split; [done|].
  split; [|split].
  - intros name data Hdata. eapply lookup_weaken; [exact Hdata|].
    apply fold_store_grows.
  - intros link url r Hin Hurl Hr Hok. by eapply fold_store_complete.
  - intros name data Hnone Hsome.
    destruct (fold_store_origin get _ _ _ _ Hsome) as [Hold|Hlink];
      [congruence|exact Hlink].
Qed.

Lemma X18_witness :
  let run := DashIngest.script (DashIngest.sample_services (Returned not_found))
               DashIngest.sample_environ {[ "contracts.pdf" := "stored" ]} in
  outcome run = Ok tt
  /\ world run = {[ "contracts.pdf" := "stored" ]}.
Proof.
  cbv zeta.
  destruct (X18_dash_fills_the_container_without_overwriting
              DashIngest.sample_feed
              (fun url => if String.eqb url DashIngest.first_url
                          then Returned not_found else Returned pdf_ok)
              DashIngest.sample_environ {[ "contracts.pdf" := "stored" ]})
    as (Hok & Hworld & _).
  - by eexists.
  - intros url. destruct (String.eqb url _); by eexists.
  - repeat constructor.
  - split; [exact Hok|]. unfold DashIngest.sample_services.
    rewrite Hworld. reflexivity.
Defined.


